(** * WWVB time-code generator (wwvb.h): encoder, sequencer and modulator

    The class [wwvb] of [src/wwvb.h] is embedded as a record of its data
    members together with the one output-compare register the interrupt
    routine writes.  Member functions become state transformers
    [wwvb -> wwvb]; fixed-width unsigned members are integers in [Z] with
    the wrap-around of [++] written out; the [boolean] arrays are lists
    of [bool] updated in place by index. *)

From Stdlib Require Import ZArith Bool List Lia.
From stdpp Require Import base list.
Import ListNotations.

#[local] Open Scope Z_scope.

(** ** Build configuration

    The header is specialised by the preprocessor: the chip family and the
    CPU clock [F_CPU] select the tick constants and the PWM register
    values. *)

Record build : Type := mk_build {
  attiny : bool;   (* __AVR_ATtiny85__ or __AVR_ATtiny45__ is defined *)
  F_CPU : Z
}.

Definition ATtiny85 : build := {| attiny := true; F_CPU := 16000000 |}.
Definition ATmega_16MHz : build := {| attiny := false; F_CPU := 16000000 |}.
Definition ATmega_8MHz : build := {| attiny := false; F_CPU := 8000000 |}.

(** [#if defined(__AVR_ATtiny85__) | defined(__AVR_ATtiny45__) | (F_CPU == 16000000)] *)
Definition fast_branch (b : build) : bool := attiny b || (F_CPU b =? 16000000).

(** ** The object *)

Record wwvb : Type := mk_wwvb {
  MINS : list bool;
  HOUR : list bool;
  DOTY : list bool;
  DUT1 : list bool;
  YEAR : list bool;
  MISC : list bool;
  t_ss : Z;
  t_mm : Z;
  t_hh : Z;
  t_DD : Z;
  t_MM : Z;
  t_YY : Z;
  mins_ : Z;
  hour_ : Z;
  DD_ : Z;
  MM_ : Z;
  YY_ : Z;
  doty_ : Z;
  is_leap_year_ : bool;
  daylight_savings_ : Z;
  WWVB_LOW : Z;
  WWVB_HIGH : Z;
  WWVB_MARKER : Z;
  WWVB_ENDOFBIT : Z;
  pulse_width : list Z;
  WWVB_LOWTIME : Z;
  PWM_LOW : Z;
  PWM_HIGH : Z;
  isr_count : Z;
  frame_index : Z;
  subframe_index : Z;
  _is_active : bool;
  OCR1x : Z
}.

(** *** Field updates *)

Definition with_MINS (v : list bool) (st : wwvb) : wwvb :=
  {| MINS := v; HOUR := HOUR st; DOTY := DOTY st; DUT1 := DUT1 st; YEAR := YEAR st;
     MISC := MISC st; t_ss := t_ss st; t_mm := t_mm st; t_hh := t_hh st; t_DD := t_DD st;
     t_MM := t_MM st; t_YY := t_YY st; mins_ := mins_ st; hour_ := hour_ st; DD_ := DD_ st;
     MM_ := MM_ st; YY_ := YY_ st; doty_ := doty_ st; is_leap_year_ := is_leap_year_ st;
     daylight_savings_ := daylight_savings_ st; WWVB_LOW := WWVB_LOW st;
     WWVB_HIGH := WWVB_HIGH st; WWVB_MARKER := WWVB_MARKER st;
     WWVB_ENDOFBIT := WWVB_ENDOFBIT st; pulse_width := pulse_width st;
     WWVB_LOWTIME := WWVB_LOWTIME st; PWM_LOW := PWM_LOW st; PWM_HIGH := PWM_HIGH st;
     isr_count := isr_count st; frame_index := frame_index st;
     subframe_index := subframe_index st; _is_active := _is_active st; OCR1x := OCR1x st |}.
Definition with_HOUR (v : list bool) (st : wwvb) : wwvb :=
  {| MINS := MINS st; HOUR := v; DOTY := DOTY st; DUT1 := DUT1 st; YEAR := YEAR st;
     MISC := MISC st; t_ss := t_ss st; t_mm := t_mm st; t_hh := t_hh st; t_DD := t_DD st;
     t_MM := t_MM st; t_YY := t_YY st; mins_ := mins_ st; hour_ := hour_ st; DD_ := DD_ st;
     MM_ := MM_ st; YY_ := YY_ st; doty_ := doty_ st; is_leap_year_ := is_leap_year_ st;
     daylight_savings_ := daylight_savings_ st; WWVB_LOW := WWVB_LOW st;
     WWVB_HIGH := WWVB_HIGH st; WWVB_MARKER := WWVB_MARKER st;
     WWVB_ENDOFBIT := WWVB_ENDOFBIT st; pulse_width := pulse_width st;
     WWVB_LOWTIME := WWVB_LOWTIME st; PWM_LOW := PWM_LOW st; PWM_HIGH := PWM_HIGH st;
     isr_count := isr_count st; frame_index := frame_index st;
     subframe_index := subframe_index st; _is_active := _is_active st; OCR1x := OCR1x st |}.
Definition with_DOTY (v : list bool) (st : wwvb) : wwvb :=
  {| MINS := MINS st; HOUR := HOUR st; DOTY := v; DUT1 := DUT1 st; YEAR := YEAR st;
     MISC := MISC st; t_ss := t_ss st; t_mm := t_mm st; t_hh := t_hh st; t_DD := t_DD st;
     t_MM := t_MM st; t_YY := t_YY st; mins_ := mins_ st; hour_ := hour_ st; DD_ := DD_ st;
     MM_ := MM_ st; YY_ := YY_ st; doty_ := doty_ st; is_leap_year_ := is_leap_year_ st;
     daylight_savings_ := daylight_savings_ st; WWVB_LOW := WWVB_LOW st;
     WWVB_HIGH := WWVB_HIGH st; WWVB_MARKER := WWVB_MARKER st;
     WWVB_ENDOFBIT := WWVB_ENDOFBIT st; pulse_width := pulse_width st;
     WWVB_LOWTIME := WWVB_LOWTIME st; PWM_LOW := PWM_LOW st; PWM_HIGH := PWM_HIGH st;
     isr_count := isr_count st; frame_index := frame_index st;
     subframe_index := subframe_index st; _is_active := _is_active st; OCR1x := OCR1x st |}.
Definition with_DUT1 (v : list bool) (st : wwvb) : wwvb :=
  {| MINS := MINS st; HOUR := HOUR st; DOTY := DOTY st; DUT1 := v; YEAR := YEAR st;
     MISC := MISC st; t_ss := t_ss st; t_mm := t_mm st; t_hh := t_hh st; t_DD := t_DD st;
     t_MM := t_MM st; t_YY := t_YY st; mins_ := mins_ st; hour_ := hour_ st; DD_ := DD_ st;
     MM_ := MM_ st; YY_ := YY_ st; doty_ := doty_ st; is_leap_year_ := is_leap_year_ st;
     daylight_savings_ := daylight_savings_ st; WWVB_LOW := WWVB_LOW st;
     WWVB_HIGH := WWVB_HIGH st; WWVB_MARKER := WWVB_MARKER st;
     WWVB_ENDOFBIT := WWVB_ENDOFBIT st; pulse_width := pulse_width st;
     WWVB_LOWTIME := WWVB_LOWTIME st; PWM_LOW := PWM_LOW st; PWM_HIGH := PWM_HIGH st;
     isr_count := isr_count st; frame_index := frame_index st;
     subframe_index := subframe_index st; _is_active := _is_active st; OCR1x := OCR1x st |}.
Definition with_YEAR (v : list bool) (st : wwvb) : wwvb :=
  {| MINS := MINS st; HOUR := HOUR st; DOTY := DOTY st; DUT1 := DUT1 st; YEAR := v;
     MISC := MISC st; t_ss := t_ss st; t_mm := t_mm st; t_hh := t_hh st; t_DD := t_DD st;
     t_MM := t_MM st; t_YY := t_YY st; mins_ := mins_ st; hour_ := hour_ st; DD_ := DD_ st;
     MM_ := MM_ st; YY_ := YY_ st; doty_ := doty_ st; is_leap_year_ := is_leap_year_ st;
     daylight_savings_ := daylight_savings_ st; WWVB_LOW := WWVB_LOW st;
     WWVB_HIGH := WWVB_HIGH st; WWVB_MARKER := WWVB_MARKER st;
     WWVB_ENDOFBIT := WWVB_ENDOFBIT st; pulse_width := pulse_width st;
     WWVB_LOWTIME := WWVB_LOWTIME st; PWM_LOW := PWM_LOW st; PWM_HIGH := PWM_HIGH st;
     isr_count := isr_count st; frame_index := frame_index st;
     subframe_index := subframe_index st; _is_active := _is_active st; OCR1x := OCR1x st |}.
Definition with_MISC (v : list bool) (st : wwvb) : wwvb :=
  {| MINS := MINS st; HOUR := HOUR st; DOTY := DOTY st; DUT1 := DUT1 st; YEAR := YEAR st;
     MISC := v; t_ss := t_ss st; t_mm := t_mm st; t_hh := t_hh st; t_DD := t_DD st;
     t_MM := t_MM st; t_YY := t_YY st; mins_ := mins_ st; hour_ := hour_ st; DD_ := DD_ st;
     MM_ := MM_ st; YY_ := YY_ st; doty_ := doty_ st; is_leap_year_ := is_leap_year_ st;
     daylight_savings_ := daylight_savings_ st; WWVB_LOW := WWVB_LOW st;
     WWVB_HIGH := WWVB_HIGH st; WWVB_MARKER := WWVB_MARKER st;
     WWVB_ENDOFBIT := WWVB_ENDOFBIT st; pulse_width := pulse_width st;
     WWVB_LOWTIME := WWVB_LOWTIME st; PWM_LOW := PWM_LOW st; PWM_HIGH := PWM_HIGH st;
     isr_count := isr_count st; frame_index := frame_index st;
     subframe_index := subframe_index st; _is_active := _is_active st; OCR1x := OCR1x st |}.
Definition with_t_ss (v : Z) (st : wwvb) : wwvb :=
  {| MINS := MINS st; HOUR := HOUR st; DOTY := DOTY st; DUT1 := DUT1 st; YEAR := YEAR st;
     MISC := MISC st; t_ss := v; t_mm := t_mm st; t_hh := t_hh st; t_DD := t_DD st;
     t_MM := t_MM st; t_YY := t_YY st; mins_ := mins_ st; hour_ := hour_ st; DD_ := DD_ st;
     MM_ := MM_ st; YY_ := YY_ st; doty_ := doty_ st; is_leap_year_ := is_leap_year_ st;
     daylight_savings_ := daylight_savings_ st; WWVB_LOW := WWVB_LOW st;
     WWVB_HIGH := WWVB_HIGH st; WWVB_MARKER := WWVB_MARKER st;
     WWVB_ENDOFBIT := WWVB_ENDOFBIT st; pulse_width := pulse_width st;
     WWVB_LOWTIME := WWVB_LOWTIME st; PWM_LOW := PWM_LOW st; PWM_HIGH := PWM_HIGH st;
     isr_count := isr_count st; frame_index := frame_index st;
     subframe_index := subframe_index st; _is_active := _is_active st; OCR1x := OCR1x st |}.
Definition with_t_mm (v : Z) (st : wwvb) : wwvb :=
  {| MINS := MINS st; HOUR := HOUR st; DOTY := DOTY st; DUT1 := DUT1 st; YEAR := YEAR st;
     MISC := MISC st; t_ss := t_ss st; t_mm := v; t_hh := t_hh st; t_DD := t_DD st;
     t_MM := t_MM st; t_YY := t_YY st; mins_ := mins_ st; hour_ := hour_ st; DD_ := DD_ st;
     MM_ := MM_ st; YY_ := YY_ st; doty_ := doty_ st; is_leap_year_ := is_leap_year_ st;
     daylight_savings_ := daylight_savings_ st; WWVB_LOW := WWVB_LOW st;
     WWVB_HIGH := WWVB_HIGH st; WWVB_MARKER := WWVB_MARKER st;
     WWVB_ENDOFBIT := WWVB_ENDOFBIT st; pulse_width := pulse_width st;
     WWVB_LOWTIME := WWVB_LOWTIME st; PWM_LOW := PWM_LOW st; PWM_HIGH := PWM_HIGH st;
     isr_count := isr_count st; frame_index := frame_index st;
     subframe_index := subframe_index st; _is_active := _is_active st; OCR1x := OCR1x st |}.
Definition with_t_hh (v : Z) (st : wwvb) : wwvb :=
  {| MINS := MINS st; HOUR := HOUR st; DOTY := DOTY st; DUT1 := DUT1 st; YEAR := YEAR st;
     MISC := MISC st; t_ss := t_ss st; t_mm := t_mm st; t_hh := v; t_DD := t_DD st;
     t_MM := t_MM st; t_YY := t_YY st; mins_ := mins_ st; hour_ := hour_ st; DD_ := DD_ st;
     MM_ := MM_ st; YY_ := YY_ st; doty_ := doty_ st; is_leap_year_ := is_leap_year_ st;
     daylight_savings_ := daylight_savings_ st; WWVB_LOW := WWVB_LOW st;
     WWVB_HIGH := WWVB_HIGH st; WWVB_MARKER := WWVB_MARKER st;
     WWVB_ENDOFBIT := WWVB_ENDOFBIT st; pulse_width := pulse_width st;
     WWVB_LOWTIME := WWVB_LOWTIME st; PWM_LOW := PWM_LOW st; PWM_HIGH := PWM_HIGH st;
     isr_count := isr_count st; frame_index := frame_index st;
     subframe_index := subframe_index st; _is_active := _is_active st; OCR1x := OCR1x st |}.
Definition with_t_DD (v : Z) (st : wwvb) : wwvb :=
  {| MINS := MINS st; HOUR := HOUR st; DOTY := DOTY st; DUT1 := DUT1 st; YEAR := YEAR st;
     MISC := MISC st; t_ss := t_ss st; t_mm := t_mm st; t_hh := t_hh st; t_DD := v;
     t_MM := t_MM st; t_YY := t_YY st; mins_ := mins_ st; hour_ := hour_ st; DD_ := DD_ st;
     MM_ := MM_ st; YY_ := YY_ st; doty_ := doty_ st; is_leap_year_ := is_leap_year_ st;
     daylight_savings_ := daylight_savings_ st; WWVB_LOW := WWVB_LOW st;
     WWVB_HIGH := WWVB_HIGH st; WWVB_MARKER := WWVB_MARKER st;
     WWVB_ENDOFBIT := WWVB_ENDOFBIT st; pulse_width := pulse_width st;
     WWVB_LOWTIME := WWVB_LOWTIME st; PWM_LOW := PWM_LOW st; PWM_HIGH := PWM_HIGH st;
     isr_count := isr_count st; frame_index := frame_index st;
     subframe_index := subframe_index st; _is_active := _is_active st; OCR1x := OCR1x st |}.
Definition with_t_MM (v : Z) (st : wwvb) : wwvb :=
  {| MINS := MINS st; HOUR := HOUR st; DOTY := DOTY st; DUT1 := DUT1 st; YEAR := YEAR st;
     MISC := MISC st; t_ss := t_ss st; t_mm := t_mm st; t_hh := t_hh st; t_DD := t_DD st;
     t_MM := v; t_YY := t_YY st; mins_ := mins_ st; hour_ := hour_ st; DD_ := DD_ st;
     MM_ := MM_ st; YY_ := YY_ st; doty_ := doty_ st; is_leap_year_ := is_leap_year_ st;
     daylight_savings_ := daylight_savings_ st; WWVB_LOW := WWVB_LOW st;
     WWVB_HIGH := WWVB_HIGH st; WWVB_MARKER := WWVB_MARKER st;
     WWVB_ENDOFBIT := WWVB_ENDOFBIT st; pulse_width := pulse_width st;
     WWVB_LOWTIME := WWVB_LOWTIME st; PWM_LOW := PWM_LOW st; PWM_HIGH := PWM_HIGH st;
     isr_count := isr_count st; frame_index := frame_index st;
     subframe_index := subframe_index st; _is_active := _is_active st; OCR1x := OCR1x st |}.
Definition with_t_YY (v : Z) (st : wwvb) : wwvb :=
  {| MINS := MINS st; HOUR := HOUR st; DOTY := DOTY st; DUT1 := DUT1 st; YEAR := YEAR st;
     MISC := MISC st; t_ss := t_ss st; t_mm := t_mm st; t_hh := t_hh st; t_DD := t_DD st;
     t_MM := t_MM st; t_YY := v; mins_ := mins_ st; hour_ := hour_ st; DD_ := DD_ st;
     MM_ := MM_ st; YY_ := YY_ st; doty_ := doty_ st; is_leap_year_ := is_leap_year_ st;
     daylight_savings_ := daylight_savings_ st; WWVB_LOW := WWVB_LOW st;
     WWVB_HIGH := WWVB_HIGH st; WWVB_MARKER := WWVB_MARKER st;
     WWVB_ENDOFBIT := WWVB_ENDOFBIT st; pulse_width := pulse_width st;
     WWVB_LOWTIME := WWVB_LOWTIME st; PWM_LOW := PWM_LOW st; PWM_HIGH := PWM_HIGH st;
     isr_count := isr_count st; frame_index := frame_index st;
     subframe_index := subframe_index st; _is_active := _is_active st; OCR1x := OCR1x st |}.
Definition with_mins_ (v : Z) (st : wwvb) : wwvb :=
  {| MINS := MINS st; HOUR := HOUR st; DOTY := DOTY st; DUT1 := DUT1 st; YEAR := YEAR st;
     MISC := MISC st; t_ss := t_ss st; t_mm := t_mm st; t_hh := t_hh st; t_DD := t_DD st;
     t_MM := t_MM st; t_YY := t_YY st; mins_ := v; hour_ := hour_ st; DD_ := DD_ st;
     MM_ := MM_ st; YY_ := YY_ st; doty_ := doty_ st; is_leap_year_ := is_leap_year_ st;
     daylight_savings_ := daylight_savings_ st; WWVB_LOW := WWVB_LOW st;
     WWVB_HIGH := WWVB_HIGH st; WWVB_MARKER := WWVB_MARKER st;
     WWVB_ENDOFBIT := WWVB_ENDOFBIT st; pulse_width := pulse_width st;
     WWVB_LOWTIME := WWVB_LOWTIME st; PWM_LOW := PWM_LOW st; PWM_HIGH := PWM_HIGH st;
     isr_count := isr_count st; frame_index := frame_index st;
     subframe_index := subframe_index st; _is_active := _is_active st; OCR1x := OCR1x st |}.
Definition with_hour_ (v : Z) (st : wwvb) : wwvb :=
  {| MINS := MINS st; HOUR := HOUR st; DOTY := DOTY st; DUT1 := DUT1 st; YEAR := YEAR st;
     MISC := MISC st; t_ss := t_ss st; t_mm := t_mm st; t_hh := t_hh st; t_DD := t_DD st;
     t_MM := t_MM st; t_YY := t_YY st; mins_ := mins_ st; hour_ := v; DD_ := DD_ st;
     MM_ := MM_ st; YY_ := YY_ st; doty_ := doty_ st; is_leap_year_ := is_leap_year_ st;
     daylight_savings_ := daylight_savings_ st; WWVB_LOW := WWVB_LOW st;
     WWVB_HIGH := WWVB_HIGH st; WWVB_MARKER := WWVB_MARKER st;
     WWVB_ENDOFBIT := WWVB_ENDOFBIT st; pulse_width := pulse_width st;
     WWVB_LOWTIME := WWVB_LOWTIME st; PWM_LOW := PWM_LOW st; PWM_HIGH := PWM_HIGH st;
     isr_count := isr_count st; frame_index := frame_index st;
     subframe_index := subframe_index st; _is_active := _is_active st; OCR1x := OCR1x st |}.
Definition with_DD_ (v : Z) (st : wwvb) : wwvb :=
  {| MINS := MINS st; HOUR := HOUR st; DOTY := DOTY st; DUT1 := DUT1 st; YEAR := YEAR st;
     MISC := MISC st; t_ss := t_ss st; t_mm := t_mm st; t_hh := t_hh st; t_DD := t_DD st;
     t_MM := t_MM st; t_YY := t_YY st; mins_ := mins_ st; hour_ := hour_ st; DD_ := v;
     MM_ := MM_ st; YY_ := YY_ st; doty_ := doty_ st; is_leap_year_ := is_leap_year_ st;
     daylight_savings_ := daylight_savings_ st; WWVB_LOW := WWVB_LOW st;
     WWVB_HIGH := WWVB_HIGH st; WWVB_MARKER := WWVB_MARKER st;
     WWVB_ENDOFBIT := WWVB_ENDOFBIT st; pulse_width := pulse_width st;
     WWVB_LOWTIME := WWVB_LOWTIME st; PWM_LOW := PWM_LOW st; PWM_HIGH := PWM_HIGH st;
     isr_count := isr_count st; frame_index := frame_index st;
     subframe_index := subframe_index st; _is_active := _is_active st; OCR1x := OCR1x st |}.
Definition with_MM_ (v : Z) (st : wwvb) : wwvb :=
  {| MINS := MINS st; HOUR := HOUR st; DOTY := DOTY st; DUT1 := DUT1 st; YEAR := YEAR st;
     MISC := MISC st; t_ss := t_ss st; t_mm := t_mm st; t_hh := t_hh st; t_DD := t_DD st;
     t_MM := t_MM st; t_YY := t_YY st; mins_ := mins_ st; hour_ := hour_ st; DD_ := DD_ st;
     MM_ := v; YY_ := YY_ st; doty_ := doty_ st; is_leap_year_ := is_leap_year_ st;
     daylight_savings_ := daylight_savings_ st; WWVB_LOW := WWVB_LOW st;
     WWVB_HIGH := WWVB_HIGH st; WWVB_MARKER := WWVB_MARKER st;
     WWVB_ENDOFBIT := WWVB_ENDOFBIT st; pulse_width := pulse_width st;
     WWVB_LOWTIME := WWVB_LOWTIME st; PWM_LOW := PWM_LOW st; PWM_HIGH := PWM_HIGH st;
     isr_count := isr_count st; frame_index := frame_index st;
     subframe_index := subframe_index st; _is_active := _is_active st; OCR1x := OCR1x st |}.
Definition with_YY_ (v : Z) (st : wwvb) : wwvb :=
  {| MINS := MINS st; HOUR := HOUR st; DOTY := DOTY st; DUT1 := DUT1 st; YEAR := YEAR st;
     MISC := MISC st; t_ss := t_ss st; t_mm := t_mm st; t_hh := t_hh st; t_DD := t_DD st;
     t_MM := t_MM st; t_YY := t_YY st; mins_ := mins_ st; hour_ := hour_ st; DD_ := DD_ st;
     MM_ := MM_ st; YY_ := v; doty_ := doty_ st; is_leap_year_ := is_leap_year_ st;
     daylight_savings_ := daylight_savings_ st; WWVB_LOW := WWVB_LOW st;
     WWVB_HIGH := WWVB_HIGH st; WWVB_MARKER := WWVB_MARKER st;
     WWVB_ENDOFBIT := WWVB_ENDOFBIT st; pulse_width := pulse_width st;
     WWVB_LOWTIME := WWVB_LOWTIME st; PWM_LOW := PWM_LOW st; PWM_HIGH := PWM_HIGH st;
     isr_count := isr_count st; frame_index := frame_index st;
     subframe_index := subframe_index st; _is_active := _is_active st; OCR1x := OCR1x st |}.
Definition with_doty_ (v : Z) (st : wwvb) : wwvb :=
  {| MINS := MINS st; HOUR := HOUR st; DOTY := DOTY st; DUT1 := DUT1 st; YEAR := YEAR st;
     MISC := MISC st; t_ss := t_ss st; t_mm := t_mm st; t_hh := t_hh st; t_DD := t_DD st;
     t_MM := t_MM st; t_YY := t_YY st; mins_ := mins_ st; hour_ := hour_ st; DD_ := DD_ st;
     MM_ := MM_ st; YY_ := YY_ st; doty_ := v; is_leap_year_ := is_leap_year_ st;
     daylight_savings_ := daylight_savings_ st; WWVB_LOW := WWVB_LOW st;
     WWVB_HIGH := WWVB_HIGH st; WWVB_MARKER := WWVB_MARKER st;
     WWVB_ENDOFBIT := WWVB_ENDOFBIT st; pulse_width := pulse_width st;
     WWVB_LOWTIME := WWVB_LOWTIME st; PWM_LOW := PWM_LOW st; PWM_HIGH := PWM_HIGH st;
     isr_count := isr_count st; frame_index := frame_index st;
     subframe_index := subframe_index st; _is_active := _is_active st; OCR1x := OCR1x st |}.
Definition with_is_leap_year_ (v : bool) (st : wwvb) : wwvb :=
  {| MINS := MINS st; HOUR := HOUR st; DOTY := DOTY st; DUT1 := DUT1 st; YEAR := YEAR st;
     MISC := MISC st; t_ss := t_ss st; t_mm := t_mm st; t_hh := t_hh st; t_DD := t_DD st;
     t_MM := t_MM st; t_YY := t_YY st; mins_ := mins_ st; hour_ := hour_ st; DD_ := DD_ st;
     MM_ := MM_ st; YY_ := YY_ st; doty_ := doty_ st; is_leap_year_ := v;
     daylight_savings_ := daylight_savings_ st; WWVB_LOW := WWVB_LOW st;
     WWVB_HIGH := WWVB_HIGH st; WWVB_MARKER := WWVB_MARKER st;
     WWVB_ENDOFBIT := WWVB_ENDOFBIT st; pulse_width := pulse_width st;
     WWVB_LOWTIME := WWVB_LOWTIME st; PWM_LOW := PWM_LOW st; PWM_HIGH := PWM_HIGH st;
     isr_count := isr_count st; frame_index := frame_index st;
     subframe_index := subframe_index st; _is_active := _is_active st; OCR1x := OCR1x st |}.
Definition with_daylight_savings_ (v : Z) (st : wwvb) : wwvb :=
  {| MINS := MINS st; HOUR := HOUR st; DOTY := DOTY st; DUT1 := DUT1 st; YEAR := YEAR st;
     MISC := MISC st; t_ss := t_ss st; t_mm := t_mm st; t_hh := t_hh st; t_DD := t_DD st;
     t_MM := t_MM st; t_YY := t_YY st; mins_ := mins_ st; hour_ := hour_ st; DD_ := DD_ st;
     MM_ := MM_ st; YY_ := YY_ st; doty_ := doty_ st; is_leap_year_ := is_leap_year_ st;
     daylight_savings_ := v; WWVB_LOW := WWVB_LOW st; WWVB_HIGH := WWVB_HIGH st;
     WWVB_MARKER := WWVB_MARKER st; WWVB_ENDOFBIT := WWVB_ENDOFBIT st;
     pulse_width := pulse_width st; WWVB_LOWTIME := WWVB_LOWTIME st; PWM_LOW := PWM_LOW st;
     PWM_HIGH := PWM_HIGH st; isr_count := isr_count st; frame_index := frame_index st;
     subframe_index := subframe_index st; _is_active := _is_active st; OCR1x := OCR1x st |}.
Definition with_WWVB_LOW (v : Z) (st : wwvb) : wwvb :=
  {| MINS := MINS st; HOUR := HOUR st; DOTY := DOTY st; DUT1 := DUT1 st; YEAR := YEAR st;
     MISC := MISC st; t_ss := t_ss st; t_mm := t_mm st; t_hh := t_hh st; t_DD := t_DD st;
     t_MM := t_MM st; t_YY := t_YY st; mins_ := mins_ st; hour_ := hour_ st; DD_ := DD_ st;
     MM_ := MM_ st; YY_ := YY_ st; doty_ := doty_ st; is_leap_year_ := is_leap_year_ st;
     daylight_savings_ := daylight_savings_ st; WWVB_LOW := v; WWVB_HIGH := WWVB_HIGH st;
     WWVB_MARKER := WWVB_MARKER st; WWVB_ENDOFBIT := WWVB_ENDOFBIT st;
     pulse_width := pulse_width st; WWVB_LOWTIME := WWVB_LOWTIME st; PWM_LOW := PWM_LOW st;
     PWM_HIGH := PWM_HIGH st; isr_count := isr_count st; frame_index := frame_index st;
     subframe_index := subframe_index st; _is_active := _is_active st; OCR1x := OCR1x st |}.
Definition with_WWVB_HIGH (v : Z) (st : wwvb) : wwvb :=
  {| MINS := MINS st; HOUR := HOUR st; DOTY := DOTY st; DUT1 := DUT1 st; YEAR := YEAR st;
     MISC := MISC st; t_ss := t_ss st; t_mm := t_mm st; t_hh := t_hh st; t_DD := t_DD st;
     t_MM := t_MM st; t_YY := t_YY st; mins_ := mins_ st; hour_ := hour_ st; DD_ := DD_ st;
     MM_ := MM_ st; YY_ := YY_ st; doty_ := doty_ st; is_leap_year_ := is_leap_year_ st;
     daylight_savings_ := daylight_savings_ st; WWVB_LOW := WWVB_LOW st; WWVB_HIGH := v;
     WWVB_MARKER := WWVB_MARKER st; WWVB_ENDOFBIT := WWVB_ENDOFBIT st;
     pulse_width := pulse_width st; WWVB_LOWTIME := WWVB_LOWTIME st; PWM_LOW := PWM_LOW st;
     PWM_HIGH := PWM_HIGH st; isr_count := isr_count st; frame_index := frame_index st;
     subframe_index := subframe_index st; _is_active := _is_active st; OCR1x := OCR1x st |}.
Definition with_WWVB_MARKER (v : Z) (st : wwvb) : wwvb :=
  {| MINS := MINS st; HOUR := HOUR st; DOTY := DOTY st; DUT1 := DUT1 st; YEAR := YEAR st;
     MISC := MISC st; t_ss := t_ss st; t_mm := t_mm st; t_hh := t_hh st; t_DD := t_DD st;
     t_MM := t_MM st; t_YY := t_YY st; mins_ := mins_ st; hour_ := hour_ st; DD_ := DD_ st;
     MM_ := MM_ st; YY_ := YY_ st; doty_ := doty_ st; is_leap_year_ := is_leap_year_ st;
     daylight_savings_ := daylight_savings_ st; WWVB_LOW := WWVB_LOW st;
     WWVB_HIGH := WWVB_HIGH st; WWVB_MARKER := v; WWVB_ENDOFBIT := WWVB_ENDOFBIT st;
     pulse_width := pulse_width st; WWVB_LOWTIME := WWVB_LOWTIME st; PWM_LOW := PWM_LOW st;
     PWM_HIGH := PWM_HIGH st; isr_count := isr_count st; frame_index := frame_index st;
     subframe_index := subframe_index st; _is_active := _is_active st; OCR1x := OCR1x st |}.
Definition with_WWVB_ENDOFBIT (v : Z) (st : wwvb) : wwvb :=
  {| MINS := MINS st; HOUR := HOUR st; DOTY := DOTY st; DUT1 := DUT1 st; YEAR := YEAR st;
     MISC := MISC st; t_ss := t_ss st; t_mm := t_mm st; t_hh := t_hh st; t_DD := t_DD st;
     t_MM := t_MM st; t_YY := t_YY st; mins_ := mins_ st; hour_ := hour_ st; DD_ := DD_ st;
     MM_ := MM_ st; YY_ := YY_ st; doty_ := doty_ st; is_leap_year_ := is_leap_year_ st;
     daylight_savings_ := daylight_savings_ st; WWVB_LOW := WWVB_LOW st;
     WWVB_HIGH := WWVB_HIGH st; WWVB_MARKER := WWVB_MARKER st; WWVB_ENDOFBIT := v;
     pulse_width := pulse_width st; WWVB_LOWTIME := WWVB_LOWTIME st; PWM_LOW := PWM_LOW st;
     PWM_HIGH := PWM_HIGH st; isr_count := isr_count st; frame_index := frame_index st;
     subframe_index := subframe_index st; _is_active := _is_active st; OCR1x := OCR1x st |}.
Definition with_pulse_width (v : list Z) (st : wwvb) : wwvb :=
  {| MINS := MINS st; HOUR := HOUR st; DOTY := DOTY st; DUT1 := DUT1 st; YEAR := YEAR st;
     MISC := MISC st; t_ss := t_ss st; t_mm := t_mm st; t_hh := t_hh st; t_DD := t_DD st;
     t_MM := t_MM st; t_YY := t_YY st; mins_ := mins_ st; hour_ := hour_ st; DD_ := DD_ st;
     MM_ := MM_ st; YY_ := YY_ st; doty_ := doty_ st; is_leap_year_ := is_leap_year_ st;
     daylight_savings_ := daylight_savings_ st; WWVB_LOW := WWVB_LOW st;
     WWVB_HIGH := WWVB_HIGH st; WWVB_MARKER := WWVB_MARKER st;
     WWVB_ENDOFBIT := WWVB_ENDOFBIT st; pulse_width := v; WWVB_LOWTIME := WWVB_LOWTIME st;
     PWM_LOW := PWM_LOW st; PWM_HIGH := PWM_HIGH st; isr_count := isr_count st;
     frame_index := frame_index st; subframe_index := subframe_index st;
     _is_active := _is_active st; OCR1x := OCR1x st |}.
Definition with_WWVB_LOWTIME (v : Z) (st : wwvb) : wwvb :=
  {| MINS := MINS st; HOUR := HOUR st; DOTY := DOTY st; DUT1 := DUT1 st; YEAR := YEAR st;
     MISC := MISC st; t_ss := t_ss st; t_mm := t_mm st; t_hh := t_hh st; t_DD := t_DD st;
     t_MM := t_MM st; t_YY := t_YY st; mins_ := mins_ st; hour_ := hour_ st; DD_ := DD_ st;
     MM_ := MM_ st; YY_ := YY_ st; doty_ := doty_ st; is_leap_year_ := is_leap_year_ st;
     daylight_savings_ := daylight_savings_ st; WWVB_LOW := WWVB_LOW st;
     WWVB_HIGH := WWVB_HIGH st; WWVB_MARKER := WWVB_MARKER st;
     WWVB_ENDOFBIT := WWVB_ENDOFBIT st; pulse_width := pulse_width st; WWVB_LOWTIME := v;
     PWM_LOW := PWM_LOW st; PWM_HIGH := PWM_HIGH st; isr_count := isr_count st;
     frame_index := frame_index st; subframe_index := subframe_index st;
     _is_active := _is_active st; OCR1x := OCR1x st |}.
Definition with_PWM_LOW (v : Z) (st : wwvb) : wwvb :=
  {| MINS := MINS st; HOUR := HOUR st; DOTY := DOTY st; DUT1 := DUT1 st; YEAR := YEAR st;
     MISC := MISC st; t_ss := t_ss st; t_mm := t_mm st; t_hh := t_hh st; t_DD := t_DD st;
     t_MM := t_MM st; t_YY := t_YY st; mins_ := mins_ st; hour_ := hour_ st; DD_ := DD_ st;
     MM_ := MM_ st; YY_ := YY_ st; doty_ := doty_ st; is_leap_year_ := is_leap_year_ st;
     daylight_savings_ := daylight_savings_ st; WWVB_LOW := WWVB_LOW st;
     WWVB_HIGH := WWVB_HIGH st; WWVB_MARKER := WWVB_MARKER st;
     WWVB_ENDOFBIT := WWVB_ENDOFBIT st; pulse_width := pulse_width st;
     WWVB_LOWTIME := WWVB_LOWTIME st; PWM_LOW := v; PWM_HIGH := PWM_HIGH st;
     isr_count := isr_count st; frame_index := frame_index st;
     subframe_index := subframe_index st; _is_active := _is_active st; OCR1x := OCR1x st |}.
Definition with_PWM_HIGH (v : Z) (st : wwvb) : wwvb :=
  {| MINS := MINS st; HOUR := HOUR st; DOTY := DOTY st; DUT1 := DUT1 st; YEAR := YEAR st;
     MISC := MISC st; t_ss := t_ss st; t_mm := t_mm st; t_hh := t_hh st; t_DD := t_DD st;
     t_MM := t_MM st; t_YY := t_YY st; mins_ := mins_ st; hour_ := hour_ st; DD_ := DD_ st;
     MM_ := MM_ st; YY_ := YY_ st; doty_ := doty_ st; is_leap_year_ := is_leap_year_ st;
     daylight_savings_ := daylight_savings_ st; WWVB_LOW := WWVB_LOW st;
     WWVB_HIGH := WWVB_HIGH st; WWVB_MARKER := WWVB_MARKER st;
     WWVB_ENDOFBIT := WWVB_ENDOFBIT st; pulse_width := pulse_width st;
     WWVB_LOWTIME := WWVB_LOWTIME st; PWM_LOW := PWM_LOW st; PWM_HIGH := v;
     isr_count := isr_count st; frame_index := frame_index st;
     subframe_index := subframe_index st; _is_active := _is_active st; OCR1x := OCR1x st |}.
Definition with_isr_count (v : Z) (st : wwvb) : wwvb :=
  {| MINS := MINS st; HOUR := HOUR st; DOTY := DOTY st; DUT1 := DUT1 st; YEAR := YEAR st;
     MISC := MISC st; t_ss := t_ss st; t_mm := t_mm st; t_hh := t_hh st; t_DD := t_DD st;
     t_MM := t_MM st; t_YY := t_YY st; mins_ := mins_ st; hour_ := hour_ st; DD_ := DD_ st;
     MM_ := MM_ st; YY_ := YY_ st; doty_ := doty_ st; is_leap_year_ := is_leap_year_ st;
     daylight_savings_ := daylight_savings_ st; WWVB_LOW := WWVB_LOW st;
     WWVB_HIGH := WWVB_HIGH st; WWVB_MARKER := WWVB_MARKER st;
     WWVB_ENDOFBIT := WWVB_ENDOFBIT st; pulse_width := pulse_width st;
     WWVB_LOWTIME := WWVB_LOWTIME st; PWM_LOW := PWM_LOW st; PWM_HIGH := PWM_HIGH st;
     isr_count := v; frame_index := frame_index st; subframe_index := subframe_index st;
     _is_active := _is_active st; OCR1x := OCR1x st |}.
Definition with_frame_index (v : Z) (st : wwvb) : wwvb :=
  {| MINS := MINS st; HOUR := HOUR st; DOTY := DOTY st; DUT1 := DUT1 st; YEAR := YEAR st;
     MISC := MISC st; t_ss := t_ss st; t_mm := t_mm st; t_hh := t_hh st; t_DD := t_DD st;
     t_MM := t_MM st; t_YY := t_YY st; mins_ := mins_ st; hour_ := hour_ st; DD_ := DD_ st;
     MM_ := MM_ st; YY_ := YY_ st; doty_ := doty_ st; is_leap_year_ := is_leap_year_ st;
     daylight_savings_ := daylight_savings_ st; WWVB_LOW := WWVB_LOW st;
     WWVB_HIGH := WWVB_HIGH st; WWVB_MARKER := WWVB_MARKER st;
     WWVB_ENDOFBIT := WWVB_ENDOFBIT st; pulse_width := pulse_width st;
     WWVB_LOWTIME := WWVB_LOWTIME st; PWM_LOW := PWM_LOW st; PWM_HIGH := PWM_HIGH st;
     isr_count := isr_count st; frame_index := v; subframe_index := subframe_index st;
     _is_active := _is_active st; OCR1x := OCR1x st |}.
Definition with_subframe_index (v : Z) (st : wwvb) : wwvb :=
  {| MINS := MINS st; HOUR := HOUR st; DOTY := DOTY st; DUT1 := DUT1 st; YEAR := YEAR st;
     MISC := MISC st; t_ss := t_ss st; t_mm := t_mm st; t_hh := t_hh st; t_DD := t_DD st;
     t_MM := t_MM st; t_YY := t_YY st; mins_ := mins_ st; hour_ := hour_ st; DD_ := DD_ st;
     MM_ := MM_ st; YY_ := YY_ st; doty_ := doty_ st; is_leap_year_ := is_leap_year_ st;
     daylight_savings_ := daylight_savings_ st; WWVB_LOW := WWVB_LOW st;
     WWVB_HIGH := WWVB_HIGH st; WWVB_MARKER := WWVB_MARKER st;
     WWVB_ENDOFBIT := WWVB_ENDOFBIT st; pulse_width := pulse_width st;
     WWVB_LOWTIME := WWVB_LOWTIME st; PWM_LOW := PWM_LOW st; PWM_HIGH := PWM_HIGH st;
     isr_count := isr_count st; frame_index := frame_index st; subframe_index := v;
     _is_active := _is_active st; OCR1x := OCR1x st |}.
Definition with_is_active (v : bool) (st : wwvb) : wwvb :=
  {| MINS := MINS st; HOUR := HOUR st; DOTY := DOTY st; DUT1 := DUT1 st; YEAR := YEAR st;
     MISC := MISC st; t_ss := t_ss st; t_mm := t_mm st; t_hh := t_hh st; t_DD := t_DD st;
     t_MM := t_MM st; t_YY := t_YY st; mins_ := mins_ st; hour_ := hour_ st; DD_ := DD_ st;
     MM_ := MM_ st; YY_ := YY_ st; doty_ := doty_ st; is_leap_year_ := is_leap_year_ st;
     daylight_savings_ := daylight_savings_ st; WWVB_LOW := WWVB_LOW st;
     WWVB_HIGH := WWVB_HIGH st; WWVB_MARKER := WWVB_MARKER st;
     WWVB_ENDOFBIT := WWVB_ENDOFBIT st; pulse_width := pulse_width st;
     WWVB_LOWTIME := WWVB_LOWTIME st; PWM_LOW := PWM_LOW st; PWM_HIGH := PWM_HIGH st;
     isr_count := isr_count st; frame_index := frame_index st;
     subframe_index := subframe_index st; _is_active := v; OCR1x := OCR1x st |}.
Definition with_OCR1x (v : Z) (st : wwvb) : wwvb :=
  {| MINS := MINS st; HOUR := HOUR st; DOTY := DOTY st; DUT1 := DUT1 st; YEAR := YEAR st;
     MISC := MISC st; t_ss := t_ss st; t_mm := t_mm st; t_hh := t_hh st; t_DD := t_DD st;
     t_MM := t_MM st; t_YY := t_YY st; mins_ := mins_ st; hour_ := hour_ st; DD_ := DD_ st;
     MM_ := MM_ st; YY_ := YY_ st; doty_ := doty_ st; is_leap_year_ := is_leap_year_ st;
     daylight_savings_ := daylight_savings_ st; WWVB_LOW := WWVB_LOW st;
     WWVB_HIGH := WWVB_HIGH st; WWVB_MARKER := WWVB_MARKER st;
     WWVB_ENDOFBIT := WWVB_ENDOFBIT st; pulse_width := pulse_width st;
     WWVB_LOWTIME := WWVB_LOWTIME st; PWM_LOW := PWM_LOW st; PWM_HIGH := PWM_HIGH st;
     isr_count := isr_count st; frame_index := frame_index st;
     subframe_index := subframe_index st; _is_active := _is_active st; OCR1x := v |}.

(** *** Arrays and integer conversions *)

(** Conversion of an integer to [boolean]: nonzero is true. *)
Definition to_boolean (z : Z) : bool := negb (z =? 0).

(** [a[i]] for a [boolean] array.  Reading outside the array is undefined
    in C++; the model returns [false] there. *)
Definition rd (a : list bool) (i : Z) : bool := default false (a !! Z.to_nat i).

(** [pulse_width[b]] with a [boolean] index: element 0 or element 1. *)
Definition pulse_of (pw : list Z) (b : bool) : Z :=
  default 0 (pw !! (if b then 1%nat else 0%nat)).

(** [++x] on [uint8_t] and [uint16_t]. *)
Definition incr8 (x : Z) : Z := (x + 1) mod 256.
Definition incr16 (x : Z) : Z := (x + 1) mod 65536.

(** [A[i] = b] for each of the six subframe arrays. *)
Definition wr_MINS (i : nat) (b : bool) (st : wwvb) : wwvb := with_MINS (<[i:=b]> (MINS st)) st.
Definition wr_HOUR (i : nat) (b : bool) (st : wwvb) : wwvb := with_HOUR (<[i:=b]> (HOUR st)) st.
Definition wr_DOTY (i : nat) (b : bool) (st : wwvb) : wwvb := with_DOTY (<[i:=b]> (DOTY st)) st.
Definition wr_DUT1 (i : nat) (b : bool) (st : wwvb) : wwvb := with_DUT1 (<[i:=b]> (DUT1 st)) st.
Definition wr_YEAR (i : nat) (b : bool) (st : wwvb) : wwvb := with_YEAR (<[i:=b]> (YEAR st)) st.
Definition wr_MISC (i : nat) (b : bool) (st : wwvb) : wwvb := with_MISC (<[i:=b]> (MISC st)) st.

(** The object as constructed at namespace scope ([wwvb wwvb_tx;] in the
    header's minimum example): static storage is zero-initialised, then the
    default member initialisers run.  [pulse_width] is initialised from
    [WWVB_LOW], [WWVB_HIGH] and [WWVB_MARKER] before they are assigned, so
    it holds three zeros. *)
Definition initial : wwvb :=
  {| MINS := [true; true; true; true; false; true; true; true; true; true];
     HOUR := [false; false; true; true; false; true; true; true; true; true];
     DOTY := [false; false; true; true; false; true; true; true; true; true];
     DUT1 := [true; true; true; true; false; false; false; true; false; true];
     YEAR := [true; true; true; true; false; true; true; true; true; true];
     MISC := [true; true; true; true; false; true; true; true; true; true];
     t_ss := 0; t_mm := 0; t_hh := 0; t_DD := 0; t_MM := 0; t_YY := 0;
     mins_ := 0; hour_ := 0; DD_ := 0; MM_ := 0; YY_ := 0; doty_ := 0;
     is_leap_year_ := false; daylight_savings_ := 0;
     WWVB_LOW := 0; WWVB_HIGH := 0; WWVB_MARKER := 0; WWVB_ENDOFBIT := 0;
     pulse_width := [0; 0; 0]; WWVB_LOWTIME := 0;
     PWM_LOW := 0; PWM_HIGH := 0;
     isr_count := 0; frame_index := 0; subframe_index := 0;
     _is_active := false; OCR1x := 0 |}.

(** ** FrameEncoder: the setters of the subframe bits *)

(** The statement the encoders repeat for every weight [w]:
    [if (v >= w) { v -= w; A[i] = 1; } else { A[i] = 0; }]. *)
Definition weigh (w : Z) (wr : bool -> wwvb -> wwvb) (vs : Z * wwvb) : Z * wwvb :=
  let '(v, st) := vs in
  if w <=? v then (v - w, wr true st) else (v, wr false st).

Definition set_mins (_mins : Z) (st : wwvb) : wwvb :=
  if negb (mins_ st =? _mins) then
    let st := with_mins_ _mins st in
    let '(_mins, st) := weigh 40 (wr_MINS 1) (_mins, st) in
    let '(_mins, st) := weigh 20 (wr_MINS 2) (_mins, st) in
    let '(_mins, st) := weigh 10 (wr_MINS 3) (_mins, st) in
    let '(_mins, st) := weigh 8 (wr_MINS 5) (_mins, st) in
    let '(_mins, st) := weigh 4 (wr_MINS 6) (_mins, st) in
    let '(_mins, st) := weigh 2 (wr_MINS 7) (_mins, st) in
    wr_MINS 8 (to_boolean _mins) st
  else st.

Definition set_hour (_hour : Z) (st : wwvb) : wwvb :=
  if negb (hour_ st =? _hour) then
    let st := with_hour_ _hour st in
    let '(_hour, st) := weigh 20 (wr_HOUR 2) (_hour, st) in
    let '(_hour, st) := weigh 10 (wr_HOUR 3) (_hour, st) in
    let '(_hour, st) := weigh 8 (wr_HOUR 5) (_hour, st) in
    let '(_hour, st) := weigh 4 (wr_HOUR 6) (_hour, st) in
    let '(_hour, st) := weigh 2 (wr_HOUR 7) (_hour, st) in
    wr_HOUR 8 (to_boolean _hour) st
  else st.

Definition set_doty (_doty : Z) (st : wwvb) : wwvb :=
  if negb (doty_ st =? _doty) then
    let st := with_doty_ _doty st in
    let '(_doty, st) := weigh 200 (wr_DOTY 2) (_doty, st) in
    let '(_doty, st) := weigh 100 (wr_DOTY 3) (_doty, st) in
    let '(_doty, st) := weigh 80 (wr_DOTY 5) (_doty, st) in
    let '(_doty, st) := weigh 40 (wr_DOTY 6) (_doty, st) in
    let '(_doty, st) := weigh 20 (wr_DOTY 7) (_doty, st) in
    let '(_doty, st) := weigh 10 (wr_DOTY 8) (_doty, st) in
    let '(_doty, st) := weigh 8 (wr_DUT1 0) (_doty, st) in
    let '(_doty, st) := weigh 4 (wr_DUT1 1) (_doty, st) in
    let '(_doty, st) := weigh 2 (wr_DUT1 2) (_doty, st) in
    wr_DUT1 3 (to_boolean _doty) st
  else st.

Definition set_dut1 (st : wwvb) : wwvb :=
  let st := wr_DUT1 7 true st in
  let st := wr_YEAR 0 false st in
  let st := wr_YEAR 1 false st in
  let st := wr_YEAR 2 false st in
  wr_YEAR 3 false st.

Definition set_day (_DD : Z) (st : wwvb) : wwvb :=
  if negb (DD_ st =? _DD) then with_DD_ _DD st else st.

Definition set_month (_MM : Z) (st : wwvb) : wwvb :=
  if negb (MM_ st =? _MM) then with_MM_ _MM st else st.

Definition set_year (_year : Z) (st : wwvb) : wwvb :=
  if negb (YY_ st =? _year) then
    let st := with_YY_ _year st in
    let '(_year, st) := weigh 80 (wr_YEAR 5) (_year, st) in
    let '(_year, st) := weigh 40 (wr_YEAR 6) (_year, st) in
    let '(_year, st) := weigh 20 (wr_YEAR 7) (_year, st) in
    let '(_year, st) := weigh 10 (wr_YEAR 8) (_year, st) in
    let '(_year, st) := weigh 8 (wr_MISC 0) (_year, st) in
    let '(_year, st) := weigh 4 (wr_MISC 1) (_year, st) in
    let '(_year, st) := weigh 2 (wr_MISC 2) (_year, st) in
    wr_MISC 3 (to_boolean _year) st
  else st.

Definition set_misc (_is_leap_year : bool) (_daylight_savings : Z) (st : wwvb) : wwvb :=
  let st :=
    if negb (Bool.eqb (is_leap_year_ st) _is_leap_year) then
      wr_MISC 5 _is_leap_year (with_is_leap_year_ _is_leap_year st)
    else st in
  if negb (daylight_savings_ st =? _daylight_savings) then
    let st := with_daylight_savings_ _daylight_savings st in
    let st := wr_MISC 7 (to_boolean (Z.land (Z.shiftr _daylight_savings 1) 1)) st in
    wr_MISC 8 (to_boolean (Z.land _daylight_savings 1)) st
  else st.

(** ** Calendar utilities of TimeDateTools.h

    [wwvb.h] includes [<TimeDateTools.h>] and calls three of its functions;
    the header itself is not part of the sources.  They are modelled here
    from the specification's description of the external calendar
    utility. *)

Module TimeDateTools.

(** Modelled from the spec: [is_leap_year] of TimeDateTools.h is missing;
    the leap-year flag derivation of the external calendar utility, for the
    Gregorian calendar. *)
Definition is_leap_year (year : Z) : bool :=
  ((year mod 4 =? 0) && negb (year mod 100 =? 0)) || (year mod 400 =? 0).

(** Modelled from the spec: the month lengths behind the carry of the
    external "add time" operation (TimeDateTools.h is missing). *)
Definition days_in_month (MM : Z) (leap : bool) : Z :=
  match MM with
  | 2 => if leap then 29 else 28
  | 4 | 6 | 9 | 11 => 30
  | _ => 31
  end.

(** Modelled from the spec: [to_day_of_the_year] of TimeDateTools.h is
    missing; the 1-based ordinal day count within the calendar year
    (1 = 1 Jan, 365 = 31 Dec, or 366 in a leap year). *)
Definition to_day_of_the_year (DD MM : Z) (leap : bool) : Z :=
  nth (Z.to_nat (MM - 1)) [0; 31; 59; 90; 120; 151; 181; 212; 243; 273; 304; 334] 0
  + (if leap && (2 <? MM) then 1 else 0) + DD.

(** Modelled from the spec: the carry of the external "add time" operation
    into day, month and year (TimeDateTools.h is missing): the day after a
    calendar day; the year is a [uint8_t] in the caller. *)
Definition next_day (d : Z * Z * Z) : Z * Z * Z :=
  let '(DD, MM, YY) := d in
  if DD <? days_in_month MM (is_leap_year (2000 + YY)) then (DD + 1, MM, YY)
  else if MM <? 12 then (1, MM + 1, YY)
  else (1, 1, (YY + 1) mod 256).

(** Modelled from the spec: [addTimezone] of TimeDateTools.h is missing; the
    external "add N minutes/hours, carrying into hour/day/month/year"
    operation.  The argument order is the one of the call sites in
    [wwvb.h]: seconds, minutes, hours, day, month, year, then the
    increments in hours, minutes and seconds. *)
Definition addTimezone (ss mm hh DD MM YY : Z) (dh dm ds : Z) : Z * Z * Z * Z * Z * Z :=
  let s := ss + ds in
  let m := mm + dm + s / 60 in
  let h := hh + dh + m / 60 in
  let '(DD', MM', YY') := Nat.iter (Z.to_nat (h / 24)) next_day (DD, MM, YY) in
  (s mod 60, m mod 60, h mod 24, DD', MM', YY').

End TimeDateTools.

Import TimeDateTools.

(** [addTimezone<volatile uint8_t>(t_ss, t_mm, t_hh, t_DD, t_MM, t_YY, dh, dm, ds)]:
    the six temporaries are passed by reference and overwritten. *)
Definition addTimezone_t (dh dm ds : Z) (st : wwvb) : wwvb :=
  let '(ss, mm, hh, DD, MM, YY) :=
    addTimezone (t_ss st) (t_mm st) (t_hh st) (t_DD st) (t_MM st) (t_YY st) dh dm ds in
  with_t_YY YY (with_t_MM MM (with_t_DD DD (with_t_hh hh (with_t_mm mm (with_t_ss ss st))))).

(** ** TimeState: the public time interface *)

Definition get_time (st : wwvb) : Z * Z * Z * Z * Z :=
  (mins_ st, hour_ st, DD_ st, MM_ st, YY_ st).

(** The private overload [set_time(const uint8_t _daylight_savings = 0)]:
    encodes the temporaries into the subframes. *)
Definition set_time_priv (_daylight_savings : Z) (st : wwvb) : wwvb :=
  let _is_leap_year := is_leap_year (2000 + t_YY st) in
  let _doty := to_day_of_the_year (t_DD st) (t_MM st) _is_leap_year in
  let st := set_mins (t_mm st) st in
  let st := set_hour (t_hh st) st in
  let st := set_day (t_DD st) st in
  let st := set_month (t_MM st) st in
  let st := set_doty _doty st in
  let st := set_year (t_YY st) st in
  set_misc _is_leap_year _daylight_savings st.

(** The public overload
    [set_time(_mins, _hour, _DD, _MM, _YY, _daylight_savings = 0)]. *)
Definition set_time (_mins _hour _DD _MM _YY _daylight_savings : Z) (st : wwvb) : wwvb :=
  let st := with_t_mm _mins st in
  let st := with_t_hh _hour st in
  let st := with_t_DD _DD st in
  let st := with_t_MM _MM st in
  let st := with_t_YY _YY st in
  let st := addTimezone_t 0 1 0 st in
  set_time_priv _daylight_savings st.

Definition add_time (_mins _hour : Z) (st : wwvb) : wwvb :=
  let '(mm, hh, DD, MM, YY) := get_time st in
  let st := with_t_YY YY (with_t_MM MM (with_t_DD DD (with_t_hh hh (with_t_mm mm st)))) in
  let st := addTimezone_t 0 _mins _hour st in
  set_time_priv 0 st.

(** ** FrameSequencer *)

(** The [case] labels of the [switch] in [set_lowTime]. *)
Definition marker_index (i : Z) : bool :=
  (i =? 0) || (i =? 9) || (i =? 19) || (i =? 29) || (i =? 39) || (i =? 49) || (i =? 59).

Definition set_lowTime (st : wwvb) : wwvb :=
  if marker_index (frame_index st) then with_WWVB_LOWTIME (WWVB_MARKER st) st
  else
    let st := with_subframe_index (frame_index st mod 10) st in
    if frame_index st <? 10 then
      with_WWVB_LOWTIME (pulse_of (pulse_width st) (rd (MINS st) (subframe_index st))) st
    else if frame_index st <? 20 then
      with_WWVB_LOWTIME (pulse_of (pulse_width st) (rd (HOUR st) (subframe_index st))) st
    else if frame_index st <? 30 then
      with_WWVB_LOWTIME (pulse_of (pulse_width st) (rd (DOTY st) (subframe_index st))) st
    else if frame_index st <? 40 then
      with_WWVB_LOWTIME (pulse_of (pulse_width st) (rd (DUT1 st) (subframe_index st))) st
    else if frame_index st <? 50 then
      with_WWVB_LOWTIME (pulse_of (pulse_width st) (rd (YEAR st) (subframe_index st))) st
    else if frame_index st <? 60 then
      with_WWVB_LOWTIME (pulse_of (pulse_width st) (rd (MISC st) (subframe_index st))) st
    else st.

(** ** BitModulator *)

Definition setup (b : build) (st : wwvb) : wwvb :=
  let st :=
    if fast_branch b then
      with_WWVB_ENDOFBIT 60606 (with_WWVB_MARKER 48485 (with_WWVB_HIGH 30303 (with_WWVB_LOW 12121 st)))
    else
      with_WWVB_ENDOFBIT 60150 (with_WWVB_MARKER 48120 (with_WWVB_HIGH 30075 (with_WWVB_LOW 12030 st))) in
  let st := with_WWVB_LOWTIME (WWVB_LOW st) st in
  let st := with_pulse_width (<[0%nat:=WWVB_LOW st]> (pulse_width st)) st in
  let st := with_pulse_width (<[1%nat:=WWVB_HIGH st]> (pulse_width st)) st in
  let st := with_pulse_width (<[1%nat:=WWVB_MARKER st]> (pulse_width st)) st in
  let st :=
    if attiny b then with_PWM_LOW 6 (with_PWM_HIGH 66 st)
    else if F_CPU b =? 16000000 then with_PWM_LOW 6 (with_PWM_HIGH 65 st)
    else if F_CPU b =? 8000000 then with_PWM_LOW 3 (with_PWM_HIGH 33 st)
    else st in
  let st := with_OCR1x (PWM_LOW st) st in
  let st := with_frame_index 0 st in
  let st := with_subframe_index 0 st in
  let st := with_isr_count 0 st in
  set_dut1 st.

(** The body of the end-of-bit branch of [interrupt_routine]. *)
Definition end_of_bit (st : wwvb) : wwvb :=
  let st := with_OCR1x (PWM_LOW st) st in
  let st := with_frame_index (incr8 (frame_index st)) st in
  let st := if frame_index st =? 60 then with_frame_index 0 (add_time 1 0 st) else st in
  let st := with_subframe_index (frame_index st mod 10) st in
  let st := set_lowTime st in
  with_isr_count 0 st.

Definition interrupt_routine (st : wwvb) : wwvb :=
  let st := with_isr_count (incr16 (isr_count st)) st in
  if isr_count st =? WWVB_LOWTIME st then with_OCR1x (PWM_HIGH st) st
  else if WWVB_ENDOFBIT st <=? isr_count st then end_of_bit st
  else st.

Definition resume (st : wwvb) : wwvb := with_is_active true st.
Definition stop (st : wwvb) : wwvb := with_is_active false st.
Definition set_low (st : wwvb) : wwvb := with_OCR1x (PWM_LOW st) st.
Definition set_high (st : wwvb) : wwvb := with_OCR1x (PWM_HIGH st) st.

Definition start (st : wwvb) : wwvb :=
  let st := with_frame_index 0 st in
  let st := with_subframe_index 0 st in
  let st := set_lowTime st in
  let st := with_OCR1x (PWM_LOW st) st in
  resume st.

Definition is_active (st : wwvb) : bool := _is_active st.

(** ** Calls and runs

    The public member functions a sketch may call on a configured object,
    [Tick] being one invocation of [interrupt_routine] by the timer
    interrupt. *)

Inductive call : Type :=
  | SetTime (_mins _hour _DD _MM _YY _daylight_savings : Z)
  | AddTime (_mins _hour : Z)
  | Tick
  | Start
  | Stop
  | Resume
  | SetLow
  | SetHigh.

(** Conversion of an argument to [uint8_t] at the call. *)
Definition u8 (z : Z) : Z := z mod 256.

Definition run (c : call) (st : wwvb) : wwvb :=
  match c with
  | SetTime m h D M Y dst => set_time (u8 m) (u8 h) (u8 D) (u8 M) (u8 Y) (u8 dst) st
  | AddTime m h => add_time (u8 m) (u8 h) st
  | Tick => interrupt_routine st
  | Start => start st
  | Stop => stop st
  | Resume => resume st
  | SetLow => set_low st
  | SetHigh => set_high st
  end.

Definition run_all (cs : list call) (st : wwvb) : wwvb := fold_left (fun s c => run c s) cs st.

(** [n] consecutive timer interrupts. *)
Definition ticks (n : nat) (st : wwvb) : wwvb := Nat.iter n interrupt_routine st.

(** ** Reading the frame *)

Definition bits_at (a : list bool) (ps : list Z) : list bool := map (rd a) ps.

(** The data positions of each field, most significant weight first. *)
Definition mins_bits (st : wwvb) : list bool := bits_at (MINS st) [1; 2; 3; 5; 6; 7; 8].
Definition hour_bits (st : wwvb) : list bool := bits_at (HOUR st) [2; 3; 5; 6; 7; 8].
Definition doty_bits (st : wwvb) : list bool :=
  bits_at (DOTY st) [2; 3; 5; 6; 7; 8] ++ bits_at (DUT1 st) [0; 1; 2; 3].
Definition year_bits (st : wwvb) : list bool :=
  bits_at (YEAR st) [5; 6; 7; 8] ++ bits_at (MISC st) [0; 1; 2; 3].

Definition mins_weights : list Z := [40; 20; 10; 8; 4; 2; 1].
Definition hour_weights : list Z := [20; 10; 8; 4; 2; 1].
Definition doty_weights : list Z := [200; 100; 80; 40; 20; 10; 8; 4; 2; 1].
Definition year_weights : list Z := [80; 40; 20; 10; 8; 4; 2; 1].

(** The six subframe arrays keep their ten elements. *)
Definition wf (st : wwvb) : Prop :=
  length (MINS st) = 10%nat /\ length (HOUR st) = 10%nat /\ length (DOTY st) = 10%nat /\
  length (DUT1 st) = 10%nat /\ length (YEAR st) = 10%nat /\ length (MISC st) = 10%nat.

(** The positions no weight is assigned to. *)
Definition unused_clear (st : wwvb) : Prop :=
  rd (MINS st) 4 = false /\
  rd (HOUR st) 0 = false /\ rd (HOUR st) 1 = false /\ rd (HOUR st) 4 = false /\
  rd (DOTY st) 0 = false /\ rd (DOTY st) 1 = false /\ rd (DOTY st) 4 = false /\
  rd (YEAR st) 4 = false /\ rd (MISC st) 4 = false.

(** ** The weight ladder, as the specification words it

    The value is reduced by the weights from largest to smallest: a weight
    that fits gives bit 1 and is subtracted, one that does not gives
    bit 0. *)
Fixpoint weight_ladder (ws : list Z) (v : Z) : list bool :=
  match ws with
  | [] => []
  | w :: ws' =>
      if w <=? v then true :: weight_ladder ws' (v - w) else false :: weight_ladder ws' v
  end.

(** The value a receiver reads back: the sum of the weights whose bit is set. *)
Fixpoint weighted_sum (ws : list Z) (bs : list bool) : Z :=
  match ws, bs with
  | w :: ws', b :: bs' => (if b then w else 0) + weighted_sum ws' bs'
  | _, _ => 0
  end.

(** A subframe is in step with the stored field when its data bits are the
    ladder of that field. *)
Definition mins_synced (st : wwvb) : Prop := mins_bits st = weight_ladder mins_weights (mins_ st).
Definition hour_synced (st : wwvb) : Prop := hour_bits st = weight_ladder hour_weights (hour_ st).
Definition doty_synced (st : wwvb) : Prop := doty_bits st = weight_ladder doty_weights (doty_ st).
Definition year_synced (st : wwvb) : Prop := year_bits st = weight_ladder year_weights (YY_ st).

(** What is left of [v] once the weight [w] has been tried. *)
Definition rem (w v : Z) : Z := if w <=? v then v - w else v.

(** ** Views of the object

    The members fall into the modulator and sequencer part, the
    temporaries, and the stored time: each encoder leaves the first two
    alone. *)

Definition modulator (st : wwvb) :=
  (WWVB_LOW st, WWVB_HIGH st, WWVB_MARKER st, WWVB_ENDOFBIT st, pulse_width st,
   WWVB_LOWTIME st, PWM_LOW st, PWM_HIGH st, isr_count st, frame_index st,
   subframe_index st, _is_active st, OCR1x st).

(** The constants [setup] derives from the build. *)
Definition timing (st : wwvb) :=
  (WWVB_LOW st, WWVB_HIGH st, WWVB_MARKER st, WWVB_ENDOFBIT st, pulse_width st,
   PWM_LOW st, PWM_HIGH st).

(** The stored time ("internal variables, set by set_time ONLY"). *)
Definition saved (st : wwvb) :=
  (mins_ st, hour_ st, DD_ st, MM_ st, YY_ st, doty_ st, is_leap_year_ st, daylight_savings_ st).

Definition temps (st : wwvb) := (t_ss st, t_mm st, t_hh st, t_DD st, t_MM st, t_YY st).

Definition frames (st : wwvb) := (MINS st, HOUR st, DOTY st, DUT1 st, YEAR st, MISC st).

(** What the time interface works on; the sequencer and the modulator only
    read it. *)
Definition clock (st : wwvb) := (frames st, saved st, temps st).

(** The subframe of decade [k] of the frame. *)
Definition subframe (st : wwvb) (k : Z) : list bool :=
  nth (Z.to_nat k) [MINS st; HOUR st; DOTY st; DUT1 st; YEAR st; MISC st] [].

(** At a marker index the threshold in force is the marker threshold. *)
Definition marker_ok (st : wwvb) : Prop :=
  marker_index (frame_index st) = true -> WWVB_LOWTIME st = WWVB_MARKER st.

(** What every object that went through [setup] satisfies: ten-element
    arrays, seconds below 60, stored fields that are not negative, and a
    day-of-year subframe that is in step with the stored day of the year
    unless none was stored yet. *)
Definition sane (st : wwvb) : Prop :=
  wf st /\ 0 <= t_ss st < 60 /\
  0 <= mins_ st /\ 0 <= hour_ st /\ 0 <= DD_ st /\ 0 <= MM_ st /\ 0 <= YY_ st /\
  (doty_ st = 0 \/ doty_synced st).

(** A subframe whose field was never stored still holds its initialiser;
    once a value other than 0 was stored it is in step with the field. *)
Definition encoded (st : wwvb) : Prop :=
  (mins_ st = 0 \/ mins_synced st) /\ (hour_ st = 0 \/ hour_synced st) /\
  (YY_ st = 0 \/ year_synced st).

(** [a'] has the length of [a] and agrees with it at every index outside [ps]. *)
Definition same_outside (ps : list nat) (a a' : list bool) : Prop :=
  length a' = length a /\ forall i, existsb (Nat.eqb i) ps = false -> a' !! i = a !! i.

(** The only array elements assigned after [setup]: the data positions of
    the encoders. *)
Definition touch_only (st st' : wwvb) : Prop :=
  same_outside [1; 2; 3; 5; 6; 7; 8]%nat (MINS st) (MINS st') /\
  same_outside [2; 3; 5; 6; 7; 8]%nat (HOUR st) (HOUR st') /\
  same_outside [2; 3; 5; 6; 7; 8]%nat (DOTY st) (DOTY st') /\
  same_outside [0; 1; 2; 3]%nat (DUT1 st) (DUT1 st') /\
  same_outside [5; 6; 7; 8]%nat (YEAR st) (YEAR st') /\
  same_outside [0; 1; 2; 3; 5; 7; 8]%nat (MISC st) (MISC st').

Definition encoder_step (st st' : wwvb) : Prop :=
  modulator st' = modulator st /\ temps st' = temps st /\ touch_only st st'.

(** One minute later, by cases: the reading of "advance by one minute with
    carry" the stored time is compared with. *)
Definition plus_one_minute (t : Z * Z * Z * Z * Z) : Z * Z * Z * Z * Z :=
  let '(mm, hh, DD, MM, YY) := t in
  if mm <? 59 then (mm + 1, hh, DD, MM, YY)
  else if hh <? 23 then (0, hh + 1, DD, MM, YY)
  else let '(DD', MM', YY') := next_day (DD, MM, YY) in (0, 0, DD', MM', YY').

(** ** The start of a bit-second

    The thresholds lie strictly inside the bit, the tick counter fits its
    16 bits, and the two duty values differ. *)
Definition thresholds_ok (st : wwvb) : Prop :=
  0 < WWVB_MARKER st < WWVB_ENDOFBIT st /\
  (forall b : bool, 0 < pulse_of (pulse_width st) b < WWVB_ENDOFBIT st) /\
  WWVB_ENDOFBIT st < 65536 /\
  PWM_LOW st <> PWM_HIGH st.

(** The tick counter is zero, the output is at the low duty, and the
    threshold of the symbol selected lies inside the bit. *)
Definition bit_start (st : wwvb) : Prop :=
  isr_count st = 0 /\ OCR1x st = PWM_LOW st /\
  0 < WWVB_LOWTIME st < WWVB_ENDOFBIT st /\
  0 <= frame_index st < 60 /\
  thresholds_ok st.

(** The builds [setup] gives both duty values: an ATtiny, or a 16 MHz or
    8 MHz clock. *)
Definition supported (b : build) : bool :=
  attiny b || (F_CPU b =? 16000000) || (F_CPU b =? 8000000).

Definition is_tick (c : call) : bool := match c with Tick => true | _ => false end.

(** ** States and reference definitions used by the claims *)

(** A running generator at 23:59 on 31 January 2015, in the last second of
    the frame: [set_time] is given 23:58 and stores one minute more. *)
Definition jan31_2359 : wwvb :=
  Nat.iter 59 end_of_bit (start (set_time 58 23 31 1 15 0 (setup ATtiny85 initial))).

(** The same on 31 December 2016, day 366 of a leap year. *)
Definition dec31_2359 : wwvb :=
  Nat.iter 59 end_of_bit (start (set_time 58 23 31 12 16 0 (setup ATtiny85 initial))).

(** The hour encoder without the change detection: the body of [set_hour],
    run whatever the stored hour is.  This is the unconditional encoder the
    specification compares the memoizing one with. *)
Definition encode_hour (_hour : Z) (st : wwvb) : wwvb :=
  let st := with_hour_ _hour st in
  let '(_hour, st) := weigh 20 (wr_HOUR 2) (_hour, st) in
  let '(_hour, st) := weigh 10 (wr_HOUR 3) (_hour, st) in
  let '(_hour, st) := weigh 8 (wr_HOUR 5) (_hour, st) in
  let '(_hour, st) := weigh 4 (wr_HOUR 6) (_hour, st) in
  let '(_hour, st) := weigh 2 (wr_HOUR 7) (_hour, st) in
  wr_HOUR 8 (to_boolean _hour) st.

(** Likewise the two bodies of [set_misc] without their tests. *)
Definition encode_misc (_is_leap_year : bool) (_daylight_savings : Z) (st : wwvb) : wwvb :=
  let st := wr_MISC 5 _is_leap_year (with_is_leap_year_ _is_leap_year st) in
  let st := with_daylight_savings_ _daylight_savings st in
  let st := wr_MISC 7 (to_boolean (Z.land (Z.shiftr _daylight_savings 1) 1)) st in
  wr_MISC 8 (to_boolean (Z.land _daylight_savings 1)) st.

(** The three symbols of the time code. *)
Inductive symbol : Type := LOW | HIGH | MARKER.

(** The threshold [set_lowTime] puts in force for a symbol: a data bit
    indexes [pulse_width], a marker index takes [WWVB_MARKER]. *)
Definition threshold_used (st : wwvb) (s : symbol) : Z :=
  match s with
  | LOW => pulse_of (pulse_width st) false
  | HIGH => pulse_of (pulse_width st) true
  | MARKER => WWVB_MARKER st
  end.

(** The documented low fraction of the bit, in percent. *)
Definition documented_percent (s : symbol) : Z :=
  match s with LOW => 20 | HIGH => 50 | MARKER => 80 end.

(** [thr] ticks are within 10 microseconds of [pct] percent of a bit of
    [eob] ticks that lasts one second:
    |thr / eob - pct / 100| s < 10^-5 s. *)
Definition within_10us (thr pct eob : Z) : bool :=
  Z.abs (100 * thr - pct * eob) * 1000 <? eob.

(** The carrier frequency in ticks per second the timer is set to, as the
    comments of [setup] give it: 8 MHz / 133 on the ATtiny, 16 MHz / 266
    and 8 MHz / 132 otherwise. *)
Definition carrier_hz (b : build) : Z :=
  if attiny b then 60150 else if F_CPU b =? 16000000 then 60150 else 60606.

(** A bit of [eob] ticks at the carrier frequency lasts one second to
    within 10 microseconds: |eob / f - 1| s < 10^-5 s. *)
Definition bit_period_within_10us (b : build) (eob : Z) : bool :=
  Z.abs (eob - carrier_hz b) * 100000 <? carrier_hz b.

(** ** An independent reading of "one minute later"

    The minutes elapsed since 1 January 2000, 00:00, counted from the
    calendar fields: what the carry of [plus_one_minute] has to advance by
    exactly one. *)

(** The leap days of the years 2000 .. 2000 + YY - 1. *)
Definition leap_days_before (YY : Z) : Z :=
  (YY + 3) / 4 - (YY + 99) / 100 + (YY + 399) / 400.

Definition minutes_since_2000 (t : Z * Z * Z * Z * Z) : Z :=
  let '(mm, hh, DD, MM, YY) := t in
  ((365 * YY + leap_days_before YY
    + to_day_of_the_year DD MM (is_leap_year (2000 + YY)) - 1) * 24 + hh) * 60 + mm.

Definition valid_time (t : Z * Z * Z * Z * Z) : Prop :=
  let '(mm, hh, DD, MM, YY) := t in
  0 <= mm <= 59 /\ 0 <= hh <= 23 /\ 1 <= MM <= 12 /\
  1 <= DD <= days_in_month MM (is_leap_year (2000 + YY)) /\ 0 <= YY <= 99.

(** ** Further properties of the code: definitions *)

(** The two daylight-savings bits a receiver reads back from MISC. *)
Definition dst_read (st : wwvb) : Z :=
  (if rd (MISC st) 7 then 2 else 0) + (if rd (MISC st) 8 then 1 else 0).

(** Whether the timer runs after a sequence of calls: [start] and [resume]
    switch it on, [stop] switches it off. *)
Definition activity (cs : list call) (a : bool) : bool :=
  fold_left (fun a c => match c with Start | Resume => true | Stop => false | _ => a end) cs a.


(** What the modulator part of a configured object satisfies: the tick
    counter is below the end-of-bit count, which fits 16 bits; the two
    thresholds in the lookup table lie inside the bit; the threshold in
    force is one of them; the duty register holds one of the two duty
    values; and the frame index is below 60. *)
Definition in_bit (st : wwvb) : Prop :=
  0 <= isr_count st < WWVB_ENDOFBIT st /\ WWVB_ENDOFBIT st < 65536 /\
  0 < WWVB_LOW st < WWVB_ENDOFBIT st /\ 0 < WWVB_MARKER st < WWVB_ENDOFBIT st /\
  pulse_width st = [WWVB_LOW st; WWVB_MARKER st; 0] /\
  (WWVB_LOWTIME st = WWVB_LOW st \/ WWVB_LOWTIME st = WWVB_MARKER st) /\
  (OCR1x st = PWM_LOW st \/ OCR1x st = PWM_HIGH st) /\
  0 <= frame_index st < 60.
(** * Proofs *)

(** ** Lists of known length *)

Lemma length10_inv {A} (l : list A) :
  length l = 10%nat ->
  exists a0 a1 a2 a3 a4 a5 a6 a7 a8 a9, l = [a0; a1; a2; a3; a4; a5; a6; a7; a8; a9].
Proof.
  intros H.
  do 10 (destruct l as [|? l]; [discriminate H|]).
  destruct l; [|discriminate H].
  by repeat eexists.
Qed.

Lemma range_check (f : Z -> bool) (lo : Z) (n : nat) :
  forallb f (map (fun k => lo + Z.of_nat k) (seq 0 n)) = true ->
  forall v, lo <= v < lo + Z.of_nat n -> f v = true.
Proof.
  intros Hall v Hv.
  rewrite forallb_forall in Hall. apply Hall.
  apply in_map_iff. exists (Z.to_nat (v - lo)). split; [lia|].
  apply in_seq. lia.
Qed.

(** ** The ladder *)

Lemma weight_ladder_cons w ws v :
  weight_ladder (w :: ws) v = (w <=? v) :: weight_ladder ws (rem w v).
Proof. unfold rem. simpl. by destruct (w <=? v). Qed.

Lemma weigh_eq w wr v st : weigh w wr (v, st) = (rem w v, wr (w <=? v) st).
Proof. unfold weigh, rem. by destruct (w <=? v). Qed.

Lemma to_boolean_unit v : 0 <= v -> to_boolean v = (1 <=? v).
Proof.
  intros Hv. unfold to_boolean.
  destruct (Z.eqb_spec v 0), (Z.leb_spec 1 v); simpl; auto; lia.
Qed.

Lemma rem_nonneg w v : 0 <= v -> 0 <= rem w v.
Proof. intros Hv. unfold rem. destruct (Z.leb_spec w v); lia. Qed.

Create HintDb ladder.
#[local] Hint Resolve rem_nonneg : ladder.
#[local] Opaque rem.

(** ** Untouched array elements *)

Lemma same_outside_refl ps a : same_outside ps a a.
Proof. by split. Qed.

Lemma same_outside_trans ps a b c :
  same_outside ps a b -> same_outside ps b c -> same_outside ps a c.
Proof.
  intros [L1 H1] [L2 H2]. split; [congruence|].
  intros i Hi. rewrite H2, H1; auto.
Qed.

Lemma same_outside_insert ps a a' i (b : bool) :
  existsb (Nat.eqb i) ps = true -> same_outside ps a a' -> same_outside ps a (<[i:=b]> a').
Proof.
  intros Hi [L H]. split; [by rewrite length_insert|].
  intros j Hj. rewrite list_lookup_insert_ne; [auto|].
  intros ->. congruence.
Qed.

Lemma same_outside_rd ps a a' (i : Z) :
  same_outside ps a a' -> existsb (Nat.eqb (Z.to_nat i)) ps = false -> rd a' i = rd a i.
Proof. intros [_ H] Hi. unfold rd. by rewrite H. Qed.

Lemma touch_only_refl st : touch_only st st.
Proof. repeat split. Qed.

Lemma touch_only_trans s1 s2 s3 : touch_only s1 s2 -> touch_only s2 s3 -> touch_only s1 s3.
Proof.
  intros (A1 & A2 & A3 & A4 & A5 & A6) (B1 & B2 & B3 & B4 & B5 & B6).
  do 5 (split; [eapply same_outside_trans; eassumption|]).
  eapply same_outside_trans; eassumption.
Qed.

Lemma touch_only_frames st st' : frames st' = frames st -> touch_only st st'.
Proof.
  unfold frames, touch_only. intros [= E1 E2 E3 E4 E5 E6].
  rewrite E1, E2, E3, E4, E5, E6. repeat split.
Qed.

Lemma touch_only_wf st st' : touch_only st st' -> wf st -> wf st'.
Proof.
  intros ([L1 _] & [L2 _] & [L3 _] & [L4 _] & [L5 _] & [L6 _]) (? & ? & ? & ? & ? & ?).
  unfold wf. repeat split; congruence.
Qed.

Lemma touch_only_unused st st' : touch_only st st' -> unused_clear st -> unused_clear st'.
Proof.
  intros (A1 & A2 & A3 & A4 & A5 & A6) (? & ? & ? & ? & ? & ? & ? & ? & ?).
  unfold unused_clear.
  rewrite (same_outside_rd _ _ _ 4 A1), (same_outside_rd _ _ _ 0 A2), (same_outside_rd _ _ _ 1 A2),
    (same_outside_rd _ _ _ 4 A2), (same_outside_rd _ _ _ 0 A3), (same_outside_rd _ _ _ 1 A3),
    (same_outside_rd _ _ _ 4 A3), (same_outside_rd _ _ _ 4 A5), (same_outside_rd _ _ _ 4 A6)
    by reflexivity.
  auto 10.
Qed.

Lemma encoder_step_refl st : encoder_step st st.
Proof. split; [|split]; auto using touch_only_refl. Qed.

Lemma encoder_step_trans s1 s2 s3 : encoder_step s1 s2 -> encoder_step s2 s3 -> encoder_step s1 s3.
Proof.
  intros (M1 & T1 & F1) (M2 & T2 & F2).
  split; [congruence|split; [congruence|]]. eapply touch_only_trans; eassumption.
Qed.

Lemma encoder_step_unused st st' : encoder_step st st' -> unused_clear st -> unused_clear st'.
Proof. intros (_ & _ & H). by apply touch_only_unused. Qed.

Lemma encoder_step_wf st st' : encoder_step st st' -> wf st -> wf st'.
Proof.
  intros (_ & _ & H). by apply touch_only_wf.
Qed.

Ltac outside := repeat (apply same_outside_insert; [reflexivity|]); apply same_outside_refl.

Ltac enc_step :=
  unfold encoder_step, touch_only; simpl;
  split; [reflexivity|split; [reflexivity|]]; do 5 (split; [outside|]); outside.

(** ** The encoders, one by one *)

Lemma set_mins_step v st : encoder_step st (set_mins v st).
Proof. unfold set_mins. destruct (negb _); [rewrite !weigh_eq|]; enc_step. Qed.

Lemma set_hour_step v st : encoder_step st (set_hour v st).
Proof. unfold set_hour. destruct (negb _); [rewrite !weigh_eq|]; enc_step. Qed.

Lemma set_doty_step v st : encoder_step st (set_doty v st).
Proof. unfold set_doty. destruct (negb _); [rewrite !weigh_eq|]; enc_step. Qed.

Lemma set_year_step v st : encoder_step st (set_year v st).
Proof. unfold set_year. destruct (negb _); [rewrite !weigh_eq|]; enc_step. Qed.

Lemma set_day_step v st : encoder_step st (set_day v st).
Proof. unfold set_day. destruct (negb _); enc_step. Qed.

Lemma set_month_step v st : encoder_step st (set_month v st).
Proof. unfold set_month. destruct (negb _); enc_step. Qed.

Lemma set_misc_step l d st : encoder_step st (set_misc l d st).
Proof. unfold set_misc. destruct (negb _); simpl; destruct (negb _); enc_step. Qed.

(** Each encoder as a pair of field updates: the stored value is
    overwritten (with itself when nothing changed) and the array is
    rewritten only when the value differs. *)

Lemma set_mins_nf v st :
  set_mins v st =
  with_MINS (if mins_ st =? v then MINS st else
             <[8%nat:=to_boolean (rem 2 (rem 4 (rem 8 (rem 10 (rem 20 (rem 40 v))))))]>
             (<[7%nat:=2 <=? rem 4 (rem 8 (rem 10 (rem 20 (rem 40 v))))]>
             (<[6%nat:=4 <=? rem 8 (rem 10 (rem 20 (rem 40 v)))]>
             (<[5%nat:=8 <=? rem 10 (rem 20 (rem 40 v))]>
             (<[3%nat:=10 <=? rem 20 (rem 40 v)]>
             (<[2%nat:=20 <=? rem 40 v]>
             (<[1%nat:=40 <=? v]> (MINS st)))))))) (with_mins_ v st).
Proof.
  unfold set_mins. rewrite !weigh_eq.
  destruct (Z.eqb_spec (mins_ st) v) as [<-|]; [by destruct st|reflexivity].
Qed.

Lemma set_hour_nf v st :
  set_hour v st =
  with_HOUR (if hour_ st =? v then HOUR st else
             <[8%nat:=to_boolean (rem 2 (rem 4 (rem 8 (rem 10 (rem 20 v)))))]>
             (<[7%nat:=2 <=? rem 4 (rem 8 (rem 10 (rem 20 v)))]>
             (<[6%nat:=4 <=? rem 8 (rem 10 (rem 20 v))]>
             (<[5%nat:=8 <=? rem 10 (rem 20 v)]>
             (<[3%nat:=10 <=? rem 20 v]>
             (<[2%nat:=20 <=? v]> (HOUR st))))))) (with_hour_ v st).
Proof.
  unfold set_hour. rewrite !weigh_eq.
  destruct (Z.eqb_spec (hour_ st) v) as [<-|]; [by destruct st|reflexivity].
Qed.

Lemma set_day_nf v st : set_day v st = with_DD_ v st.
Proof. unfold set_day. destruct (Z.eqb_spec (DD_ st) v) as [<-|]; [by destruct st|reflexivity]. Qed.

Lemma set_month_nf v st : set_month v st = with_MM_ v st.
Proof. unfold set_month. destruct (Z.eqb_spec (MM_ st) v) as [<-|]; [by destruct st|reflexivity]. Qed.

Lemma set_misc_nf l d st :
  set_misc l d st =
  with_MISC (let a := if Bool.eqb (is_leap_year_ st) l then MISC st else <[5%nat:=l]> (MISC st) in
             if daylight_savings_ st =? d then a else
             <[8%nat:=to_boolean (Z.land d 1)]> (<[7%nat:=to_boolean (Z.land (Z.shiftr d 1) 1)]> a))
    (with_daylight_savings_ d (with_is_leap_year_ l st)).
Proof.
  unfold set_misc.
  destruct (Bool.eqb_spec (is_leap_year_ st) l) as [<-|]; simpl;
  destruct (Z.eqb_spec (daylight_savings_ st) d) as [<-|]; simpl; try reflexivity; by destruct st.
Qed.

Lemma set_doty_nf v st :
  set_doty v st =
  with_DUT1 (if doty_ st =? v then DUT1 st else
      <[3%nat:=to_boolean (rem 2 (rem 4 (rem 8 (rem 10 (rem 20 (rem 40 (rem 80 (rem 100 (rem 200 v)))))))))]>
      (<[2%nat:=2 <=? rem 4 (rem 8 (rem 10 (rem 20 (rem 40 (rem 80 (rem 100 (rem 200 v)))))))]>
      (<[1%nat:=4 <=? rem 8 (rem 10 (rem 20 (rem 40 (rem 80 (rem 100 (rem 200 v))))))]>
      (<[0%nat:=8 <=? rem 10 (rem 20 (rem 40 (rem 80 (rem 100 (rem 200 v)))))]>
      (DUT1 st)))))
  (with_DOTY (if doty_ st =? v then DOTY st else
      <[8%nat:=10 <=? rem 20 (rem 40 (rem 80 (rem 100 (rem 200 v))))]>
      (<[7%nat:=20 <=? rem 40 (rem 80 (rem 100 (rem 200 v)))]>
      (<[6%nat:=40 <=? rem 80 (rem 100 (rem 200 v))]>
      (<[5%nat:=80 <=? rem 100 (rem 200 v)]>
      (<[3%nat:=100 <=? rem 200 v]>
      (<[2%nat:=200 <=? v]>
      (DOTY st)))))))
  (with_doty_ v st)).
Proof.
  unfold set_doty. rewrite !weigh_eq.
  destruct (Z.eqb_spec (doty_ st) v) as [<-|]; [by destruct st|reflexivity].
Qed.

Lemma set_year_nf v st :
  set_year v st =
  with_MISC (if YY_ st =? v then MISC st else
      <[3%nat:=to_boolean (rem 2 (rem 4 (rem 8 (rem 10 (rem 20 (rem 40 (rem 80 v)))))))]>
      (<[2%nat:=2 <=? rem 4 (rem 8 (rem 10 (rem 20 (rem 40 (rem 80 v)))))]>
      (<[1%nat:=4 <=? rem 8 (rem 10 (rem 20 (rem 40 (rem 80 v))))]>
      (<[0%nat:=8 <=? rem 10 (rem 20 (rem 40 (rem 80 v)))]>
      (MISC st)))))
  (with_YEAR (if YY_ st =? v then YEAR st else
      <[8%nat:=10 <=? rem 20 (rem 40 (rem 80 v))]>
      (<[7%nat:=20 <=? rem 40 (rem 80 v)]>
      (<[6%nat:=40 <=? rem 80 v]>
      (<[5%nat:=80 <=? v]>
      (YEAR st)))))
  (with_YY_ v st)).
Proof.
  unfold set_year. rewrite !weigh_eq.
  destruct (Z.eqb_spec (YY_ st) v) as [<-|]; [by destruct st|reflexivity].
Qed.

(** ** The encoders compute the ladder *)

Ltac split10 H :=
  let E := fresh "E" in
  destruct (length10_inv _ H) as (? & ? & ? & ? & ? & ? & ? & ? & ? & ? & E);
  rewrite E.

Lemma set_mins_bits st v :
  wf st -> 0 <= v -> mins_ st <> v ->
  mins_bits (set_mins v st) = weight_ladder mins_weights v.
Proof.
  intros (HM & _) Hv Hne.
  rewrite set_mins_nf, (proj2 (Z.eqb_neq _ _) Hne).
  unfold mins_bits, mins_weights. rewrite !weight_ladder_cons.
  simpl. split10 HM. simpl.
  by rewrite to_boolean_unit by auto 10 with ladder.
Qed.

Lemma set_hour_bits st v :
  wf st -> 0 <= v -> hour_ st <> v ->
  hour_bits (set_hour v st) = weight_ladder hour_weights v.
Proof.
  intros (_ & HH & _) Hv Hne.
  rewrite set_hour_nf, (proj2 (Z.eqb_neq _ _) Hne).
  unfold hour_bits, hour_weights. rewrite !weight_ladder_cons.
  simpl. split10 HH. simpl.
  by rewrite to_boolean_unit by auto 10 with ladder.
Qed.

Lemma set_doty_bits st v :
  wf st -> 0 <= v -> doty_ st <> v ->
  doty_bits (set_doty v st) = weight_ladder doty_weights v.
Proof.
  intros (_ & _ & HD & HU & _) Hv Hne.
  rewrite set_doty_nf, (proj2 (Z.eqb_neq _ _) Hne).
  unfold doty_bits, doty_weights. rewrite !weight_ladder_cons.
  simpl. split10 HD. split10 HU. simpl.
  by rewrite to_boolean_unit by auto 12 with ladder.
Qed.

Lemma set_year_bits st v :
  wf st -> 0 <= v -> YY_ st <> v ->
  year_bits (set_year v st) = weight_ladder year_weights v.
Proof.
  intros (_ & _ & _ & _ & HY & HM) Hv Hne.
  rewrite set_year_nf, (proj2 (Z.eqb_neq _ _) Hne).
  unfold year_bits, year_weights. rewrite !weight_ladder_cons.
  simpl. split10 HY. split10 HM. simpl.
  by rewrite to_boolean_unit by auto 10 with ladder.
Qed.

(** A value that is stored again leaves the subframe as it is. *)

Lemma set_mins_same st : set_mins (mins_ st) st = st.
Proof. unfold set_mins. by rewrite Z.eqb_refl. Qed.

Lemma set_hour_same st : set_hour (hour_ st) st = st.
Proof. unfold set_hour. by rewrite Z.eqb_refl. Qed.

Lemma set_doty_same st : set_doty (doty_ st) st = st.
Proof. unfold set_doty. by rewrite Z.eqb_refl. Qed.

Lemma set_year_same st : set_year (YY_ st) st = st.
Proof. unfold set_year. by rewrite Z.eqb_refl. Qed.

Lemma set_mins_synced st v :
  wf st -> 0 <= v -> mins_ st <> v \/ mins_synced st -> mins_synced (set_mins v st).
Proof.
  intros Hwf Hv Hc. unfold mins_synced.
  destruct (Z.eq_dec (mins_ st) v) as [<-|Hne].
  - rewrite set_mins_same. by destruct Hc.
  - rewrite set_mins_bits by done. by rewrite set_mins_nf.
Qed.

Lemma set_hour_synced st v :
  wf st -> 0 <= v -> hour_ st <> v \/ hour_synced st -> hour_synced (set_hour v st).
Proof.
  intros Hwf Hv Hc. unfold hour_synced.
  destruct (Z.eq_dec (hour_ st) v) as [<-|Hne].
  - rewrite set_hour_same. by destruct Hc.
  - rewrite set_hour_bits by done. by rewrite set_hour_nf.
Qed.

Lemma set_doty_synced st v :
  wf st -> 0 <= v -> doty_ st <> v \/ doty_synced st -> doty_synced (set_doty v st).
Proof.
  intros Hwf Hv Hc. unfold doty_synced.
  destruct (Z.eq_dec (doty_ st) v) as [<-|Hne].
  - rewrite set_doty_same. by destruct Hc.
  - rewrite set_doty_bits by done. by rewrite set_doty_nf.
Qed.

Lemma set_year_synced st v :
  wf st -> 0 <= v -> YY_ st <> v \/ year_synced st -> year_synced (set_year v st).
Proof.
  intros Hwf Hv Hc. unfold year_synced.
  destruct (Z.eq_dec (YY_ st) v) as [<-|Hne].
  - rewrite set_year_same. by destruct Hc.
  - rewrite set_year_bits by done. by rewrite set_year_nf.
Qed.

(** ** What the ladder means

    Within the range of each field the ladder is the binary-coded decimal
    of the value, digit by digit, and the weights of the set bits add up to
    the value. *)

Lemma ladder_sum_mins v :
  0 <= v <= 59 -> weighted_sum mins_weights (weight_ladder mins_weights v) = v.
Proof.
  intros Hv. apply Z.eqb_eq.
  apply (range_check (fun v => weighted_sum mins_weights (weight_ladder mins_weights v) =? v) 0 60);
    [by vm_compute|lia].
Qed.

Lemma ladder_sum_hour v :
  0 <= v <= 23 -> weighted_sum hour_weights (weight_ladder hour_weights v) = v.
Proof.
  intros Hv. apply Z.eqb_eq.
  apply (range_check (fun v => weighted_sum hour_weights (weight_ladder hour_weights v) =? v) 0 24);
    [by vm_compute|lia].
Qed.

Lemma ladder_sum_year v :
  0 <= v <= 99 -> weighted_sum year_weights (weight_ladder year_weights v) = v.
Proof.
  intros Hv. apply Z.eqb_eq.
  apply (range_check (fun v => weighted_sum year_weights (weight_ladder year_weights v) =? v) 0 100);
    [by vm_compute|lia].
Qed.

Lemma ladder_digits_doty v :
  1 <= v <= 366 ->
  weight_ladder doty_weights v =
  weight_ladder [2; 1] (v / 100) ++ weight_ladder [8; 4; 2; 1] (v / 10 mod 10)
    ++ weight_ladder [8; 4; 2; 1] (v mod 10).
Proof.
  intros Hv.
  set (f := fun v => bool_decide (weight_ladder doty_weights v =
    weight_ladder [2; 1] (v / 100) ++ weight_ladder [8; 4; 2; 1] (v / 10 mod 10)
      ++ weight_ladder [8; 4; 2; 1] (v mod 10))).
  assert (Hf : f v = true) by (apply (range_check f 1 366); [by vm_compute|lia]).
  unfold f in Hf. by apply bool_decide_eq_true in Hf.
Qed.

Lemma ladder_sum_doty v :
  1 <= v <= 366 -> weighted_sum doty_weights (weight_ladder doty_weights v) = v.
Proof.
  intros Hv. apply Z.eqb_eq.
  apply (range_check (fun v => weighted_sum doty_weights (weight_ladder doty_weights v) =? v) 1 366);
    [by vm_compute|lia].
Qed.

(** ** The arrays of a new object *)

Lemma wf_initial : wf initial.
Proof. repeat split. Qed.

Lemma unused_clear_initial : unused_clear initial.
Proof. repeat split. Qed.

(** ** The private [set_time] *)

Lemma encoder_step_temps st st' :
  encoder_step st st' ->
  t_ss st' = t_ss st /\ t_mm st' = t_mm st /\ t_hh st' = t_hh st /\
  t_DD st' = t_DD st /\ t_MM st' = t_MM st /\ t_YY st' = t_YY st.
Proof. unfold temps. intros (_ & [= -> -> -> -> -> ->] & _). done. Qed.

Lemma t_hh_step st st' : encoder_step st st' -> t_hh st' = t_hh st.
Proof. intros H. apply (encoder_step_temps _ _ H). Qed.

Lemma t_DD_step st st' : encoder_step st st' -> t_DD st' = t_DD st.
Proof. intros H. apply (encoder_step_temps _ _ H). Qed.

Lemma t_MM_step st st' : encoder_step st st' -> t_MM st' = t_MM st.
Proof. intros H. apply (encoder_step_temps _ _ H). Qed.

Lemma t_YY_step st st' : encoder_step st st' -> t_YY st' = t_YY st.
Proof. intros H. apply (encoder_step_temps _ _ H). Qed.

(** The temporaries are not assigned by the encoders, so the private
    [set_time] is the chain of the seven encoders on the values the
    temporaries hold on entry. *)
Lemma set_time_priv_eq d st :
  set_time_priv d st =
  set_misc (is_leap_year (2000 + t_YY st)) d
    (set_year (t_YY st)
      (set_doty (to_day_of_the_year (t_DD st) (t_MM st) (is_leap_year (2000 + t_YY st)))
        (set_month (t_MM st) (set_day (t_DD st) (set_hour (t_hh st) (set_mins (t_mm st) st)))))).
Proof.
  unfold set_time_priv. cbv zeta.
  rewrite (t_hh_step _ _ (set_mins_step _ _)).
  rewrite (t_DD_step _ _ (set_hour_step _ _)), (t_DD_step _ _ (set_mins_step _ _)).
  rewrite (t_MM_step _ _ (set_day_step _ _)), (t_MM_step _ _ (set_hour_step _ _)),
    (t_MM_step _ _ (set_mins_step _ _)).
  rewrite (t_YY_step _ _ (set_doty_step _ _)), (t_YY_step _ _ (set_month_step _ _)),
    (t_YY_step _ _ (set_day_step _ _)), (t_YY_step _ _ (set_hour_step _ _)),
    (t_YY_step _ _ (set_mins_step _ _)).
  reflexivity.
Qed.

Lemma set_time_priv_step d st : encoder_step st (set_time_priv d st).
Proof.
  rewrite set_time_priv_eq.
  repeat (eapply encoder_step_trans;
    [|first [apply set_misc_step|apply set_year_step|apply set_doty_step|apply set_month_step
            |apply set_day_step|apply set_hour_step]]).
  apply set_mins_step.
Qed.

(** The shape of each encoder: the members it may assign. *)

Lemma set_mins_shape v st : exists a, set_mins v st = with_MINS a (with_mins_ v st).
Proof. eexists. apply set_mins_nf. Qed.

Lemma set_hour_shape v st : exists a, set_hour v st = with_HOUR a (with_hour_ v st).
Proof. eexists. apply set_hour_nf. Qed.

Lemma set_doty_shape v st : exists a b, set_doty v st = with_DUT1 b (with_DOTY a (with_doty_ v st)).
Proof. do 2 eexists. apply set_doty_nf. Qed.

Lemma set_year_shape v st : exists a b, set_year v st = with_MISC b (with_YEAR a (with_YY_ v st)).
Proof. do 2 eexists. apply set_year_nf. Qed.

Lemma set_misc_shape l d st :
  exists a, set_misc l d st = with_MISC a (with_daylight_savings_ d (with_is_leap_year_ l st)).
Proof. eexists. apply set_misc_nf. Qed.

Ltac shape_mins := match goal with |- context [set_mins ?v ?s] =>
  let a := fresh "a" in let E := fresh "E" in
  destruct (set_mins_shape v s) as (a & E); rewrite E; clear E end.
Ltac shape_hour := match goal with |- context [set_hour ?v ?s] =>
  let a := fresh "a" in let E := fresh "E" in
  destruct (set_hour_shape v s) as (a & E); rewrite E; clear E end.
Ltac shape_doty := match goal with |- context [set_doty ?v ?s] =>
  let a := fresh "a" in let b := fresh "b" in let E := fresh "E" in
  destruct (set_doty_shape v s) as (a & b & E); rewrite E; clear E end.
Ltac shape_year := match goal with |- context [set_year ?v ?s] =>
  let a := fresh "a" in let b := fresh "b" in let E := fresh "E" in
  destruct (set_year_shape v s) as (a & b & E); rewrite E; clear E end.
Ltac shape_misc := match goal with |- context [set_misc ?l ?d ?s] =>
  let a := fresh "a" in let E := fresh "E" in
  destruct (set_misc_shape l d s) as (a & E); rewrite E; clear E end.

Lemma set_time_priv_stored d st :
  get_time (set_time_priv d st) = (t_mm st, t_hh st, t_DD st, t_MM st, t_YY st) /\
  doty_ (set_time_priv d st) =
    to_day_of_the_year (t_DD st) (t_MM st) (is_leap_year (2000 + t_YY st)) /\
  is_leap_year_ (set_time_priv d st) = is_leap_year (2000 + t_YY st) /\
  daylight_savings_ (set_time_priv d st) = d.
Proof.
  rewrite set_time_priv_eq. unfold get_time.
  shape_mins; shape_hour; rewrite set_day_nf, set_month_nf; shape_doty; shape_year; shape_misc.
  done.
Qed.

Lemma rd_insert_ne (a : list bool) (i : nat) (j : Z) (b : bool) :
  i <> Z.to_nat j -> rd (<[i:=b]> a) j = rd a j.
Proof. intros H. unfold rd. by rewrite list_lookup_insert_ne. Qed.

(** The result of an encoder on its own field depends on that field only. *)

Lemma set_mins_cong v s1 s2 :
  mins_ s1 = mins_ s2 -> MINS s1 = MINS s2 ->
  mins_ (set_mins v s1) = mins_ (set_mins v s2) /\ MINS (set_mins v s1) = MINS (set_mins v s2).
Proof. intros E1 E2. rewrite !set_mins_nf. simpl. by rewrite E1, E2. Qed.

Lemma set_hour_cong v s1 s2 :
  hour_ s1 = hour_ s2 -> HOUR s1 = HOUR s2 ->
  hour_ (set_hour v s1) = hour_ (set_hour v s2) /\ HOUR (set_hour v s1) = HOUR (set_hour v s2).
Proof. intros E1 E2. rewrite !set_hour_nf. simpl. by rewrite E1, E2. Qed.

Lemma set_doty_cong v s1 s2 :
  doty_ s1 = doty_ s2 -> DOTY s1 = DOTY s2 -> DUT1 s1 = DUT1 s2 ->
  doty_ (set_doty v s1) = doty_ (set_doty v s2) /\ DOTY (set_doty v s1) = DOTY (set_doty v s2) /\
  DUT1 (set_doty v s1) = DUT1 (set_doty v s2).
Proof. intros E1 E2 E3. rewrite !set_doty_nf. simpl. by rewrite E1, E2, E3. Qed.

Lemma set_year_cong v s1 s2 :
  YY_ s1 = YY_ s2 -> YEAR s1 = YEAR s2 -> MISC s1 = MISC s2 ->
  YY_ (set_year v s1) = YY_ (set_year v s2) /\ YEAR (set_year v s1) = YEAR (set_year v s2) /\
  MISC (set_year v s1) = MISC (set_year v s2).
Proof. intros E1 E2 E3. rewrite !set_year_nf. simpl. by rewrite E1, E2, E3. Qed.

(** What the private [set_time] leaves of each field is what the encoder of
    that field alone leaves. *)

Lemma set_time_priv_mins d st :
  mins_ (set_time_priv d st) = mins_ (set_mins (t_mm st) st) /\
  MINS (set_time_priv d st) = MINS (set_mins (t_mm st) st).
Proof.
  rewrite set_time_priv_eq. generalize (set_mins (t_mm st) st) as s1. intros s1.
  shape_hour; rewrite set_day_nf, set_month_nf; shape_doty; shape_year; shape_misc.
  done.
Qed.

Lemma set_time_priv_hour d st :
  hour_ (set_time_priv d st) = hour_ (set_hour (t_hh st) st) /\
  HOUR (set_time_priv d st) = HOUR (set_hour (t_hh st) st).
Proof.
  rewrite set_time_priv_eq. shape_mins.
  match goal with |- context [set_hour ?v (with_MINS ?a ?s)] =>
    generalize (set_hour_cong v (with_MINS a s) st eq_refl eq_refl);
    generalize (set_hour v (with_MINS a s)) end.
  intros s1 [<- <-].
  rewrite set_day_nf, set_month_nf; shape_doty; shape_year; shape_misc.
  done.
Qed.

Lemma set_time_priv_doty d st :
  doty_ (set_time_priv d st) =
    doty_ (set_doty (to_day_of_the_year (t_DD st) (t_MM st) (is_leap_year (2000 + t_YY st))) st) /\
  DOTY (set_time_priv d st) =
    DOTY (set_doty (to_day_of_the_year (t_DD st) (t_MM st) (is_leap_year (2000 + t_YY st))) st) /\
  DUT1 (set_time_priv d st) =
    DUT1 (set_doty (to_day_of_the_year (t_DD st) (t_MM st) (is_leap_year (2000 + t_YY st))) st).
Proof.
  rewrite set_time_priv_eq.
  generalize (to_day_of_the_year (t_DD st) (t_MM st) (is_leap_year (2000 + t_YY st))) as doty.
  intros doty. shape_mins. shape_hour. rewrite set_day_nf, set_month_nf.
  match goal with |- context [set_doty ?v ?s] =>
    match s with st => fail 1 | _ =>
    generalize (set_doty_cong v s st eq_refl eq_refl eq_refl);
    generalize (set_doty v s) end end.
  intros s1 (<- & <- & <-).
  shape_year; shape_misc. done.
Qed.

Lemma set_misc_year_bits l d st :
  YY_ (set_misc l d st) = YY_ st /\ YEAR (set_misc l d st) = YEAR st /\
  bits_at (MISC (set_misc l d st)) [0; 1; 2; 3] = bits_at (MISC st) [0; 1; 2; 3].
Proof.
  rewrite set_misc_nf. simpl. repeat split.
  unfold bits_at. simpl.
  destruct (Bool.eqb _ _), (daylight_savings_ st =? d);
    rewrite ?rd_insert_ne by (simpl; lia); reflexivity.
Qed.

Lemma set_time_priv_year d st :
  YY_ (set_time_priv d st) = YY_ (set_year (t_YY st) st) /\
  YEAR (set_time_priv d st) = YEAR (set_year (t_YY st) st) /\
  bits_at (MISC (set_time_priv d st)) [0; 1; 2; 3] =
    bits_at (MISC (set_year (t_YY st) st)) [0; 1; 2; 3].
Proof.
  rewrite set_time_priv_eq.
  match goal with |- context [set_misc ?l ?d ?s] =>
    destruct (set_misc_year_bits l d s) as (-> & -> & ->) end.
  shape_mins. shape_hour. rewrite set_day_nf, set_month_nf. shape_doty.
  match goal with |- context [set_year ?v ?s] =>
    match s with st => fail 1 | _ =>
    destruct (set_year_cong v s st eq_refl eq_refl eq_refl) as (-> & -> & ->) end end.
  done.
Qed.

Lemma to_day_of_the_year_nonneg DD MM leap : 0 <= DD -> 0 <= to_day_of_the_year DD MM leap.
Proof.
  intros H. unfold to_day_of_the_year.
  set (k := Z.to_nat (MM - 1)). clearbody k.
  assert (0 <= nth k [0; 31; 59; 90; 120; 151; 181; 212; 243; 273; 304; 334] 0).
  { do 12 (destruct k as [|k]; [simpl; lia|]). simpl. destruct k; lia. }
  destruct (leap && (2 <? MM)); lia.
Qed.

Lemma set_time_priv_synced d st :
  wf st -> 0 <= t_mm st -> 0 <= t_hh st -> 0 <= t_DD st -> 0 <= t_YY st ->
  (mins_ st <> t_mm st \/ mins_synced st -> mins_synced (set_time_priv d st)) /\
  (hour_ st <> t_hh st \/ hour_synced st -> hour_synced (set_time_priv d st)) /\
  (doty_ st <> to_day_of_the_year (t_DD st) (t_MM st) (is_leap_year (2000 + t_YY st))
     \/ doty_synced st -> doty_synced (set_time_priv d st)) /\
  (YY_ st <> t_YY st \/ year_synced st -> year_synced (set_time_priv d st)).
Proof.
  intros Hwf Hm Hh HD HY.
  destruct (set_time_priv_mins d st) as (M1 & M2).
  destruct (set_time_priv_hour d st) as (H1 & H2).
  destruct (set_time_priv_doty d st) as (D1 & D2 & D3).
  destruct (set_time_priv_year d st) as (Y1 & Y2 & Y3).
  unfold mins_synced, hour_synced, doty_synced, year_synced,
    mins_bits, hour_bits, doty_bits, year_bits.
  rewrite M1, M2, H1, H2, D1, D2, D3, Y1, Y2, Y3.
  repeat split; intros C.
  - by apply set_mins_synced.
  - by apply set_hour_synced.
  - apply set_doty_synced; auto using to_day_of_the_year_nonneg.
  - by apply set_year_synced.
Qed.

(** ** The calendar utility *)

Lemma next_day_nonneg DD MM YY :
  0 <= DD -> 0 <= MM -> 0 <= YY ->
  let '(DD', MM', YY') := next_day (DD, MM, YY) in 0 <= DD' /\ 0 <= MM' /\ 0 <= YY'.
Proof.
  intros HD HM HY. unfold next_day.
  destruct (DD <? _); [lia|]. destruct (MM <? 12); [lia|].
  pose proof (Z.mod_pos_bound (YY + 1) 256). lia.
Qed.

Lemma iter_next_day_nonneg n DD MM YY :
  0 <= DD -> 0 <= MM -> 0 <= YY ->
  let '(DD', MM', YY') := Nat.iter n next_day (DD, MM, YY) in 0 <= DD' /\ 0 <= MM' /\ 0 <= YY'.
Proof.
  intros HD HM HY. induction n as [|n IH]; simpl; [done|].
  destruct (Nat.iter n next_day (DD, MM, YY)) as [[D1 M1] Y1].
  destruct IH as (? & ? & ?). by apply next_day_nonneg.
Qed.

Lemma addTimezone_range ss mm hh DD MM YY dh dm ds :
  0 <= DD -> 0 <= MM -> 0 <= YY ->
  let '(ss', mm', hh', DD', MM', YY') := addTimezone ss mm hh DD MM YY dh dm ds in
  0 <= ss' < 60 /\ 0 <= mm' < 60 /\ 0 <= hh' < 24 /\ 0 <= DD' /\ 0 <= MM' /\ 0 <= YY'.
Proof.
  intros HD HM HY. unfold addTimezone. cbv zeta.
  pose proof (iter_next_day_nonneg
    (Z.to_nat ((hh + dh + (mm + dm + (ss + ds) / 60) / 60) / 24)) DD MM YY HD HM HY) as Hn.
  destruct (Nat.iter _ next_day (DD, MM, YY)) as [[D1 M1] Y1].
  pose proof (Z.mod_pos_bound (ss + ds) 60).
  pose proof (Z.mod_pos_bound (mm + dm + (ss + ds) / 60) 60).
  pose proof (Z.mod_pos_bound (hh + dh + (mm + dm + (ss + ds) / 60) / 60) 24).
  lia.
Qed.

(** Adding one minute to a time of day within range is [plus_one_minute];
    the seconds are left as they are. *)
Lemma addTimezone_one_minute ss mm hh DD MM YY :
  0 <= ss < 60 -> 0 <= mm <= 59 -> 0 <= hh <= 23 ->
  addTimezone ss mm hh DD MM YY 0 1 0 =
  let '(mm', hh', DD', MM', YY') := plus_one_minute (mm, hh, DD, MM, YY) in
  (ss, mm', hh', DD', MM', YY').
Proof.
  intros Hs Hm Hh. unfold addTimezone, plus_one_minute. cbv zeta.
  rewrite !Z.add_0_r, (Z.div_small ss 60), (Z.mod_small ss 60), Z.add_0_r by lia.
  destruct (Z.ltb_spec mm 59).
  - rewrite (Z.div_small (mm + 1) 60), (Z.mod_small (mm + 1) 60), !Z.add_0_r by lia.
    by rewrite (Z.div_small hh 24), (Z.mod_small hh 24) by lia.
  - assert (mm = 59) as -> by lia. change ((59 + 1) / 60) with 1. change ((59 + 1) mod 60) with 0.
    destruct (Z.ltb_spec hh 23).
    + by rewrite (Z.div_small (hh + 1) 24), (Z.mod_small (hh + 1) 24) by lia.
    + assert (hh = 23) as -> by lia. change ((23 + 1) / 24) with 1. change ((23 + 1) mod 24) with 0.
      simpl. destruct (DD <? _); [done|]. by destruct (MM <? 12).
Qed.

(** ** The carry of the calendar utility *)

Lemma leap_days_before_succ YY :
  0 <= YY ->
  leap_days_before (YY + 1) = leap_days_before YY + (if is_leap_year (2000 + YY) then 1 else 0).
Proof.
  intros HY. unfold leap_days_before, is_leap_year.
  destruct (Z.eqb_spec ((2000 + YY) mod 4) 0), (Z.eqb_spec ((2000 + YY) mod 100) 0),
    (Z.eqb_spec ((2000 + YY) mod 400) 0); cbn [andb orb negb];
    Z.div_mod_to_equations; lia.
Qed.

Lemma month_carry MM leap :
  1 <= MM < 12 ->
  to_day_of_the_year 1 (MM + 1) leap = to_day_of_the_year (days_in_month MM leap) MM leap + 1.
Proof.
  intros HM.
  assert (H : MM = 1 \/ MM = 2 \/ MM = 3 \/ MM = 4 \/ MM = 5 \/ MM = 6 \/ MM = 7 \/ MM = 8 \/
              MM = 9 \/ MM = 10 \/ MM = 11) by lia.
  destruct leap; repeat (destruct H as [->|H]; [reflexivity|]); by subst.
Qed.

(** On a valid time [plus_one_minute] advances the minute count by exactly
    one: the carry into hour, day, month and year is the calendar's. *)
Lemma plus_one_minute_counts t :
  valid_time t -> minutes_since_2000 (plus_one_minute t) = minutes_since_2000 t + 1.
Proof.
  destruct t as [[[[mm hh] DD] MM] YY]. intros (Hm & Hh & HM & HD & HY).
  unfold plus_one_minute.
  destruct (Z.ltb_spec mm 59); [unfold minutes_since_2000; lia|].
  destruct (Z.ltb_spec hh 23); [unfold minutes_since_2000; lia|].
  unfold next_day.
  set (leap := is_leap_year (2000 + YY)) in *.
  destruct (Z.ltb_spec DD (days_in_month MM leap)).
  { unfold minutes_since_2000, to_day_of_the_year. fold leap. lia. }
  assert (DD = days_in_month MM leap) as -> by lia.
  destruct (Z.ltb_spec MM 12).
  { unfold minutes_since_2000. fold leap. rewrite month_carry by lia. lia. }
  assert (MM = 12) as -> by lia.
  rewrite Z.mod_small by lia.
  unfold minutes_since_2000. rewrite leap_days_before_succ by lia. fold leap.
  assert (E1 : forall l, to_day_of_the_year 1 1 l = 1) by (by intros []).
  rewrite E1. clear HD H1.
  destruct leap;
    [change (to_day_of_the_year (days_in_month 12 true) 12 true) with 366
    |change (to_day_of_the_year (days_in_month 12 false) 12 false) with 365]; lia.
Qed.

(** [plus_one_minute] keeps a time valid, the last minute of year 99
    apart, which leaves the two-digit range. *)
Lemma plus_one_minute_valid t :
  valid_time t -> (let '(_, _, _, _, YY') := plus_one_minute t in YY' <= 99) ->
  valid_time (plus_one_minute t).
Proof.
  destruct t as [[[[mm hh] DD] MM] YY]. intros (Hm & Hh & HM & HD & HY).
  unfold plus_one_minute.
  destruct (Z.ltb_spec mm 59); [intros _; unfold valid_time; lia|].
  destruct (Z.ltb_spec hh 23); [intros _; unfold valid_time; lia|].
  unfold next_day.
  destruct (Z.ltb_spec DD (days_in_month MM (is_leap_year (2000 + YY))));
    [intros _; unfold valid_time; lia|].
  destruct (Z.ltb_spec MM 12).
  - intros _. unfold valid_time. repeat split; try lia.
    assert (H' : MM = 1 \/ MM = 2 \/ MM = 3 \/ MM = 4 \/ MM = 5 \/ MM = 6 \/ MM = 7 \/ MM = 8 \/
                 MM = 9 \/ MM = 10 \/ MM = 11) by lia.
    destruct (is_leap_year (2000 + YY));
      repeat (destruct H' as [->|H']; [vm_compute; discriminate|]); subst; vm_compute; discriminate.
  - rewrite Z.mod_small by lia. intros HY'. unfold valid_time. repeat split; try lia.
    destruct (is_leap_year _); vm_compute; discriminate.
Qed.

(** ** The public time interface *)

Lemma addTimezone_t_shape dh dm ds st :
  exists ss mm hh DD MM YY,
    addTimezone (t_ss st) (t_mm st) (t_hh st) (t_DD st) (t_MM st) (t_YY st) dh dm ds
      = (ss, mm, hh, DD, MM, YY) /\
    addTimezone_t dh dm ds st =
      with_t_YY YY (with_t_MM MM (with_t_DD DD (with_t_hh hh (with_t_mm mm (with_t_ss ss st))))).
Proof.
  unfold addTimezone_t.
  destruct (addTimezone _ _ _ _ _ _ _ _ _) as [[[[[ss mm] hh] DD] MM] YY].
  by exists ss, mm, hh, DD, MM, YY.
Qed.

Lemma set_time_steps m h D M Y dst st :
  modulator (set_time m h D M Y dst st) = modulator st /\
  touch_only st (set_time m h D M Y dst st).
Proof.
  unfold set_time.
  destruct (addTimezone_t_shape 0 1 0
    (with_t_YY Y (with_t_MM M (with_t_DD D (with_t_hh h (with_t_mm m st))))))
    as (ss & mm & hh & DD & MM & YY & _ & ->).
  match goal with |- context [set_time_priv ?d ?s] =>
    destruct (set_time_priv_step d s) as (Hm & _ & Ht); generalize dependent (set_time_priv d s) end.
  intros s' -> Ht. split; [reflexivity|].
  eapply touch_only_trans; [|exact Ht]. apply touch_only_frames. reflexivity.
Qed.

Lemma add_time_steps m h st :
  modulator (add_time m h st) = modulator st /\ touch_only st (add_time m h st).
Proof.
  unfold add_time, get_time.
  destruct (addTimezone_t_shape 0 m h
    (with_t_YY (YY_ st) (with_t_MM (MM_ st) (with_t_DD (DD_ st)
      (with_t_hh (hour_ st) (with_t_mm (mins_ st) st))))))
    as (ss & mm & hh & DD & MM & YY & _ & ->).
  match goal with |- context [set_time_priv ?d ?s] =>
    destruct (set_time_priv_step d s) as (Hm & _ & Ht); generalize dependent (set_time_priv d s) end.
  intros s' -> Ht. split; [reflexivity|].
  eapply touch_only_trans; [|exact Ht]. apply touch_only_frames. reflexivity.
Qed.

(** The public setter stores the supplied time advanced by one minute. *)
Lemma set_time_stored m h D M Y dst st :
  0 <= t_ss st < 60 -> 0 <= m <= 59 -> 0 <= h <= 23 ->
  get_time (set_time m h D M Y dst st) = plus_one_minute (m, h, D, M, Y) /\
  daylight_savings_ (set_time m h D M Y dst st) = dst /\
  (let '(_, _, D', M', Y') := plus_one_minute (m, h, D, M, Y) in
   doty_ (set_time m h D M Y dst st) = to_day_of_the_year D' M' (is_leap_year (2000 + Y')) /\
   is_leap_year_ (set_time m h D M Y dst st) = is_leap_year (2000 + Y')).
Proof.
  intros Hs Hm Hh. unfold set_time.
  destruct (addTimezone_t_shape 0 1 0
    (with_t_YY Y (with_t_MM M (with_t_DD D (with_t_hh h (with_t_mm m st))))))
    as (ss & mm & hh & DD & MM & YY & E & ->).
  simpl in E. rewrite addTimezone_one_minute in E by done.
  destruct (plus_one_minute (m, h, D, M, Y)) as [[[[m' h'] D'] M'] Y'].
  injection E as <- <- <- <- <- <-.
  match goal with |- context [set_time_priv ?d ?s] =>
    destruct (set_time_priv_stored d s) as (-> & -> & -> & ->) end.
  done.
Qed.


(** ** The time interface works on the clock alone

    Its result on the clock members depends on nothing but the clock
    members, and it leaves the sequencer and modulator members as they
    are. *)

Ltac clock_cong nf :=
  let H := fresh in
  unfold clock, frames, saved, temps; intros H; rewrite !nf; simpl;
  injection H as ?; repeat match goal with E : _ = _ |- _ => rewrite E; clear E end;
  reflexivity.

Lemma set_mins_clock v s1 s2 : clock s1 = clock s2 -> clock (set_mins v s1) = clock (set_mins v s2).
Proof. clock_cong set_mins_nf. Qed.

Lemma set_hour_clock v s1 s2 : clock s1 = clock s2 -> clock (set_hour v s1) = clock (set_hour v s2).
Proof. clock_cong set_hour_nf. Qed.

Lemma set_day_clock v s1 s2 : clock s1 = clock s2 -> clock (set_day v s1) = clock (set_day v s2).
Proof. clock_cong set_day_nf. Qed.

Lemma set_month_clock v s1 s2 : clock s1 = clock s2 -> clock (set_month v s1) = clock (set_month v s2).
Proof. clock_cong set_month_nf. Qed.

Lemma set_doty_clock v s1 s2 : clock s1 = clock s2 -> clock (set_doty v s1) = clock (set_doty v s2).
Proof. clock_cong set_doty_nf. Qed.

Lemma set_year_clock v s1 s2 : clock s1 = clock s2 -> clock (set_year v s1) = clock (set_year v s2).
Proof. clock_cong set_year_nf. Qed.

Lemma set_misc_clock l d s1 s2 :
  clock s1 = clock s2 -> clock (set_misc l d s1) = clock (set_misc l d s2).
Proof. clock_cong set_misc_nf. Qed.

Lemma clock_temps s1 s2 : clock s1 = clock s2 -> temps s1 = temps s2.
Proof. intros H. exact (f_equal snd H). Qed.

Lemma clock_saved s1 s2 : clock s1 = clock s2 -> saved s1 = saved s2.
Proof. intros H. exact (f_equal (fun c => snd (fst c)) H). Qed.

Lemma clock_frames s1 s2 : clock s1 = clock s2 -> frames s1 = frames s2.
Proof. intros H. exact (f_equal (fun c => fst (fst c)) H). Qed.

Lemma set_time_priv_clock d s1 s2 :
  clock s1 = clock s2 -> clock (set_time_priv d s1) = clock (set_time_priv d s2).
Proof.
  intros H. rewrite !set_time_priv_eq.
  pose proof (clock_temps _ _ H) as T. unfold temps in T.
  injection T as _ -> -> -> -> ->.
  by apply set_misc_clock, set_year_clock, set_doty_clock, set_month_clock, set_day_clock,
    set_hour_clock, set_mins_clock.
Qed.

Lemma add_time_clock m h s1 s2 :
  clock s1 = clock s2 -> clock (add_time m h s1) = clock (add_time m h s2).
Proof.
  intros H. unfold add_time, addTimezone_t, get_time. simpl.
  pose proof (clock_saved _ _ H) as S.
  unfold saved in S. injection S as -> -> -> -> -> _ _ _.
  pose proof (clock_temps _ _ H) as T. unfold temps in T. injection T as -> _ _ _ _ _.
  destruct (addTimezone _ _ _ _ _ _ _ _ _) as [[[[[ss mm] hh] DD] MM] YY].
  apply set_time_priv_clock.
  unfold clock, frames, saved, temps in *. simpl.
  injection H as ?. repeat match goal with E : _ = _ |- _ => rewrite E; clear E end.
  reflexivity.
Qed.

(** ** The sequencer *)

Lemma set_lowTime_shape st :
  exists i l, set_lowTime st = with_WWVB_LOWTIME l (with_subframe_index i st).
Proof.
  unfold set_lowTime.
  destruct (marker_index _).
  { exists (subframe_index st), (WWVB_MARKER st). by destruct st. }
  repeat (match goal with |- context [if ?c then _ else _] => destruct c end;
          [by eexists _, _|]).
  exists (frame_index st mod 10), (WWVB_LOWTIME st). by destruct st.
Qed.

Lemma set_lowTime_marker st :
  marker_index (frame_index st) = true ->
  WWVB_LOWTIME (set_lowTime st) = WWVB_MARKER st.
Proof. intros H. unfold set_lowTime. by rewrite H. Qed.

Lemma decade (i k : Z) : 10 * k <= i < 10 * k + 10 -> i / 10 = k.
Proof. intros H. symmetry. apply (Z.div_unique i 10 k (i - 10 * k)); lia. Qed.

(** At a data index the threshold is looked up in [pulse_width] at the bit
    of the subframe of the index's decade. *)
Lemma set_lowTime_data st :
  0 <= frame_index st < 60 -> marker_index (frame_index st) = false ->
  WWVB_LOWTIME (set_lowTime st) =
    pulse_of (pulse_width st) (rd (subframe st (frame_index st / 10)) (frame_index st mod 10)) /\
  subframe_index (set_lowTime st) = frame_index st mod 10.
Proof.
  intros Hi Hm. unfold set_lowTime. rewrite Hm. simpl. unfold subframe.
  destruct (Z.ltb_spec (frame_index st) 10); [by rewrite (decade _ 0) by lia|].
  destruct (Z.ltb_spec (frame_index st) 20); [by rewrite (decade _ 1) by lia|].
  destruct (Z.ltb_spec (frame_index st) 30); [by rewrite (decade _ 2) by lia|].
  destruct (Z.ltb_spec (frame_index st) 40); [by rewrite (decade _ 3) by lia|].
  destruct (Z.ltb_spec (frame_index st) 50); [by rewrite (decade _ 4) by lia|].
  destruct (Z.ltb_spec (frame_index st) 60); [by rewrite (decade _ 5) by lia|lia].
Qed.

Lemma set_lowTime_marker_ok st : marker_ok (set_lowTime st).
Proof.
  unfold marker_ok. destruct (set_lowTime_shape st) as (i & l & E).
  intros H. assert (Hm : marker_index (frame_index st) = true) by (by rewrite E in H).
  rewrite (set_lowTime_marker st Hm). by rewrite E.
Qed.

(** The end-of-bit block, with its conditional made explicit. *)
Lemma end_of_bit_eq st :
  end_of_bit st =
  let s0 := with_frame_index (incr8 (frame_index st)) (with_OCR1x (PWM_LOW st) st) in
  let s1 := if incr8 (frame_index st) =? 60 then with_frame_index 0 (add_time 1 0 s0) else s0 in
  with_isr_count 0 (set_lowTime (with_subframe_index (frame_index s1 mod 10) s1)).
Proof. reflexivity. Qed.

Lemma modulator_timing st st' : modulator st' = modulator st -> timing st' = timing st.
Proof. unfold modulator, timing. by intros [= -> -> -> -> -> _ -> -> _ _ _ _ _]. Qed.

(** Until the frame wraps, the end of a bit moves the index on by one and
    leaves the time and the subframes alone. *)
Lemma end_of_bit_next st :
  0 <= frame_index st < 59 ->
  frame_index (end_of_bit st) = frame_index st + 1 /\ clock (end_of_bit st) = clock st.
Proof.
  intros Hi. rewrite end_of_bit_eq. cbv zeta.
  assert (E : incr8 (frame_index st) = frame_index st + 1) by (unfold incr8; apply Z.mod_small; lia).
  rewrite E. destruct (Z.eqb_spec (frame_index st + 1) 60); [lia|].
  match goal with |- context [set_lowTime ?s] =>
    destruct (set_lowTime_shape s) as (i & l & ->) end.
  done.
Qed.

(** When the frame wraps, the index returns to 0 after [add_time(1, 0)], and
    the symbol of index 0 is selected on the state [add_time] left. *)
Lemma end_of_bit_wrap st :
  frame_index st = 59 ->
  end_of_bit st =
    with_isr_count 0 (set_lowTime (with_subframe_index 0 (with_frame_index 0
      (add_time 1 0 (with_frame_index 60 (with_OCR1x (PWM_LOW st) st)))))) /\
  frame_index (end_of_bit st) = 0 /\
  WWVB_LOWTIME (end_of_bit st) = WWVB_MARKER st /\
  clock (end_of_bit st) = clock (add_time 1 0 st).
Proof.
  intros Hi. rewrite end_of_bit_eq. cbv zeta. rewrite Hi.
  change (incr8 59) with 60. change (60 =? 60) with true. cbv iota.
  change (frame_index (with_frame_index 0 _) mod 10) with 0.
  split; [reflexivity|].
  set (s0 := with_frame_index 60 (with_OCR1x (PWM_LOW st) st)).
  destruct (add_time_steps 1 0 s0) as (Hm & _).
  pose proof (add_time_clock 1 0 s0 st eq_refl) as Hc.
  generalize dependent (add_time 1 0 s0). intros s1 Hm Hc.
  rewrite <- Hc.
  set (s2 := with_subframe_index 0 (with_frame_index 0 s1)).
  assert (Hk : marker_index (frame_index s2) = true) by reflexivity.
  pose proof (set_lowTime_marker s2 Hk) as Hl.
  destruct (set_lowTime_shape s2) as (i & l & E). rewrite E in Hl |- *.
  simpl in Hl. simpl. rewrite Hl.
  unfold modulator in Hm. by injection Hm as _ _ -> _ _ _ _ _ _ _ _ _ _.
Qed.

(** ** What no call changes

    After [setup], the only array elements ever assigned are the data
    positions of the encoders, and the timing constants stay as [setup]
    left them. *)

Lemma end_of_bit_keeps st :
  touch_only st (end_of_bit st) /\ timing (end_of_bit st) = timing st.
Proof.
  rewrite end_of_bit_eq. cbv zeta.
  set (s0 := with_frame_index _ (with_OCR1x (PWM_LOW st) st)).
  destruct (incr8 (frame_index st) =? 60).
  - destruct (add_time_steps 1 0 s0) as (Hm & Ht).
    generalize dependent (add_time 1 0 s0). intros s1 Hm Ht.
    match goal with |- context [set_lowTime ?s] =>
      destruct (set_lowTime_shape s) as (i & l & ->) end.
    split.
    + eapply touch_only_trans; [|eapply touch_only_trans; [exact Ht|]];
        by apply touch_only_frames.
    + apply modulator_timing in Hm. change (timing s1 = timing st). by rewrite Hm.
  - match goal with |- context [set_lowTime ?s] =>
      destruct (set_lowTime_shape s) as (i & l & ->) end.
    split; [by apply touch_only_frames|reflexivity].
Qed.

Lemma interrupt_routine_keeps st :
  touch_only st (interrupt_routine st) /\ timing (interrupt_routine st) = timing st.
Proof.
  unfold interrupt_routine. cbv zeta.
  set (s0 := with_isr_count _ st).
  destruct (isr_count s0 =? WWVB_LOWTIME s0).
  { split; [by apply touch_only_frames|reflexivity]. }
  destruct (WWVB_ENDOFBIT s0 <=? isr_count s0).
  - destruct (end_of_bit_keeps s0) as (Ht & Hc). split; [|by rewrite Hc].
    eapply touch_only_trans; [|exact Ht]. by apply touch_only_frames.
  - split; [by apply touch_only_frames|reflexivity].
Qed.

Lemma start_shape st :
  exists i l, start st =
    with_is_active true (with_OCR1x (PWM_LOW st)
      (with_WWVB_LOWTIME l (with_subframe_index i (with_frame_index 0 st)))).
Proof.
  unfold start, resume. cbv zeta.
  match goal with |- context [set_lowTime ?s] =>
    destruct (set_lowTime_shape s) as (i & l & E) end.
  exists i, l. by rewrite E.
Qed.

Lemma run_keeps c st : touch_only st (run c st) /\ timing (run c st) = timing st.
Proof.
  destruct c; cbn [run].
  - destruct (set_time_steps (u8 _mins) (u8 _hour) (u8 _DD) (u8 _MM) (u8 _YY)
      (u8 _daylight_savings) st) as (Hm & Ht). auto using modulator_timing.
  - destruct (add_time_steps (u8 _mins) (u8 _hour) st) as (Hm & Ht). auto using modulator_timing.
  - apply interrupt_routine_keeps.
  - destruct (start_shape st) as (i & l & ->). split; [by apply touch_only_frames|reflexivity].
  - split; [by apply touch_only_frames|reflexivity].
  - split; [by apply touch_only_frames|reflexivity].
  - split; [by apply touch_only_frames|reflexivity].
  - split; [by apply touch_only_frames|reflexivity].
Qed.

Lemma run_all_keeps cs st : touch_only st (run_all cs st) /\ timing (run_all cs st) = timing st.
Proof.
  revert st. induction cs as [|c cs IH]; intros st; simpl.
  - split; [apply touch_only_refl|reflexivity].
  - destruct (run_keeps c st) as (Ht & Hc), (IH (run c st)) as (Ht' & Hc').
    split; [eapply touch_only_trans; eassumption|congruence].
Qed.

(** The arrays as [setup] leaves them: [set_dut1] sets the DUT1 sign and
    clears the first four elements of YEAR. *)
Lemma setup_frames b st :
  frames (setup b st) =
  (MINS st, HOUR st, DOTY st, <[7%nat:=true]> (DUT1 st),
   <[3%nat:=false]> (<[2%nat:=false]> (<[1%nat:=false]> (<[0%nat:=false]> (YEAR st)))),
   MISC st).
Proof.
  unfold setup, fast_branch.
  by destruct (attiny b), (F_CPU b =? 16000000), (F_CPU b =? 8000000).
Qed.

Lemma setup_initial_arrays b :
  MINS (setup b initial) = [true; true; true; true; false; true; true; true; true; true] /\
  HOUR (setup b initial) = [false; false; true; true; false; true; true; true; true; true] /\
  DOTY (setup b initial) = [false; false; true; true; false; true; true; true; true; true] /\
  DUT1 (setup b initial) = [true; true; true; true; false; false; false; true; false; true] /\
  YEAR (setup b initial) = [false; false; false; false; false; true; true; true; true; true] /\
  MISC (setup b initial) = [true; true; true; true; false; true; true; true; true; true].
Proof.
  pose proof (setup_frames b initial) as E.
  repeat split.
  - exact (f_equal (fun f => fst (fst (fst (fst (fst f))))) E).
  - exact (f_equal (fun f => snd (fst (fst (fst (fst f))))) E).
  - exact (f_equal (fun f => snd (fst (fst (fst f)))) E).
  - exact (f_equal (fun f => snd (fst (fst f))) E).
  - exact (f_equal (fun f => snd (fst f)) E).
  - exact (f_equal snd E).
Qed.

(** ** Claim C3 *)

(** C3 (the code departs from it): the leap-second-warning bit, position 6
    of MISC, is 1 and not 0 in every state from [setup] on, whatever calls
    follow: the array initialiser sets it and no member function assigns
    it. *)
Theorem leap_second_warning_stuck (b : build) (cs : list call) :
  rd (MISC (run_all cs (setup b initial))) 6 = true /\
  rd (MISC (run_all [SetTime 30 12 15 6 24 0; Start] (setup b initial))) 6 = true.
Proof.
  assert (H : forall cs, rd (MISC (run_all cs (setup b initial))) 6 = true).
  { intros cs'. destruct (run_all_keeps cs' (setup b initial)) as ((_ & _ & _ & _ & _ & HM) & _).
    rewrite (same_outside_rd _ _ _ 6 HM) by reflexivity.
    destruct (setup_initial_arrays b) as (_ & _ & _ & _ & _ & ->). reflexivity. }
  split; apply H.
Qed.

(** ** Claim C4 *)

(** C4, as stated, fails: a time update rewrites the first four elements of
    the DUT1 array, which carry the ones digit of the day of the year.
    Setting 8 January, 00:00, after [setup] changes them from 1,1,1,1 to
    1,0,0,0: the stored day of the year is 8, whose ones digit is 8. *)
Lemma dut1_subframe_changes :
  DUT1 (set_time 0 0 8 1 15 0 (setup ATtiny85 initial)) <> DUT1 (setup ATtiny85 initial) /\
  DUT1 (run (SetTime 0 0 8 1 15 0) (setup ATtiny85 initial)) =
    [true; false; false; false; false; false; false; true; false; true].
Proof. split; [by vm_compute|by vm_compute]. Qed.

(** C4, amended: the DUT1 sign and magnitude are constants.  In every state
    from [setup] on, the elements 4 to 9 of the DUT1 array (the sign bits at
    6, 7 and 8 read plus = 0, minus = 1, plus = 0) and the DUT1 magnitude in
    the first four elements of YEAR (all 0) are as [setup] left them; only
    the elements 0 to 3 of the DUT1 array, the ones digit of the day of the
    year, follow the time. *)
Theorem dut1_sign_and_magnitude_constant (b : build) (cs : list call) :
  bits_at (DUT1 (run_all cs (setup b initial))) [4; 5; 6; 7; 8; 9] =
    [false; false; false; true; false; true] /\
  bits_at (YEAR (run_all cs (setup b initial))) [0; 1; 2; 3] = [false; false; false; false] /\
  bits_at (DUT1 (setup b initial)) [4; 5; 6; 7; 8; 9] = [false; false; false; true; false; true] /\
  bits_at (YEAR (setup b initial)) [0; 1; 2; 3] = [false; false; false; false].
Proof.
  destruct (run_all_keeps cs (setup b initial)) as ((_ & _ & _ & HD & HY & _) & _).
  destruct (setup_initial_arrays b) as (_ & _ & _ & ED & EY & _).
  unfold bits_at. cbn [map].
  rewrite (same_outside_rd _ _ _ 4 HD), (same_outside_rd _ _ _ 5 HD), (same_outside_rd _ _ _ 6 HD),
    (same_outside_rd _ _ _ 7 HD), (same_outside_rd _ _ _ 8 HD), (same_outside_rd _ _ _ 9 HD),
    (same_outside_rd _ _ _ 0 HY), (same_outside_rd _ _ _ 1 HY), (same_outside_rd _ _ _ 2 HY),
    (same_outside_rd _ _ _ 3 HY) by reflexivity.
  by rewrite ED, EY.
Qed.

(** ** The invariant of configured objects *)

Lemma sane_ext st st' : clock st' = clock st -> sane st -> sane st'.
Proof.
  intros H.
  pose proof (clock_frames _ _ H) as F. pose proof (clock_saved _ _ H) as S.
  pose proof (clock_temps _ _ H) as T.
  unfold frames in F. unfold saved in S. unfold temps in T.
  unfold sane, wf, doty_synced, doty_bits.
  injection F as -> -> -> -> -> ->. injection S as -> -> -> -> -> -> _ _.
  injection T as -> _ _ _ _ _. done.
Qed.

Lemma setup_clock b st : saved (setup b st) = saved st /\ temps (setup b st) = temps st.
Proof.
  unfold setup, fast_branch.
  by destruct (attiny b), (F_CPU b =? 16000000), (F_CPU b =? 8000000).
Qed.

Lemma wf_setup b : wf (setup b initial).
Proof.
  destruct (setup_initial_arrays b) as (E1 & E2 & E3 & E4 & E5 & E6).
  unfold wf. by rewrite E1, E2, E3, E4, E5, E6.
Qed.

Lemma sane_setup b : sane (setup b initial).
Proof.
  pose proof (wf_setup b) as W. destruct (setup_clock b initial) as (S & T).
  destruct (setup_initial_arrays b) as (_ & _ & E3 & E4 & _).
  assert (D : doty_bits (setup b initial) = doty_bits initial)
    by (unfold doty_bits; by rewrite E3, E4).
  unfold sane, doty_synced. rewrite D.
  remember (setup b initial) as s eqn:Es. clear Es D E3 E4.
  unfold saved in S. unfold temps in T.
  injection S as -> -> -> -> -> -> _ _. injection T as -> _ _ _ _ _.
  simpl. split; [exact W|]. repeat split; auto; lia.
Qed.

Lemma sane_set_time_priv d st :
  sane st -> 0 <= t_mm st -> 0 <= t_hh st -> 0 <= t_DD st -> 0 <= t_MM st -> 0 <= t_YY st ->
  sane (set_time_priv d st).
Proof.
  intros (Hwf & Hs & _ & _ & _ & _ & _ & Hd) Hm Hh HD HM HY.
  destruct (set_time_priv_step d st) as (_ & T & Ht).
  destruct (set_time_priv_stored d st) as (G & D & _).
  destruct (set_time_priv_synced d st Hwf Hm Hh HD HY) as (_ & _ & Sd & _).
  generalize dependent (set_time_priv d st). intros s' T Ht G D Sd.
  unfold temps in T. injection T as T1 _ _ _ _ _.
  unfold get_time in G. injection G as G1 G2 G3 G4 G5.
  unfold sane. rewrite T1, G1, G2, G3, G4, G5.
  split; [by eapply touch_only_wf|]. repeat split; try lia.
  destruct Hd as [Hz|Hd]; [|by right; apply Sd; right].
  destruct (Z.eq_dec (to_day_of_the_year (t_DD st) (t_MM st) (is_leap_year (2000 + t_YY st))) 0)
    as [E|N].
  - left. by rewrite D.
  - right. apply Sd. left. by rewrite Hz.
Qed.

Lemma sane_add_time m h st : sane st -> sane (add_time m h st).
Proof.
  intros Hs. pose proof Hs as (Hwf & Hss & Hm & Hh & HD & HM & HY & Hd).
  unfold add_time, get_time.
  destruct (addTimezone_t_shape 0 m h
    (with_t_YY (YY_ st) (with_t_MM (MM_ st) (with_t_DD (DD_ st)
      (with_t_hh (hour_ st) (with_t_mm (mins_ st) st))))))
    as (ss & mm & hh & DD & MM & YY & E & ->).
  simpl in E.
  pose proof (addTimezone_range (t_ss st) (mins_ st) (hour_ st) (DD_ st) (MM_ st) (YY_ st)
    0 m h HD HM HY) as R.
  rewrite E in R. destruct R as (? & ? & ? & ? & ? & ?).
  apply sane_set_time_priv; simpl; try lia.
  unfold sane. simpl. repeat split; try apply Hwf; try lia. exact Hd.
Qed.

Lemma sane_set_time m h D M Y dst st :
  0 <= D -> 0 <= M -> 0 <= Y -> sane st -> sane (set_time m h D M Y dst st).
Proof.
  intros HD HM HY Hs. pose proof Hs as (Hwf & Hss & _ & _ & _ & _ & _ & Hd).
  unfold set_time.
  destruct (addTimezone_t_shape 0 1 0
    (with_t_YY Y (with_t_MM M (with_t_DD D (with_t_hh h (with_t_mm m st))))))
    as (ss & mm & hh & DD & MM & YY & E & ->).
  simpl in E.
  pose proof (addTimezone_range (t_ss st) m h D M Y 0 1 0 HD HM HY) as R.
  rewrite E in R. destruct R as (? & ? & ? & ? & ? & ?).
  apply sane_set_time_priv; simpl; try lia.
  destruct Hs as (_ & _ & ? & ? & ? & ? & ? & _).
  unfold sane. simpl. repeat split; try apply Hwf; try lia. exact Hd.
Qed.

Lemma u8_nonneg z : 0 <= u8 z.
Proof. unfold u8. pose proof (Z.mod_pos_bound z 256). lia. Qed.

Lemma sane_end_of_bit st : sane st -> sane (end_of_bit st).
Proof.
  intros Hs. rewrite end_of_bit_eq. cbv zeta.
  set (s0 := with_frame_index _ (with_OCR1x (PWM_LOW st) st)).
  assert (H0 : sane s0) by (by apply (sane_ext st)).
  destruct (incr8 (frame_index st) =? 60).
  - pose proof (sane_add_time 1 0 s0 H0) as H1.
    generalize dependent (add_time 1 0 s0). intros s1 H1.
    match goal with |- context [set_lowTime ?s] =>
      destruct (set_lowTime_shape s) as (i & l & ->) end.
    by apply (sane_ext s1).
  - match goal with |- context [set_lowTime ?s] =>
      destruct (set_lowTime_shape s) as (i & l & ->) end.
    by apply (sane_ext s0).
Qed.

Lemma sane_run c st : sane st -> sane (run c st).
Proof.
  intros Hs. destruct c; cbn [run].
  - apply sane_set_time; auto using u8_nonneg.
  - by apply sane_add_time.
  - unfold interrupt_routine. cbv zeta.
    set (s0 := with_isr_count _ st).
    assert (H0 : sane s0) by (by apply (sane_ext st)).
    destruct (isr_count s0 =? WWVB_LOWTIME s0); [by apply (sane_ext s0)|].
    destruct (WWVB_ENDOFBIT s0 <=? isr_count s0); [by apply sane_end_of_bit|done].
  - destruct (start_shape st) as (i & l & ->). by apply (sane_ext st).
  - by apply (sane_ext st).
  - by apply (sane_ext st).
  - by apply (sane_ext st).
  - by apply (sane_ext st).
Qed.

Lemma sane_run_all cs st : sane st -> sane (run_all cs st).
Proof.
  revert st. induction cs as [|c cs IH]; intros st Hs; simpl; [done|].
  by apply IH, sane_run.
Qed.

(** ** Claim C8 *)

(** C8: for every day of the year 1-366, in every state from [setup] on,
    encoding the value places the hundreds digit (weights 200, 100) at
    DOTY positions 2-3, the tens digit (weights 80, 40, 20, 10) at DOTY
    positions 5-8 and the ones digit (weights 8, 4, 2, 1) at the first four
    positions of the DUT1 array; the ten bits are the greedy weight ladder
    of the value and their weights add up to it. *)
Theorem doty_digit_placement (b : build) (cs : list call) (v : Z) :
  1 <= v <= 366 ->
  let st := set_doty v (run_all cs (setup b initial)) in
  bits_at (DOTY st) [2; 3] = weight_ladder [2; 1] (v / 100) /\
  bits_at (DOTY st) [5; 6; 7; 8] = weight_ladder [8; 4; 2; 1] (v / 10 mod 10) /\
  bits_at (DUT1 st) [0; 1; 2; 3] = weight_ladder [8; 4; 2; 1] (v mod 10) /\
  doty_bits st = weight_ladder doty_weights v /\
  weighted_sum doty_weights (doty_bits st) = v.
Proof.
  intros Hv st.
  pose proof (sane_run_all cs _ (sane_setup b)) as (Hwf & _ & _ & _ & _ & _ & _ & Hd).
  assert (S : doty_synced st).
  { apply set_doty_synced; [done|lia|]. destruct Hd as [Hz|Hd]; [left; lia|by right]. }
  assert (E : doty_bits st = weight_ladder doty_weights v).
  { unfold doty_synced in S. rewrite S. unfold st. by rewrite set_doty_nf. }
  assert (E' := E). rewrite ladder_digits_doty in E' by done.
  unfold doty_bits, bits_at in E'. rewrite !weight_ladder_cons in E'.
  cbn [map app weight_ladder] in E'.
  injection E' as E2 E3 E5 E6 E7 E8 F0 F1 F2 F3.
  rewrite !weight_ladder_cons. unfold bits_at at 1 2 3. cbn [map weight_ladder].
  rewrite E2, E3, E5, E6, E7, E8, F0, F1, F2, F3, E, ladder_sum_doty by done.
  done.
Qed.

Lemma doty_digit_placement_witness :
  1 <= 366 <= 366 /\
  bits_at (DOTY (set_doty 366 (run_all [] (setup ATtiny85 initial)))) [2; 3] = [true; true] /\
  bits_at (DUT1 (set_doty 366 (run_all [] (setup ATtiny85 initial)))) [0; 1; 2; 3]
    = [false; true; true; false].
Proof.
  assert (H : 1 <= 366 <= 366) by lia.
  destruct (doty_digit_placement ATtiny85 [] 366 H) as (H1 & _ & H3 & _).
  split; [exact H|]. split; [exact H1|exact H3].
Defined.

(** ** The frame index *)

Lemma modulator_inv st st' :
  modulator st' = modulator st ->
  frame_index st' = frame_index st /\ WWVB_LOWTIME st' = WWVB_LOWTIME st /\
  WWVB_MARKER st' = WWVB_MARKER st /\ isr_count st' = isr_count st /\ OCR1x st' = OCR1x st.
Proof. unfold modulator. by intros [= _ _ -> _ _ -> _ _ -> -> _ _ ->]. Qed.

Lemma end_of_bit_frame_index st :
  0 <= frame_index st < 60 -> frame_index (end_of_bit st) = (frame_index st + 1) mod 60.
Proof.
  intros Hi. destruct (Z.eq_dec (frame_index st) 59) as [E|N].
  - destruct (end_of_bit_wrap st E) as (_ & -> & _). by rewrite E.
  - destruct (end_of_bit_next st) as (-> & _); [lia|]. symmetry. apply Z.mod_small. lia.
Qed.

Lemma end_of_bit_marker_ok st : marker_ok (end_of_bit st).
Proof.
  rewrite end_of_bit_eq. cbv zeta.
  match goal with |- context [set_lowTime ?s] =>
    pose proof (set_lowTime_marker_ok s) as H; generalize dependent (set_lowTime s) end.
  intros s H. exact H.
Qed.

Lemma start_marker_ok st : marker_ok (start st).
Proof.
  unfold start, resume. cbv zeta.
  match goal with |- context [set_lowTime ?s] =>
    pose proof (set_lowTime_marker_ok s) as H; generalize dependent (set_lowTime s) end.
  intros s H. exact H.
Qed.

Lemma start_frame_index st : frame_index (start st) = 0.
Proof. destruct (start_shape st) as (i & l & ->). reflexivity. Qed.

Lemma interrupt_routine_cases st :
  let s0 := with_isr_count (incr16 (isr_count st)) st in
  interrupt_routine st = with_OCR1x (PWM_HIGH st) s0 \/
  interrupt_routine st = end_of_bit s0 \/
  interrupt_routine st = s0.
Proof.
  unfold interrupt_routine. cbv zeta.
  destruct (_ =? _); [by left|]. destruct (_ <=? _); auto.
Qed.

Lemma run_frame_index c st : 0 <= frame_index st < 60 -> 0 <= frame_index (run c st) < 60.
Proof.
  intros Hi. destruct c; cbn [run].
  - destruct (set_time_steps (u8 _mins) (u8 _hour) (u8 _DD) (u8 _MM) (u8 _YY)
      (u8 _daylight_savings) st) as (Hm & _).
    destruct (modulator_inv _ _ Hm) as (-> & _). done.
  - destruct (add_time_steps (u8 _mins) (u8 _hour) st) as (Hm & _).
    destruct (modulator_inv _ _ Hm) as (-> & _). done.
  - destruct (interrupt_routine_cases st) as [-> | [-> | ->]]; [exact Hi| |exact Hi].
    rewrite end_of_bit_frame_index by exact Hi.
    apply Z.mod_pos_bound. lia.
  - rewrite start_frame_index. lia.
  - done.
  - done.
  - done.
  - done.
Qed.

Lemma run_marker_ok c st : marker_ok st -> marker_ok (run c st).
Proof.
  intros Hk. destruct c; cbn [run].
  - destruct (set_time_steps (u8 _mins) (u8 _hour) (u8 _DD) (u8 _MM) (u8 _YY)
      (u8 _daylight_savings) st) as (Hm & _).
    destruct (modulator_inv _ _ Hm) as (E1 & E2 & E3 & _).
    unfold marker_ok. by rewrite E1, E2, E3.
  - destruct (add_time_steps (u8 _mins) (u8 _hour) st) as (Hm & _).
    destruct (modulator_inv _ _ Hm) as (E1 & E2 & E3 & _).
    unfold marker_ok. by rewrite E1, E2, E3.
  - destruct (interrupt_routine_cases st) as [-> | [-> | ->]]; try exact Hk.
    apply end_of_bit_marker_ok.
  - apply start_marker_ok.
  - exact Hk.
  - exact Hk.
  - exact Hk.
  - exact Hk.
Qed.

Lemma run_all_frame_index cs st :
  0 <= frame_index st < 60 -> 0 <= frame_index (run_all cs st) < 60.
Proof.
  revert st. induction cs as [|c cs IH]; intros st Hi; simpl; [done|].
  by apply IH, run_frame_index.
Qed.

Lemma run_all_marker_ok cs st : marker_ok st -> marker_ok (run_all cs st).
Proof.
  revert st. induction cs as [|c cs IH]; intros st Hk; simpl; [done|].
  by apply IH, run_marker_ok.
Qed.

(** The index after [n] more symbols. *)
Lemma iter_end_of_bit_index n st :
  0 <= frame_index st < 60 ->
  frame_index (Nat.iter n end_of_bit st) = (frame_index st + Z.of_nat n) mod 60.
Proof.
  intros Hi. induction n as [|n IH].
  - simpl. rewrite Z.add_0_r. symmetry. by apply Z.mod_small.
  - rewrite Nat.iter_succ, end_of_bit_frame_index.
    + rewrite IH, Z.add_mod_idemp_l by lia. f_equal. lia.
    + rewrite IH. apply Z.mod_pos_bound. lia.
Qed.

(** The symbol selected at the end of a bit. *)
Lemma end_of_bit_data st :
  0 <= frame_index st < 60 ->
  marker_index (frame_index (end_of_bit st)) = false ->
  WWVB_LOWTIME (end_of_bit st) =
    pulse_of (pulse_width (end_of_bit st))
      (rd (subframe (end_of_bit st) (frame_index (end_of_bit st) / 10))
          (frame_index (end_of_bit st) mod 10)).
Proof.
  intros Hi. pose proof (end_of_bit_frame_index st Hi) as Hf.
  assert (Hr : 0 <= frame_index (end_of_bit st) < 60)
    by (rewrite Hf; apply Z.mod_pos_bound; lia).
  revert Hr. clear Hf. rewrite end_of_bit_eq. cbv zeta.
  match goal with |- context [set_lowTime ?s] =>
    pose proof (set_lowTime_data s) as Hd;
    destruct (set_lowTime_shape s) as (i & l & E);
    generalize dependent (set_lowTime s); generalize dependent s end.
  intros s0 s Hd ->. simpl in *. intros Hr Hm.
  by destruct (Hd Hr Hm) as (-> & _).
Qed.

Lemma setup_frame_index b st : frame_index (setup b st) = 0.
Proof.
  unfold setup, fast_branch.
  by destruct (attiny b), (F_CPU b =? 16000000), (F_CPU b =? 8000000).
Qed.

(** ** Claim C7 *)

(** C7, as stated, fails: [resume] switches the generator on without
    selecting a symbol.  After [setup] and a [set_time], [resume] leaves
    the generator active at index 0, a marker index, with the threshold
    [setup] stored, the LOW threshold: the output rises after 12121 ticks
    and not after the 48485 of a marker. *)
Lemma resume_without_start_sends_low :
  is_active (run_all [SetTime 30 12 15 6 24 0; Resume] (setup ATtiny85 initial)) = true /\
  frame_index (run_all [SetTime 30 12 15 6 24 0; Resume] (setup ATtiny85 initial)) = 0 /\
  WWVB_LOWTIME (run_all [SetTime 30 12 15 6 24 0; Resume] (setup ATtiny85 initial)) = 12121 /\
  WWVB_MARKER (run_all [SetTime 30 12 15 6 24 0; Resume] (setup ATtiny85 initial)) = 48485 /\
  ~ marker_ok (run_all [SetTime 30 12 15 6 24 0; Resume] (setup ATtiny85 initial)) /\
  OCR1x (ticks (Z.to_nat 12120)
    (run_all [SetTime 30 12 15 6 24 0; Resume] (setup ATtiny85 initial))) = 6 /\
  OCR1x (ticks (Z.to_nat 12121)
    (run_all [SetTime 30 12 15 6 24 0; Resume] (setup ATtiny85 initial))) = 66 /\
  frame_index (ticks (Z.to_nat 12121)
    (run_all [SetTime 30 12 15 6 24 0; Resume] (setup ATtiny85 initial))) = 0.
Proof.
  split; [by vm_compute|]. split; [by vm_compute|]. split; [by vm_compute|].
  split; [by vm_compute|]. split; [|by vm_compute].
  unfold marker_ok. vm_compute. intros H. discriminate (H eq_refl).
Qed.

(** C7, amended: in every state from [setup] on the frame index lies in
    0..59; after [n] further symbols it is the index plus [n] modulo 60, so
    it runs through 0..59 and is back after exactly 60 symbols.  In every
    state reached once a symbol was selected, by [start] or by the end of a
    bit, whatever calls preceded and followed, the threshold in force at
    the indices 0, 9, 19, 29, 39, 49 and 59 is the marker threshold
    whatever the subframes hold; and the symbol selected for any other
    index is looked up from the bit at position index mod 10 of the
    subframe of the index's decade. *)
Theorem frame_sequencer (b : build) (pre cs : list call) :
  (0 <= frame_index (run_all pre (setup b initial)) < 60 /\
   (forall n, frame_index (Nat.iter n end_of_bit (run_all pre (setup b initial))) =
      (frame_index (run_all pre (setup b initial)) + Z.of_nat n) mod 60) /\
   frame_index (Nat.iter 60 end_of_bit (run_all pre (setup b initial))) =
     frame_index (run_all pre (setup b initial))) /\
  (marker_index (frame_index (run_all cs (start (run_all pre (setup b initial))))) = true ->
   WWVB_LOWTIME (run_all cs (start (run_all pre (setup b initial)))) =
     WWVB_MARKER (run_all cs (start (run_all pre (setup b initial))))) /\
  (marker_index (frame_index (run_all cs (end_of_bit (run_all pre (setup b initial))))) = true ->
   WWVB_LOWTIME (run_all cs (end_of_bit (run_all pre (setup b initial)))) =
     WWVB_MARKER (run_all cs (end_of_bit (run_all pre (setup b initial))))) /\
  (marker_index (frame_index (end_of_bit (run_all pre (setup b initial)))) = false ->
   WWVB_LOWTIME (end_of_bit (run_all pre (setup b initial))) =
     pulse_of (pulse_width (end_of_bit (run_all pre (setup b initial))))
       (rd (subframe (end_of_bit (run_all pre (setup b initial)))
              (frame_index (end_of_bit (run_all pre (setup b initial))) / 10))
           (frame_index (end_of_bit (run_all pre (setup b initial))) mod 10))) /\
  (forall i, marker_index i = true <->
     i = 0 \/ i = 9 \/ i = 19 \/ i = 29 \/ i = 39 \/ i = 49 \/ i = 59).
Proof.
  assert (Hi : 0 <= frame_index (run_all pre (setup b initial)) < 60).
  { apply run_all_frame_index. rewrite setup_frame_index. lia. }
  generalize dependent (run_all pre (setup b initial)). intros st Hi.
  split.
  { split; [exact Hi|]. split; [intros n; by apply iter_end_of_bit_index|].
    rewrite iter_end_of_bit_index by done.
    change (Z.of_nat 60) with (1 * 60). rewrite Z.mod_add by lia. by apply Z.mod_small. }
  split; [apply run_all_marker_ok, start_marker_ok|].
  split; [apply run_all_marker_ok, end_of_bit_marker_ok|].
  split; [by apply end_of_bit_data|].
  intros i. unfold marker_index. rewrite !orb_true_iff, !Z.eqb_eq. tauto.
Qed.

(** ** The modulator within one bit-second *)

Lemma ticks_succ k st : ticks (S k) st = interrupt_routine (ticks k st).
Proof. unfold ticks. apply Nat.iter_succ. Qed.

(** Before the end of the bit, [k] ticks have only counted, and raised the
    duty once the threshold was reached. *)
Lemma ticks_within st (k : nat) :
  bit_start st -> Z.of_nat k < WWVB_ENDOFBIT st ->
  ticks k st =
    with_OCR1x (if Z.of_nat k <? WWVB_LOWTIME st then PWM_LOW st else PWM_HIGH st)
      (with_isr_count (Z.of_nat k) st).
Proof.
  intros (Hc & Ho & HL & _ & _ & _ & HE & _).
  induction k as [|k IH]; intros Hk.
  - change (Z.of_nat 0) with 0. destruct (Z.ltb_spec 0 (WWVB_LOWTIME st)); [|lia].
    rewrite <- Hc, <- Ho. by destruct st.
  - rewrite ticks_succ, IH by lia.
    unfold interrupt_routine. cbv zeta.
    assert (Ei : incr16 (Z.of_nat k) = Z.of_nat (S k))
      by (unfold incr16; rewrite Z.mod_small; lia).
    cbn [isr_count with_OCR1x with_isr_count WWVB_LOWTIME WWVB_ENDOFBIT PWM_HIGH].
    rewrite Ei.
    destruct (Z.leb_spec (WWVB_ENDOFBIT st) (Z.of_nat (S k))); [lia|].
    destruct (Z.eqb_spec (Z.of_nat (S k)) (WWVB_LOWTIME st)) as [El|Nl].
    + rewrite <- El.
      destruct (Z.ltb_spec (Z.of_nat (S k)) (Z.of_nat (S k))); [lia|]. reflexivity.
    + destruct (Z.ltb_spec (Z.of_nat k) (WWVB_LOWTIME st)),
        (Z.ltb_spec (Z.of_nat (S k)) (WWVB_LOWTIME st)); try lia; reflexivity.
Qed.

(** The tick that completes the bit runs the end-of-bit block. *)
Lemma ticks_end st :
  bit_start st ->
  ticks (Z.to_nat (WWVB_ENDOFBIT st)) st =
    end_of_bit (with_isr_count (WWVB_ENDOFBIT st) (with_OCR1x (PWM_HIGH st) st)).
Proof.
  intros Hb. pose proof Hb as (Hc & Ho & HL & _ & _ & _ & HE & _).
  replace (Z.to_nat (WWVB_ENDOFBIT st)) with (S (Z.to_nat (WWVB_ENDOFBIT st - 1))) by lia.
  rewrite ticks_succ, ticks_within by (done || lia).
  rewrite Z2Nat.id by lia.
  destruct (Z.ltb_spec (WWVB_ENDOFBIT st - 1) (WWVB_LOWTIME st)); [lia|].
  unfold interrupt_routine. cbv zeta.
  cbn [isr_count with_OCR1x with_isr_count WWVB_LOWTIME WWVB_ENDOFBIT PWM_HIGH].
  assert (Ei : incr16 (WWVB_ENDOFBIT st - 1) = WWVB_ENDOFBIT st)
    by (unfold incr16; rewrite Z.mod_small; lia).
  rewrite Ei.
  destruct (Z.eqb_spec (WWVB_ENDOFBIT st) (WWVB_LOWTIME st)); [lia|].
  destruct (Z.leb_spec (WWVB_ENDOFBIT st) (WWVB_ENDOFBIT st)); [|lia].
  reflexivity.
Qed.

Lemma set_lowTime_threshold st :
  0 <= frame_index st < 60 ->
  WWVB_LOWTIME (set_lowTime st) = WWVB_MARKER st \/
  exists b, WWVB_LOWTIME (set_lowTime st) = pulse_of (pulse_width st) b.
Proof.
  intros Hi. destruct (marker_index (frame_index st)) eqn:Hm.
  - left. by apply set_lowTime_marker.
  - right. destruct (set_lowTime_data st Hi Hm) as (-> & _). by eexists.
Qed.

(** The end-of-bit block in the abstract: the state [s1] it selects the next
    symbol on, and what that state shares with the state on entry. *)
Lemma end_of_bit_shape st :
  exists s1 i l,
    end_of_bit st = with_isr_count 0 (with_WWVB_LOWTIME l (with_subframe_index i s1)) /\
    l = WWVB_LOWTIME (set_lowTime (with_subframe_index (frame_index s1 mod 10) s1)) /\
    frame_index s1 = (if incr8 (frame_index st) =? 60 then 0 else incr8 (frame_index st)) /\
    OCR1x s1 = PWM_LOW st /\ timing s1 = timing st /\ touch_only st s1 /\
    clock s1 = (if incr8 (frame_index st) =? 60 then clock (add_time 1 0 st) else clock st).
Proof.
  rewrite end_of_bit_eq. cbv zeta.
  set (s0 := with_frame_index _ (with_OCR1x (PWM_LOW st) st)).
  destruct (incr8 (frame_index st) =? 60).
  - destruct (add_time_steps 1 0 s0) as (Hm & Ht).
    pose proof (add_time_clock 1 0 s0 st eq_refl) as Hc.
    generalize dependent (add_time 1 0 s0). intros sa Hm Ht Hc.
    destruct (modulator_inv _ _ Hm) as (_ & _ & _ & _ & Ho).
    apply modulator_timing in Hm.
    destruct (set_lowTime_shape (with_subframe_index (frame_index (with_frame_index 0 sa) mod 10)
      (with_frame_index 0 sa))) as (i & l & E).
    exists (with_frame_index 0 sa), i, l.
    split; [by rewrite E|]. split; [by rewrite E|].
    split; [reflexivity|]. split; [exact Ho|]. split; [exact Hm|].
    split; [|exact Hc].
    eapply touch_only_trans; [|eapply touch_only_trans; [exact Ht|]]; by apply touch_only_frames.
  - destruct (set_lowTime_shape (with_subframe_index (frame_index s0 mod 10) s0)) as (i & l & E).
    exists s0, i, l.
    split; [by rewrite E|]. split; [by rewrite E|].
    split; [reflexivity|]. split; [reflexivity|]. split; [reflexivity|].
    split; [by apply touch_only_frames|reflexivity].
Qed.

(** What the end-of-bit block leaves in the modulator. *)
Lemma end_of_bit_modulator st :
  0 <= frame_index st < 60 ->
  isr_count (end_of_bit st) = 0 /\ OCR1x (end_of_bit st) = PWM_LOW st /\
  (WWVB_LOWTIME (end_of_bit st) = WWVB_MARKER st \/
   exists b, WWVB_LOWTIME (end_of_bit st) = pulse_of (pulse_width st) b).
Proof.
  intros Hi.
  destruct (end_of_bit_shape st) as (s1 & i & l & E & El & Ef & Ho & Ht & _ & _).
  assert (Hr : 0 <= frame_index s1 < 60).
  { rewrite Ef. unfold incr8. rewrite Z.mod_small by lia.
    destruct (Z.eqb_spec (frame_index st + 1) 60); lia. }
  pose proof (set_lowTime_threshold (with_subframe_index (frame_index s1 mod 10) s1) Hr) as Hd.
  rewrite <- El in Hd. cbn [WWVB_MARKER pulse_width with_subframe_index] in Hd.
  unfold timing in Ht. injection Ht as _ _ Em _ Ep _ _.
  rewrite Em, Ep in Hd. rewrite E.
  split; [reflexivity|]. split; [exact Ho|exact Hd].
Qed.

Lemma thresholds_ok_timing st st' : timing st' = timing st -> thresholds_ok st -> thresholds_ok st'.
Proof.
  unfold timing, thresholds_ok. by intros [= _ _ -> -> -> -> ->].
Qed.

(** A whole bit-second later the next one starts the same way. *)
Lemma bit_start_next st :
  bit_start st ->
  let st' := ticks (Z.to_nat (WWVB_ENDOFBIT st)) st in
  bit_start st' /\ isr_count st' = 0 /\ OCR1x st' = PWM_LOW st /\
  frame_index st' = (frame_index st + 1) mod 60.
Proof.
  intros Hb st'. subst st'. rewrite (ticks_end st Hb).
  destruct Hb as (Hc & Ho & HL & Hi & Hth).
  set (s := with_isr_count (WWVB_ENDOFBIT st) (with_OCR1x (PWM_HIGH st) st)).
  assert (His : 0 <= frame_index s < 60) by exact Hi.
  destruct (end_of_bit_modulator s His) as (E1 & E2 & E3).
  pose proof (end_of_bit_frame_index s His) as E4.
  destruct (end_of_bit_keeps s) as (_ & E5).
  change (PWM_LOW s) with (PWM_LOW st) in E2.
  change (WWVB_MARKER s) with (WWVB_MARKER st) in E3.
  change (pulse_width s) with (pulse_width st) in E3.
  change (frame_index s) with (frame_index st) in E4.
  change (timing s) with (timing st) in E5.
  generalize dependent (end_of_bit s). intros r E1 E2 E3 E4 E5.
  pose proof (thresholds_ok_timing _ _ E5 Hth) as Hth'.
  assert (Ee : WWVB_ENDOFBIT r = WWVB_ENDOFBIT st /\ PWM_LOW r = PWM_LOW st).
  { unfold timing in E5. by injection E5 as _ _ _ -> _ -> _. }
  destruct Ee as (Ee & Ep).
  split; [|by rewrite E4].
  unfold bit_start. rewrite E1, E2, Ep, Ee, E4.
  split; [done|]. split; [done|]. split.
  - destruct Hth as (Hm & Hp & _). destruct E3 as [->|(b & ->)]; [exact Hm|apply Hp].
  - split; [apply Z.mod_pos_bound; lia|exact Hth'].
Qed.

(** ** Claim C9 *)


Ltac decide_closed :=
  unfold bit_start, thresholds_ok; vm_compute;
  repeat match goal with
  | |- _ /\ _ => split
  | |- forall b : bool, _ => intros []
  end;
  first [reflexivity | intros; discriminate].


(** The hypothesis of C9 holds when the generator is started after [setup]
    on a supported build, whatever calls other than timer interrupts came
    in between; by [bit_start_next] it then holds at the start of every
    later bit-second of an uninterrupted run. *)

Lemma thresholds_ok_setup b : supported b = true -> thresholds_ok (setup b initial).
Proof.
  unfold supported, setup, fast_branch.
  destruct (attiny b), (F_CPU b =? 16000000), (F_CPU b =? 8000000);
    intros H; try discriminate H; decide_closed.
Qed.

Lemma run_isr_count c st : is_tick c = false -> isr_count (run c st) = isr_count st.
Proof.
  destruct c; cbn [run is_tick]; intros H.
  8: reflexivity. 7: reflexivity. 6: reflexivity. 5: reflexivity. 3: discriminate H.
  - destruct (set_time_steps (u8 _mins) (u8 _hour) (u8 _DD) (u8 _MM) (u8 _YY)
      (u8 _daylight_savings) st) as (Hm & _).
    by destruct (modulator_inv _ _ Hm) as (_ & _ & _ & -> & _).
  - destruct (add_time_steps (u8 _mins) (u8 _hour) st) as (Hm & _).
    by destruct (modulator_inv _ _ Hm) as (_ & _ & _ & -> & _).
  - by destruct (start_shape st) as (i & l & ->).
Qed.

Lemma bit_start_established b pre :
  supported b = true -> forallb (fun c => negb (is_tick c)) pre = true ->
  bit_start (start (run_all pre (setup b initial))).
Proof.
  intros Hs Hp.
  assert (Hc : isr_count (run_all pre (setup b initial)) = 0).
  { assert (H0 : isr_count (setup b initial) = 0).
    { unfold setup, fast_branch.
      by destruct (attiny b), (F_CPU b =? 16000000), (F_CPU b =? 8000000). }
    revert H0 Hp. generalize (setup b initial). induction pre as [|c pre IH]; intros s H0 Hp.
    - exact H0.
    - simpl in Hp. apply andb_true_iff in Hp as (Hc & Hp).
      apply (IH (run c s)); [|exact Hp]. rewrite run_isr_count; [exact H0|].
      by destruct (is_tick c). }
  destruct (run_all_keeps pre (setup b initial)) as (_ & Ht).
  pose proof (thresholds_ok_timing _ _ Ht (thresholds_ok_setup b Hs)) as Hth.
  generalize dependent (run_all pre (setup b initial)). intros s Hc Ht Hth. clear Ht.
  pose proof (set_lowTime_marker (with_subframe_index 0 (with_frame_index 0 s)) eq_refl) as Hl.
  unfold start, resume. cbv zeta.
  destruct (set_lowTime_shape (with_subframe_index 0 (with_frame_index 0 s))) as (i & l & E).
  rewrite E in Hl |- *. cbn in Hl. subst l.
  unfold bit_start. cbn. 
  split; [exact Hc|]. split; [reflexivity|].
  destruct Hth as (Hm & Hq & He & Hd).
  split; [exact Hm|]. split; [lia|]. exact (conj Hm (conj Hq (conj He Hd))).
Qed.

(** ** The minute rollover *)

Lemma synced_ext st st' :
  clock st' = clock st ->
  (mins_synced st -> mins_synced st') /\ (hour_synced st -> hour_synced st') /\
  (doty_synced st -> doty_synced st') /\ (year_synced st -> year_synced st').
Proof.
  intros H.
  pose proof (clock_frames _ _ H) as F. pose proof (clock_saved _ _ H) as S.
  unfold frames in F. unfold saved in S.
  unfold mins_synced, hour_synced, doty_synced, year_synced,
    mins_bits, hour_bits, doty_bits, year_bits.
  injection F as -> -> -> -> -> ->. injection S as -> -> _ _ -> -> _ _. done.
Qed.

Lemma clock_stored st st' :
  clock st' = clock st ->
  get_time st' = get_time st /\ doty_ st' = doty_ st /\ is_leap_year_ st' = is_leap_year_ st /\
  daylight_savings_ st' = daylight_savings_ st.
Proof.
  intros H. pose proof (clock_saved _ _ H) as S. unfold saved in S. unfold get_time.
  by injection S as -> -> -> -> -> -> -> ->.
Qed.



(** ** Claim C6 *)




(** The rollover across a month boundary: 31 January 23:59, index 59, is
    followed by 1 February 00:00, index 0, day 32 of the year. *)
Example rollover_month_boundary :
  frame_index jan31_2359 = 59 /\ get_time jan31_2359 = (59, 23, 31, 1, 15) /\
  frame_index (end_of_bit jan31_2359) = 0 /\
  get_time (end_of_bit jan31_2359) = (0, 0, 1, 2, 15) /\
  doty_ (end_of_bit jan31_2359) = 32 /\
  WWVB_LOWTIME (end_of_bit jan31_2359) = 48485.
Proof. by vm_compute. Qed.

(** The rollover out of a leap year: 31 December 2016 23:59, day 366, is
    followed by 1 January 2017 00:00, day 1 of a common year. *)
Example rollover_leap_year_end :
  frame_index dec31_2359 = 59 /\ get_time dec31_2359 = (59, 23, 31, 12, 16) /\
  doty_ dec31_2359 = 366 /\ is_leap_year_ dec31_2359 = true /\
  frame_index (end_of_bit dec31_2359) = 0 /\
  get_time (end_of_bit dec31_2359) = (0, 0, 1, 1, 17) /\
  doty_ (end_of_bit dec31_2359) = 1 /\ is_leap_year_ (end_of_bit dec31_2359) = false.
Proof. by vm_compute. Qed.

(** ** The subframes of configured objects *)

Lemma encoded_ext st st' : clock st' = clock st -> encoded st -> encoded st'.
Proof.
  intros H (Hm & Hh & Hy).
  destruct (synced_ext st st' H) as (Sm & Sh & _ & Sy).
  destruct (clock_stored st st' H) as (G & _).
  unfold get_time in G. injection G as G1 G2 _ _ G5.
  unfold encoded. rewrite G1, G2, G5. tauto.
Qed.

Lemma encoded_setup b : encoded (setup b initial).
Proof.
  destruct (setup_clock b initial) as (S & _). unfold saved in S.
  generalize dependent (setup b initial). intros s S.
  injection S as E1 E2 _ _ E5 _ _ _. unfold encoded. auto.
Qed.

Lemma encoded_set_time_priv d st :
  wf st -> 0 <= t_mm st -> 0 <= t_hh st -> 0 <= t_DD st -> 0 <= t_YY st ->
  encoded st -> encoded (set_time_priv d st).
Proof.
  intros Hwf Hm Hh HD HY (Em & Eh & Ey).
  destruct (set_time_priv_stored d st) as (G & _).
  destruct (set_time_priv_synced d st Hwf Hm Hh HD HY) as (Sm & Sh & _ & Sy).
  generalize dependent (set_time_priv d st). intros s' G Sm Sh Sy.
  unfold get_time in G. injection G as G1 G2 _ _ G5.
  unfold encoded. rewrite G1, G2, G5.
  repeat split.
  - destruct (Z.eq_dec (t_mm st) 0) as [E|N]; [by left|].
    right. apply Sm. destruct Em as [Hz|Hs]; [left; lia|by right].
  - destruct (Z.eq_dec (t_hh st) 0) as [E|N]; [by left|].
    right. apply Sh. destruct Eh as [Hz|Hs]; [left; lia|by right].
  - destruct (Z.eq_dec (t_YY st) 0) as [E|N]; [by left|].
    right. apply Sy. destruct Ey as [Hz|Hs]; [left; lia|by right].
Qed.

Lemma encoded_add_time m h st : sane st -> encoded st -> encoded (add_time m h st).
Proof.
  intros (Hwf & Hss & Hm & Hh & HD & HM & HY & _) He.
  unfold add_time, get_time.
  destruct (addTimezone_t_shape 0 m h
    (with_t_YY (YY_ st) (with_t_MM (MM_ st) (with_t_DD (DD_ st)
      (with_t_hh (hour_ st) (with_t_mm (mins_ st) st))))))
    as (ss & mm & hh & DD & MM & YY & E & ->).
  simpl in E.
  pose proof (addTimezone_range (t_ss st) (mins_ st) (hour_ st) (DD_ st) (MM_ st) (YY_ st)
    0 m h HD HM HY) as R.
  rewrite E in R. destruct R as (? & ? & ? & ? & ? & ?).
  apply encoded_set_time_priv; simpl; try lia; [exact Hwf|exact He].
Qed.

Lemma encoded_set_time m h D M Y dst st :
  0 <= D -> 0 <= M -> 0 <= Y -> sane st -> encoded st -> encoded (set_time m h D M Y dst st).
Proof.
  intros HD HM HY (Hwf & Hss & _) He.
  unfold set_time.
  destruct (addTimezone_t_shape 0 1 0
    (with_t_YY Y (with_t_MM M (with_t_DD D (with_t_hh h (with_t_mm m st))))))
    as (ss & mm & hh & DD & MM & YY & E & ->).
  simpl in E.
  pose proof (addTimezone_range (t_ss st) m h D M Y 0 1 0 HD HM HY) as R.
  rewrite E in R. destruct R as (? & ? & ? & ? & ? & ?).
  apply encoded_set_time_priv; simpl; try lia; [exact Hwf|exact He].
Qed.

Lemma encoded_end_of_bit st : sane st -> encoded st -> encoded (end_of_bit st).
Proof.
  intros Hs He. rewrite end_of_bit_eq. cbv zeta.
  set (s0 := with_frame_index _ (with_OCR1x (PWM_LOW st) st)).
  assert (H0 : sane s0) by (by apply (sane_ext st)).
  assert (E0 : encoded s0) by (by apply (encoded_ext st)).
  destruct (incr8 (frame_index st) =? 60).
  - pose proof (encoded_add_time 1 0 s0 H0 E0) as H1.
    generalize dependent (add_time 1 0 s0). intros s1 H1.
    match goal with |- context [set_lowTime ?s] =>
      destruct (set_lowTime_shape s) as (i & l & ->) end.
    by apply (encoded_ext s1).
  - match goal with |- context [set_lowTime ?s] =>
      destruct (set_lowTime_shape s) as (i & l & ->) end.
    by apply (encoded_ext s0).
Qed.

Lemma encoded_run c st : sane st -> encoded st -> encoded (run c st).
Proof.
  intros Hs He. destruct c; cbn [run].
  - apply encoded_set_time; auto using u8_nonneg.
  - by apply encoded_add_time.
  - unfold interrupt_routine. cbv zeta.
    set (s0 := with_isr_count _ st).
    assert (H0 : sane s0) by (by apply (sane_ext st)).
    assert (E0 : encoded s0) by (by apply (encoded_ext st)).
    destruct (isr_count s0 =? WWVB_LOWTIME s0); [by apply (encoded_ext s0)|].
    destruct (WWVB_ENDOFBIT s0 <=? isr_count s0); [by apply encoded_end_of_bit|done].
  - destruct (start_shape st) as (i & l & ->). by apply (encoded_ext st).
  - by apply (encoded_ext st).
  - by apply (encoded_ext st).
  - by apply (encoded_ext st).
  - by apply (encoded_ext st).
Qed.

Lemma encoded_run_all cs st : sane st -> encoded st -> encoded (run_all cs st).
Proof.
  revert st. induction cs as [|c cs IH]; intros st Hs He; simpl; [done|].
  apply IH; [by apply sane_run|by apply encoded_run].
Qed.

Lemma unused_clear_setup b : unused_clear (setup b initial).
Proof.
  destruct (setup_initial_arrays b) as (E1 & E2 & E3 & _ & E5 & E6).
  unfold unused_clear. by rewrite E1, E2, E3, E5, E6.
Qed.

(** ** Claim C2 *)

(** C2 (the code departs from it at value 0): on the object [setup]
    leaves, on every build, [set_mins(0)], [set_hour(0)] and [set_year(0)]
    are skipped, because the stored fields are zero-initialised while the
    arrays are initialised to ones: the data bits keep reading 85, 45 and
    165 and are not the ladder of 0.  Through the public interface,
    [set_time(59, 23, 14, 6, 0)] stores 00:00 on 15 June 2000 and leaves
    all three subframes as they were.  Everywhere else the claim holds: in
    every state from [setup] on, for a minute 0-59, hour 0-23 or year 0-99
    that is not 0, or that is 0 while the stored field is not, the data
    bits after the set operation are the greedy weight ladder of the value
    and their weights add up to it; the positions without a weight stay
    0; and minute 37 sets the 20, 10, 4, 2 and 1 bits and clears the 40
    and 8 bits. *)
Theorem zero_not_encoded_after_setup (b : build) (cs : list call) (m h y : Z) :
  (mins_bits (set_mins 0 (setup b initial)) <> weight_ladder mins_weights 0 /\
   weighted_sum mins_weights (mins_bits (set_mins 0 (setup b initial))) = 85 /\
   hour_bits (set_hour 0 (setup b initial)) <> weight_ladder hour_weights 0 /\
   weighted_sum hour_weights (hour_bits (set_hour 0 (setup b initial))) = 45 /\
   year_bits (set_year 0 (setup b initial)) <> weight_ladder year_weights 0 /\
   weighted_sum year_weights (year_bits (set_year 0 (setup b initial))) = 165) /\
  (get_time (set_time 59 23 14 6 0 0 (setup b initial)) = (0, 0, 15, 6, 0) /\
   weighted_sum mins_weights (mins_bits (set_time 59 23 14 6 0 0 (setup b initial))) = 85 /\
   weighted_sum hour_weights (hour_bits (set_time 59 23 14 6 0 0 (setup b initial))) = 45 /\
   weighted_sum year_weights (year_bits (set_time 59 23 14 6 0 0 (setup b initial))) = 165) /\
  (0 <= m <= 59 -> m <> 0 \/ mins_ (run_all cs (setup b initial)) <> 0 ->
   mins_bits (set_mins m (run_all cs (setup b initial))) = weight_ladder mins_weights m /\
   weighted_sum mins_weights (mins_bits (set_mins m (run_all cs (setup b initial)))) = m) /\
  (0 <= h <= 23 -> h <> 0 \/ hour_ (run_all cs (setup b initial)) <> 0 ->
   hour_bits (set_hour h (run_all cs (setup b initial))) = weight_ladder hour_weights h /\
   weighted_sum hour_weights (hour_bits (set_hour h (run_all cs (setup b initial)))) = h) /\
  (0 <= y <= 99 -> y <> 0 \/ YY_ (run_all cs (setup b initial)) <> 0 ->
   year_bits (set_year y (run_all cs (setup b initial))) = weight_ladder year_weights y /\
   weighted_sum year_weights (year_bits (set_year y (run_all cs (setup b initial)))) = y) /\
  (unused_clear (set_mins m (run_all cs (setup b initial))) /\
   unused_clear (set_hour h (run_all cs (setup b initial))) /\
   unused_clear (set_year y (run_all cs (setup b initial)))) /\
  weight_ladder mins_weights 37 = [false; true; true; false; true; true; true].
Proof.
  split.
  { unfold setup, fast_branch.
    destruct (attiny b), (F_CPU b =? 16000000), (F_CPU b =? 8000000);
      vm_compute; by repeat split. }
  split.
  { unfold setup, fast_branch.
    destruct (attiny b), (F_CPU b =? 16000000), (F_CPU b =? 8000000);
      vm_compute; by repeat split. }
  pose proof (sane_run_all cs _ (sane_setup b)) as (Hwf & _).
  pose proof (encoded_run_all cs _ (sane_setup b) (encoded_setup b)) as (Em & Eh & Ey).
  assert (Hun : unused_clear (run_all cs (setup b initial))).
  { destruct (run_all_keeps cs (setup b initial)) as (T & _).
    exact (touch_only_unused _ _ T (unused_clear_setup b)). }
  generalize dependent (run_all cs (setup b initial)). intros st Hwf Em Eh Ey Hun.
  split.
  { intros Hm Cm.
    assert (S : mins_synced (set_mins m st)).
    { apply set_mins_synced; [done|lia|]. destruct Em as [Hz|Hs]; [left; lia|by right]. }
    assert (E : mins_ (set_mins m st) = m) by (by rewrite set_mins_nf).
    unfold mins_synced in S. rewrite E in S. by rewrite S, ladder_sum_mins. }
  split.
  { intros Hh Ch.
    assert (S : hour_synced (set_hour h st)).
    { apply set_hour_synced; [done|lia|]. destruct Eh as [Hz|Hs]; [left; lia|by right]. }
    assert (E : hour_ (set_hour h st) = h) by (by rewrite set_hour_nf).
    unfold hour_synced in S. rewrite E in S. by rewrite S, ladder_sum_hour. }
  split.
  { intros Hy Cy.
    assert (S : year_synced (set_year y st)).
    { apply set_year_synced; [done|lia|]. destruct Ey as [Hz|Hs]; [left; lia|by right]. }
    assert (E : YY_ (set_year y st) = y) by (by rewrite set_year_nf).
    unfold year_synced in S. rewrite E in S. by rewrite S, ladder_sum_year. }
  split; [|reflexivity].
  pose proof (encoder_step_unused _ _ (set_mins_step m st) Hun).
  pose proof (encoder_step_unused _ _ (set_hour_step h st) Hun).
  pose proof (encoder_step_unused _ _ (set_year_step y st) Hun).
  done.
Qed.

(** ** Claim C5 *)

(** The part of C5 that holds: storing the same value twice in a row is
    storing it once. *)
Lemma set_hour_idempotent v st : set_hour v (set_hour v st) = set_hour v st.
Proof.
  assert (E : hour_ (set_hour v st) = v) by (by rewrite set_hour_nf).
  generalize dependent (set_hour v st). intros s <-. apply set_hour_same.
Qed.

Lemma set_mins_idempotent v st : set_mins v (set_mins v st) = set_mins v st.
Proof.
  assert (E : mins_ (set_mins v st) = v) by (by rewrite set_mins_nf).
  generalize dependent (set_mins v st). intros s <-. apply set_mins_same.
Qed.

Lemma set_doty_idempotent v st : set_doty v (set_doty v st) = set_doty v st.
Proof.
  assert (E : doty_ (set_doty v st) = v) by (by rewrite set_doty_nf).
  generalize dependent (set_doty v st). intros s <-. apply set_doty_same.
Qed.

Lemma set_year_idempotent v st : set_year v (set_year v st) = set_year v st.
Proof.
  assert (E : YY_ (set_year v st) = v) by (by rewrite set_year_nf).
  generalize dependent (set_year v st). intros s <-. apply set_year_same.
Qed.

(** Where the stored hour differs, or the subframe is in step with it, the
    memoizing encoder and the unconditional one leave the same bits. *)
Lemma set_hour_refines_encode st v :
  wf st -> 0 <= v -> hour_ st <> v \/ hour_synced st ->
  hour_bits (set_hour v st) = hour_bits (encode_hour v st).
Proof.
  intros Hwf Hv Hc.
  pose proof (set_hour_synced st v Hwf Hv Hc) as S. unfold hour_synced in S.
  rewrite S, set_hour_nf. cbn [hour_ with_HOUR with_hour_].
  destruct Hwf as (_ & HH & _).
  unfold encode_hour. rewrite !weigh_eq.
  unfold hour_bits, hour_weights. rewrite !weight_ladder_cons.
  simpl. split10 HH. simpl.
  by rewrite to_boolean_unit by auto 10 with ladder.
Qed.

(** C5 (the code departs from it): the change detection is observable.  On
    the object as [setup] leaves it the stored hour is 0 while the HOUR
    array holds its initialiser, so storing hour 0 is skipped and the
    subframe keeps reading 45, where the unconditional encoder, and the
    same call after another hour was stored, give all zeros: the bits are
    not a function of the value alone.  Likewise [is_leap_year_] and
    [daylight_savings_] are initialised to 0 while MISC is initialised to
    ones, so [set_misc(false, 0)] leaves the leap-year flag and both
    daylight-savings bits at 1.  Through the public interface:
    [set_time(59, 23, 14, 6, 15)] stores 00:00 on 15 June 2015 and leaves
    minute, hour, leap-year and daylight-savings bits all at 1. *)
Theorem change_detection_observable :
  hour_bits (set_hour 0 (setup ATtiny85 initial)) = [true; true; true; true; true; true] /\
  hour_bits (encode_hour 0 (setup ATtiny85 initial))
    = [false; false; false; false; false; false] /\
  hour_bits (set_hour 0 (set_hour 5 (setup ATtiny85 initial)))
    = [false; false; false; false; false; false] /\
  bits_at (MISC (set_misc false 0 (setup ATtiny85 initial))) [5; 7; 8] = [true; true; true] /\
  bits_at (MISC (encode_misc false 0 (setup ATtiny85 initial))) [5; 7; 8]
    = [false; false; false] /\
  get_time (set_time 59 23 14 6 15 0 (setup ATtiny85 initial)) = (0, 0, 15, 6, 15) /\
  is_leap_year_ (set_time 59 23 14 6 15 0 (setup ATtiny85 initial)) = false /\
  daylight_savings_ (set_time 59 23 14 6 15 0 (setup ATtiny85 initial)) = 0 /\
  mins_bits (set_time 59 23 14 6 15 0 (setup ATtiny85 initial))
    = [true; true; true; true; true; true; true] /\
  hour_bits (set_time 59 23 14 6 15 0 (setup ATtiny85 initial))
    = [true; true; true; true; true; true] /\
  bits_at (MISC (set_time 59 23 14 6 15 0 (setup ATtiny85 initial))) [5; 7; 8]
    = [true; true; true].
Proof. by vm_compute. Qed.

(** ** Claim C10 *)

(** C10 (the code departs from it in the subframes): the public setter
    stores the supplied time advanced by one minute, which [get_time]
    returns ([set_time_stored] proves it for every input), but the
    subframes need not encode it.  After [setup], [set_time(59, 23, 14, 6,
    15)] stores 00:00 on 15 June 2015 while the minute subframe reads 85
    and the hour subframe 45: both encoders are skipped because the stored
    minute and hour already are 0. *)
Theorem set_time_stale_subframes :
  plus_one_minute (59, 23, 14, 6, 15) = (0, 0, 15, 6, 15) /\
  get_time (set_time 59 23 14 6 15 0 (setup ATtiny85 initial)) = (0, 0, 15, 6, 15) /\
  weighted_sum mins_weights (mins_bits (set_time 59 23 14 6 15 0 (setup ATtiny85 initial))) = 85 /\
  weighted_sum hour_weights (hour_bits (set_time 59 23 14 6 15 0 (setup ATtiny85 initial))) = 45 /\
  mins_bits (set_time 59 23 14 6 15 0 (setup ATtiny85 initial)) <> weight_ladder mins_weights 0 /\
  hour_bits (set_time 59 23 14 6 15 0 (setup ATtiny85 initial)) <> weight_ladder hour_weights 0.
Proof. by vm_compute. Qed.

(** ** Claim C1 *)

(** C1 (the code departs from it): after [setup], on every build, the
    threshold used for a HIGH symbol is the marker threshold, 80% of the
    end-of-bit count and not 50%, because [setup] assigns [pulse_width[1]]
    twice and [pulse_width[2]] never; the documented constant [WWVB_HIGH]
    would be within tolerance.  The LOW and MARKER thresholds are within
    10 microseconds of 20% and 80% of the end-of-bit count.  On the
    supported builds the end-of-bit count itself belongs to the other
    clock: at the carrier frequency the timer is set to, a bit lasts
    about 7.6 ms more or less than one second. *)
Theorem high_symbol_uses_marker_threshold (b : build) :
  threshold_used (setup b initial) HIGH = WWVB_MARKER (setup b initial) /\
  within_10us (threshold_used (setup b initial) HIGH) (documented_percent HIGH)
    (WWVB_ENDOFBIT (setup b initial)) = false /\
  within_10us (threshold_used (setup b initial) HIGH) 80 (WWVB_ENDOFBIT (setup b initial)) = true /\
  within_10us (WWVB_HIGH (setup b initial)) (documented_percent HIGH)
    (WWVB_ENDOFBIT (setup b initial)) = true /\
  within_10us (threshold_used (setup b initial) LOW) (documented_percent LOW)
    (WWVB_ENDOFBIT (setup b initial)) = true /\
  within_10us (threshold_used (setup b initial) MARKER) (documented_percent MARKER)
    (WWVB_ENDOFBIT (setup b initial)) = true /\
  (supported b = true ->
   bit_period_within_10us b (WWVB_ENDOFBIT (setup b initial)) = false /\
   bit_period_within_10us b (if fast_branch b then 60150 else 60606) = true).
Proof.
  unfold supported, bit_period_within_10us, carrier_hz, setup, fast_branch.
  destruct (attiny b), (F_CPU b =? 16000000), (F_CPU b =? 8000000);
    repeat match goal with |- _ /\ _ => split end;
    try reflexivity; intros H; try discriminate H; split; reflexivity.
Qed.

(** * Further properties of the code *)

(** ** Values outside the calendar ranges *)

Lemma ladder_saturates_mins v :
  0 <= v <= 255 -> weighted_sum mins_weights (weight_ladder mins_weights v) = Z.min v 85.
Proof.
  intros Hv. apply Z.eqb_eq.
  apply (range_check
    (fun v => weighted_sum mins_weights (weight_ladder mins_weights v) =? Z.min v 85) 0 256);
    [by vm_compute|lia].
Qed.

Lemma ladder_saturates_hour v :
  0 <= v <= 255 -> weighted_sum hour_weights (weight_ladder hour_weights v) = Z.min v 45.
Proof.
  intros Hv. apply Z.eqb_eq.
  apply (range_check
    (fun v => weighted_sum hour_weights (weight_ladder hour_weights v) =? Z.min v 45) 0 256);
    [by vm_compute|lia].
Qed.

Lemma ladder_saturates_year v :
  0 <= v <= 255 -> weighted_sum year_weights (weight_ladder year_weights v) = Z.min v 165.
Proof.
  intros Hv. apply Z.eqb_eq.
  apply (range_check
    (fun v => weighted_sum year_weights (weight_ladder year_weights v) =? Z.min v 165) 0 256);
    [by vm_compute|lia].
Qed.

Lemma ladder_saturates_doty v :
  0 <= v <= 65535 -> weighted_sum doty_weights (weight_ladder doty_weights v) = Z.min v 465.
Proof.
  intros Hv. destruct (Z.le_gt_cases v 465) as [Hs|Hb].
  - apply Z.eqb_eq.
    apply (range_check
      (fun v => weighted_sum doty_weights (weight_ladder doty_weights v) =? Z.min v 465) 0 466);
      [by vm_compute|lia].
  - rewrite Z.min_r by lia. unfold doty_weights. cbn [weight_ladder].
    repeat (match goal with |- context [?a <=? ?b] => destruct (Z.leb_spec a b); [|lia] end).
    reflexivity.
Qed.

(** X1: the encoders check no range ("this function performs no
    range-checking of variables").  In every state from [setup] on, for any
    argument of the parameter's type other than 0, the weights of the bits
    the encoder leaves add up to the value capped at the sum of all
    weights: 85 for the minute, 45 for the hour, 165 for the year, 465 for
    the day of the year.  Up to the cap the value is read back unchanged;
    above it every bit is 1. *)
Theorem encoders_saturate (b : build) (cs : list call) (m h y d : Z) :
  1 <= m <= 255 -> 1 <= h <= 255 -> 1 <= y <= 255 -> 1 <= d <= 65535 ->
  weighted_sum mins_weights (mins_bits (set_mins m (run_all cs (setup b initial)))) = Z.min m 85 /\
  weighted_sum hour_weights (hour_bits (set_hour h (run_all cs (setup b initial)))) = Z.min h 45 /\
  weighted_sum year_weights (year_bits (set_year y (run_all cs (setup b initial)))) = Z.min y 165 /\
  weighted_sum doty_weights (doty_bits (set_doty d (run_all cs (setup b initial)))) = Z.min d 465.
Proof.
  intros Hm Hh Hy Hd.
  pose proof (sane_run_all cs _ (sane_setup b)) as (Hwf & _ & _ & _ & _ & _ & _ & Ed).
  pose proof (encoded_run_all cs _ (sane_setup b) (encoded_setup b)) as (Em & Eh & Ey).
  generalize dependent (run_all cs (setup b initial)). intros st Hwf Ed Em Eh Ey.
  assert (Sm : mins_synced (set_mins m st)).
  { apply set_mins_synced; [done|lia|]. destruct Em as [Hz|Hs]; [left; lia|by right]. }
  assert (Sh : hour_synced (set_hour h st)).
  { apply set_hour_synced; [done|lia|]. destruct Eh as [Hz|Hs]; [left; lia|by right]. }
  assert (Sy : year_synced (set_year y st)).
  { apply set_year_synced; [done|lia|]. destruct Ey as [Hz|Hs]; [left; lia|by right]. }
  assert (Sd : doty_synced (set_doty d st)).
  { apply set_doty_synced; [done|lia|]. destruct Ed as [Hz|Hs]; [left; lia|by right]. }
  assert (Fm : mins_ (set_mins m st) = m) by (by rewrite set_mins_nf).
  assert (Fh : hour_ (set_hour h st) = h) by (by rewrite set_hour_nf).
  assert (Fy : YY_ (set_year y st) = y) by (by rewrite set_year_nf).
  assert (Fd : doty_ (set_doty d st) = d) by (by rewrite set_doty_nf).
  unfold mins_synced in Sm. unfold hour_synced in Sh. unfold year_synced in Sy.
  unfold doty_synced in Sd.
  rewrite Sm, Sh, Sy, Sd, Fm, Fh, Fy, Fd.
  rewrite ladder_saturates_mins, ladder_saturates_hour, ladder_saturates_year,
    ladder_saturates_doty by lia.
  done.
Qed.

Lemma encoders_saturate_witness :
  (1 <= 200 <= 255 /\ 1 <= 1000 <= 65535) /\
  weighted_sum mins_weights (mins_bits (set_mins 200 (run_all [] (setup ATtiny85 initial)))) = 85 /\
  weighted_sum doty_weights (doty_bits (set_doty 1000 (run_all [] (setup ATtiny85 initial)))) = 465.
Proof.
  assert (R1 : 1 <= 200 <= 255) by lia. assert (R2 : 1 <= 99 <= 255) by lia.
  assert (R3 : 1 <= 250 <= 255) by lia. assert (R4 : 1 <= 1000 <= 65535) by lia.
  split; [exact (conj R1 R4)|].
  split; [exact (proj1 (encoders_saturate ATtiny85 [] 200 99 250 1000 R1 R2 R3 R4))|].
  exact (proj2 (proj2 (proj2 (encoders_saturate ATtiny85 [] 200 99 250 1000 R1 R2 R3 R4)))).
Defined.

(** ** The leap-year flag and the daylight-savings code *)

Lemma land_1 d : Z.land d 1 = d mod 2.
Proof. change 1 with (Z.ones 1) at 1. by rewrite Z.land_ones. Qed.

Lemma shiftr_1 d : Z.shiftr d 1 = d / 2.
Proof. by rewrite Z.shiftr_div_pow2. Qed.

(** X2: when both stored values differ from the arguments, [set_misc]
    writes the leap-year flag to MISC position 5 and the two low bits of
    the daylight-savings code to positions 7 (the twos) and 8 (the ones),
    stores both arguments, and leaves every other MISC position as it was,
    the leap-second position 6 included.  What a receiver reads back is
    the code modulo 4: only codes 0 to 3 survive. *)
Theorem set_misc_encodes (st : wwvb) (l : bool) (d : Z) :
  wf st -> is_leap_year_ st <> l -> daylight_savings_ st <> d ->
  rd (MISC (set_misc l d st)) 5 = l /\
  rd (MISC (set_misc l d st)) 7 = (d / 2 mod 2 =? 1) /\
  rd (MISC (set_misc l d st)) 8 = (d mod 2 =? 1) /\
  dst_read (set_misc l d st) = d mod 4 /\
  is_leap_year_ (set_misc l d st) = l /\ daylight_savings_ (set_misc l d st) = d /\
  bits_at (MISC (set_misc l d st)) [0; 1; 2; 3; 4; 6; 9] = bits_at (MISC st) [0; 1; 2; 3; 4; 6; 9].
Proof.
  intros (_ & _ & _ & _ & _ & HM) Nl Nd.
  rewrite set_misc_nf. cbn [MISC is_leap_year_ daylight_savings_ with_MISC
    with_daylight_savings_ with_is_leap_year_].
  rewrite (proj2 (Z.eqb_neq _ _) Nd).
  assert (El : Bool.eqb (is_leap_year_ st) l = false) by (by apply Bool.eqb_false_iff).
  rewrite El. cbv zeta. rewrite land_1, shiftr_1, land_1.
  assert (B7 : to_boolean (d / 2 mod 2) = (d / 2 mod 2 =? 1)).
  { unfold to_boolean. pose proof (Z.mod_pos_bound (d / 2) 2).
    destruct (Z.eqb_spec (d / 2 mod 2) 0), (Z.eqb_spec (d / 2 mod 2) 1); simpl; auto; lia. }
  assert (B8 : to_boolean (d mod 2) = (d mod 2 =? 1)).
  { unfold to_boolean. pose proof (Z.mod_pos_bound d 2).
    destruct (Z.eqb_spec (d mod 2) 0), (Z.eqb_spec (d mod 2) 1); simpl; auto; lia. }
  rewrite B7, B8. unfold dst_read. cbn [MISC with_MISC].
  split10 HM. unfold bits_at, rd. cbn.
  repeat split; try reflexivity.
  destruct (Z.eqb_spec (d / 2 mod 2) 1), (Z.eqb_spec (d mod 2) 1); simpl;
    Z.div_mod_to_equations; lia.
Qed.

Lemma set_misc_encodes_witness :
  dst_read (set_misc false 2 (set_misc true 3 initial)) = 2 /\
  dst_read (set_misc true 7 initial) = 3.
Proof.
  assert (W : wf (set_misc true 3 initial)) by (repeat split).
  assert (N1 : is_leap_year_ (set_misc true 3 initial) <> false) by discriminate.
  assert (N2 : daylight_savings_ (set_misc true 3 initial) <> 2) by discriminate.
  assert (N3 : is_leap_year_ initial <> true) by discriminate.
  assert (N4 : daylight_savings_ initial <> 7) by discriminate.
  split.
  - exact (proj1 (proj2 (proj2 (proj2 (set_misc_encodes _ false 2 W N1 N2))))).
  - exact (proj1 (proj2 (proj2 (proj2 (set_misc_encodes _ true 7 wf_initial N3 N4))))).
Defined.

(** ** Array elements the sequencer never reads *)

Lemma marker_index_false i :
  marker_index i = false ->
  i <> 0 /\ i <> 9 /\ i <> 19 /\ i <> 29 /\ i <> 39 /\ i <> 49 /\ i <> 59.
Proof.
  unfold marker_index. rewrite !orb_false_iff, !Z.eqb_neq. tauto.
Qed.

(** The threshold [set_lowTime] selects, as a function of the index and the
    arrays. *)
Lemma lowTime_of st :
  WWVB_LOWTIME (set_lowTime st) =
  if marker_index (frame_index st) then WWVB_MARKER st
  else if frame_index st <? 10 then pulse_of (pulse_width st) (rd (MINS st) (frame_index st mod 10))
  else if frame_index st <? 20 then pulse_of (pulse_width st) (rd (HOUR st) (frame_index st mod 10))
  else if frame_index st <? 30 then pulse_of (pulse_width st) (rd (DOTY st) (frame_index st mod 10))
  else if frame_index st <? 40 then pulse_of (pulse_width st) (rd (DUT1 st) (frame_index st mod 10))
  else if frame_index st <? 50 then pulse_of (pulse_width st) (rd (YEAR st) (frame_index st mod 10))
  else if frame_index st <? 60 then pulse_of (pulse_width st) (rd (MISC st) (frame_index st mod 10))
  else WWVB_LOWTIME st.
Proof.
  unfold set_lowTime. destruct (marker_index _); [reflexivity|]. cbv zeta. simpl.
  repeat (match goal with |- context [?a <? ?c] => destruct (a <? c) end; [reflexivity|]).
  reflexivity.
Qed.

(** X3: the markers override the arrays.  Element 0 of MINS and element 9
    of each of the six arrays are never transmitted: whatever they hold,
    [set_lowTime] selects the same threshold.  (Element 0 of the other
    five arrays is data: it is read at the indices 10, 20, 30, 40 and
    50.) *)
Theorem markers_override_arrays (st : wwvb) (b : bool) :
  0 <= frame_index st ->
  WWVB_LOWTIME (set_lowTime (wr_MINS 0 b st)) = WWVB_LOWTIME (set_lowTime st) /\
  WWVB_LOWTIME (set_lowTime (wr_MINS 9 b st)) = WWVB_LOWTIME (set_lowTime st) /\
  WWVB_LOWTIME (set_lowTime (wr_HOUR 9 b st)) = WWVB_LOWTIME (set_lowTime st) /\
  WWVB_LOWTIME (set_lowTime (wr_DOTY 9 b st)) = WWVB_LOWTIME (set_lowTime st) /\
  WWVB_LOWTIME (set_lowTime (wr_DUT1 9 b st)) = WWVB_LOWTIME (set_lowTime st) /\
  WWVB_LOWTIME (set_lowTime (wr_YEAR 9 b st)) = WWVB_LOWTIME (set_lowTime st) /\
  WWVB_LOWTIME (set_lowTime (wr_MISC 9 b st)) = WWVB_LOWTIME (set_lowTime st).
Proof.
  intros Hi. rewrite !lowTime_of.
  unfold wr_MINS, wr_HOUR, wr_DOTY, wr_DUT1, wr_YEAR, wr_MISC. simpl.
  destruct (marker_index (frame_index st)) eqn:Hm; [by repeat split|].
  apply marker_index_false in Hm.
  assert (N0 : frame_index st < 10 -> 0%nat <> Z.to_nat (frame_index st mod 10))
    by (intros ?; rewrite Z.mod_small; lia).
  assert (N9 : frame_index st < 60 -> 9%nat <> Z.to_nat (frame_index st mod 10))
    by (intros ?; Z.div_mod_to_equations; lia).
  repeat (match goal with |- context [?a <? ?c] => destruct (Z.ltb_spec a c) end;
    [rewrite ?rd_insert_ne by (first [apply N0|apply N9]; lia); by repeat split|]).
  by repeat split.
Qed.

Lemma markers_override_arrays_witness :
  0 <= frame_index (setup ATtiny85 initial) /\
  WWVB_LOWTIME (set_lowTime (wr_MINS 0 false (setup ATtiny85 initial)))
    = WWVB_LOWTIME (set_lowTime (setup ATtiny85 initial)).
Proof.
  assert (H : 0 <= frame_index (setup ATtiny85 initial)) by discriminate.
  split; [exact H|].
  exact (proj1 (markers_override_arrays (setup ATtiny85 initial) false H)).
Defined.

(** ** Time updates and the modulator *)

(** X4: a time update never touches the sequencer or the modulator:
    [set_time] and [add_time] leave the frame index, the tick counter, the
    threshold in force, the duty register, the timing constants and the
    activity flag as they are.  A time set in the middle of a second
    changes the bits from the next symbol on, not the one being sent. *)
Theorem time_update_keeps_modulator (st : wwvb) (m h D M Y dst : Z) :
  modulator (set_time m h D M Y dst st) = modulator st /\
  modulator (add_time m h st) = modulator st.
Proof.
  split; [apply set_time_steps|apply add_time_steps].
Qed.

(** X5: in every state reached after [setup], the public [set_time] with a
    minute 0-59 and an hour 0-23 stores the supplied time advanced by one
    minute, which is what [get_time] then returns, together with the
    supplied daylight-savings code, the day of the year and the leap-year
    flag of the advanced date. *)
Theorem set_time_returns_next_minute (b : build) (cs : list call) (m h D M Y dst : Z) :
  0 <= m <= 59 -> 0 <= h <= 23 ->
  let st := set_time m h D M Y dst (run_all cs (setup b initial)) in
  get_time st = plus_one_minute (m, h, D, M, Y) /\
  daylight_savings_ st = dst /\
  (let '(_, _, D', M', Y') := plus_one_minute (m, h, D, M, Y) in
   doty_ st = to_day_of_the_year D' M' (is_leap_year (2000 + Y')) /\
   is_leap_year_ st = is_leap_year (2000 + Y')).
Proof.
  intros Hm Hh st.
  pose proof (sane_run_all cs _ (sane_setup b)) as (_ & Hs & _).
  by apply set_time_stored.
Qed.

Lemma set_time_returns_next_minute_witness :
  (0 <= 59 <= 59 /\ 0 <= 23 <= 23) /\
  get_time (set_time 59 23 28 2 24 0 (run_all [] (setup ATtiny85 initial))) = (0, 0, 29, 2, 24).
Proof.
  assert (H1 : 0 <= 59 <= 59) by lia. assert (H2 : 0 <= 23 <= 23) by lia.
  split; [exact (conj H1 H2)|].
  exact (proj1 (set_time_returns_next_minute ATtiny85 [] 59 23 28 2 24 0 H1 H2)).
Defined.

(** ** The daylight-savings code at the minute rollover *)

Lemma set_misc_dst l d st :
  wf st ->
  daylight_savings_ (set_misc l d st) = d /\
  (daylight_savings_ st <> d -> dst_read (set_misc l d st) = d mod 4) /\
  (daylight_savings_ st = d -> dst_read (set_misc l d st) = dst_read st).
Proof.
  intros (_ & _ & _ & _ & _ & HM).
  rewrite set_misc_nf. unfold dst_read.
  cbn [MISC daylight_savings_ with_MISC with_daylight_savings_ with_is_leap_year_].
  cbv zeta. rewrite land_1, shiftr_1, land_1.
  split; [reflexivity|]. split10 HM. split.
  - intros Nd. rewrite (proj2 (Z.eqb_neq _ _) Nd).
    unfold to_boolean, rd.
    destruct (Bool.eqb _ _), (Z.eqb_spec (d / 2 mod 2) 0), (Z.eqb_spec (d mod 2) 0); simpl;
      Z.div_mod_to_equations; lia.
  - intros Ed. rewrite (proj2 (Z.eqb_eq _ _) Ed). unfold rd. by destruct (Bool.eqb _ _).
Qed.

Lemma set_time_priv_dst d st :
  wf st ->
  daylight_savings_ (set_time_priv d st) = d /\
  (daylight_savings_ st <> d -> dst_read (set_time_priv d st) = d mod 4).
Proof.
  intros Hwf. rewrite set_time_priv_eq.
  match goal with |- context [set_misc ?l _ ?s] =>
    assert (Hx : wf s /\ daylight_savings_ s = daylight_savings_ st);
    [|generalize dependent s; intros s' (Hw & <-);
      destruct (set_misc_dst l d s' Hw) as (E1 & E2 & _); by split] end.
  split.
  - repeat (eapply encoder_step_wf;
      [first [apply set_year_step|apply set_doty_step|apply set_month_step|apply set_day_step
             |apply set_hour_step|apply set_mins_step]|]).
    exact Hwf.
  - shape_mins. shape_hour. rewrite set_day_nf, set_month_nf. shape_doty. shape_year. reflexivity.
Qed.

(** X6: [add_time] calls the private [set_time] with its default argument,
    so it always stores daylight-savings code 0, and when the stored code
    was not 0 it clears both daylight-savings bits of MISC.  In particular
    the code given to the public [set_time] is lost at the first minute
    rollover (the end of bit at frame index 59). *)
Theorem add_time_clears_dst (st : wwvb) (m h : Z) :
  wf st ->
  daylight_savings_ (add_time m h st) = 0 /\
  (daylight_savings_ st <> 0 -> dst_read (add_time m h st) = 0) /\
  (frame_index st = 59 ->
   daylight_savings_ (end_of_bit st) = 0 /\
   (daylight_savings_ st <> 0 -> dst_read (end_of_bit st) = 0)).
Proof.
  intros Hwf.
  assert (A : forall m h, daylight_savings_ (add_time m h st) = 0 /\
    (daylight_savings_ st <> 0 -> dst_read (add_time m h st) = 0)).
  { intros m' h'. unfold add_time, get_time.
    destruct (addTimezone_t_shape 0 m' h'
      (with_t_YY (YY_ st) (with_t_MM (MM_ st) (with_t_DD (DD_ st)
        (with_t_hh (hour_ st) (with_t_mm (mins_ st) st))))))
      as (ss & mm & hh & DD & MM & YY & _ & ->).
    match goal with |- context [set_time_priv 0 ?s] =>
      destruct (set_time_priv_dst 0 s Hwf) as (E1 & E2) end.
    split; [exact E1|]. intros N. by apply E2. }
  split; [apply A|]. split; [apply A|].
  intros E59. destruct (end_of_bit_wrap st E59) as (_ & _ & _ & Ec).
  destruct (A 1 0) as (A1 & A2).
  generalize dependent (add_time 1 0 st). intros sa Ec A1 A2.
  generalize dependent (end_of_bit st). intros r Ec.
  pose proof (clock_frames _ _ Ec) as F. pose proof (clock_saved _ _ Ec) as S.
  unfold frames in F. unfold saved in S. unfold dst_read.
  injection F as _ _ _ _ _ ->. injection S as _ _ _ _ _ _ _ ->.
  by split.
Qed.

Lemma add_time_clears_dst_witness :
  wf (set_time 30 12 15 6 24 3 (setup ATtiny85 initial)) /\
  daylight_savings_ (set_time 30 12 15 6 24 3 (setup ATtiny85 initial)) = 3 /\
  daylight_savings_ (add_time 1 0 (set_time 30 12 15 6 24 3 (setup ATtiny85 initial))) = 0.
Proof.
  assert (W : wf (set_time 30 12 15 6 24 3 (setup ATtiny85 initial))) by (by vm_compute).
  split; [exact W|]. split; [reflexivity|].
  exact (proj1 (add_time_clears_dst _ 1 0 W)).
Defined.

(** ** Setting the same time twice *)

Lemma addTimezone_seconds ss mm hh DD MM YY dh dm ds :
  fst (fst (fst (fst (fst (addTimezone ss mm hh DD MM YY dh dm ds))))) = (ss + ds) mod 60.
Proof.
  unfold addTimezone. cbv zeta.
  by destruct (Nat.iter _ next_day (DD, MM, YY)) as [[? ?] ?].
Qed.

Lemma set_day_same st : set_day (DD_ st) st = st.
Proof. unfold set_day. by rewrite Z.eqb_refl. Qed.

Lemma set_month_same st : set_month (MM_ st) st = st.
Proof. unfold set_month. by rewrite Z.eqb_refl. Qed.

Lemma set_misc_same st : set_misc (is_leap_year_ st) (daylight_savings_ st) st = st.
Proof. unfold set_misc. by rewrite Bool.eqb_reflx, Z.eqb_refl. Qed.

(** When the stored time already is what the temporaries hold, the private
    [set_time] changes nothing. *)
Lemma set_time_priv_same d st :
  get_time st = (t_mm st, t_hh st, t_DD st, t_MM st, t_YY st) ->
  doty_ st = to_day_of_the_year (t_DD st) (t_MM st) (is_leap_year (2000 + t_YY st)) ->
  is_leap_year_ st = is_leap_year (2000 + t_YY st) ->
  daylight_savings_ st = d ->
  set_time_priv d st = st.
Proof.
  unfold get_time. intros [= E1 E2 E3 E4 E5] E6 E7 E8.
  rewrite set_time_priv_eq, <- E6, <- E7, <- E8, <- E1, <- E2, <- E3, <- E4, <- E5.
  by rewrite set_mins_same, set_hour_same, set_day_same, set_month_same, set_doty_same,
    set_year_same, set_misc_same.
Qed.

(** X7: calling the public [set_time] twice with the same arguments is
    calling it once, in any state whose seconds temporary is below 60 (every
    state reached after [setup]): the second call finds every stored field
    equal and rewrites nothing. *)
Theorem set_time_twice (st : wwvb) (m h D M Y dst : Z) :
  0 <= t_ss st < 60 ->
  set_time m h D M Y dst (set_time m h D M Y dst st) = set_time m h D M Y dst st.
Proof.
  intros Hs.
  assert (F : exists ss mm hh DD MM YY s1,
    set_time m h D M Y dst st = s1 /\
    addTimezone (t_ss st) m h D M Y 0 1 0 = (ss, mm, hh, DD, MM, YY) /\
    temps s1 = (ss, mm, hh, DD, MM, YY) /\
    get_time s1 = (mm, hh, DD, MM, YY) /\
    doty_ s1 = to_day_of_the_year DD MM (is_leap_year (2000 + YY)) /\
    is_leap_year_ s1 = is_leap_year (2000 + YY) /\ daylight_savings_ s1 = dst).
  { unfold set_time.
    destruct (addTimezone_t_shape 0 1 0
      (with_t_YY Y (with_t_MM M (with_t_DD D (with_t_hh h (with_t_mm m st))))))
      as (ss & mm & hh & DD & MM & YY & E & ->).
    simpl in E. exists ss, mm, hh, DD, MM, YY.
    match goal with |- context [set_time_priv ?d ?s] =>
      destruct (set_time_priv_stored d s) as (G1 & G2 & G3 & G4);
      destruct (set_time_priv_step d s) as (_ & T & _);
      exists (set_time_priv d s) end.
    by repeat split. }
  destruct F as (ss & mm & hh & DD & MM & YY & s1 & -> & E & T & G & Gd & Gl & Gs).
  assert (Ess : ss = t_ss st).
  { pose proof (addTimezone_seconds (t_ss st) m h D M Y 0 1 0) as H.
    rewrite E in H. simpl in H. rewrite Z.add_0_r, Z.mod_small in H by lia. exact H. }
  subst ss.
  unfold temps in T. injection T as T1 T2 T3 T4 T5 T6.
  unfold set_time, addTimezone_t.
  cbn [t_ss t_mm t_hh t_DD t_MM t_YY with_t_mm with_t_hh with_t_DD with_t_MM with_t_YY].
  rewrite T1, E.
  assert (Eq : with_t_YY YY (with_t_MM MM (with_t_DD DD (with_t_hh hh (with_t_mm mm
    (with_t_ss (t_ss st) (with_t_YY Y (with_t_MM M (with_t_DD D
      (with_t_hh h (with_t_mm m s1)))))))))) = s1).
  { rewrite <- T1, <- T2, <- T3, <- T4, <- T5, <- T6. by destruct s1. }
  rewrite Eq.
  apply set_time_priv_same; by rewrite ?T2, ?T3, ?T4, ?T5, ?T6.
Qed.

Lemma set_time_twice_witness :
  0 <= t_ss (setup ATtiny85 initial) < 60 /\
  set_time 30 12 15 6 24 0 (set_time 30 12 15 6 24 0 (setup ATtiny85 initial))
    = set_time 30 12 15 6 24 0 (setup ATtiny85 initial).
Proof.
  assert (H : 0 <= t_ss (setup ATtiny85 initial) < 60) by (split; [discriminate|reflexivity]).
  split; [exact H|]. exact (set_time_twice _ 30 12 15 6 24 0 H).
Defined.

(** ** The activity flag *)

Lemma modulator_active st st' : modulator st' = modulator st -> _is_active st' = _is_active st.
Proof. unfold modulator. by intros [= _ _ _ _ _ _ _ _ _ _ _ -> _]. Qed.

Lemma end_of_bit_active st : _is_active (end_of_bit st) = _is_active st.
Proof.
  rewrite end_of_bit_eq. cbv zeta.
  set (s0 := with_frame_index _ (with_OCR1x (PWM_LOW st) st)).
  destruct (incr8 (frame_index st) =? 60).
  - destruct (add_time_steps 1 0 s0) as (Hm & _).
    generalize dependent (add_time 1 0 s0). intros sa Hm.
    apply modulator_active in Hm.
    destruct (set_lowTime_shape (with_subframe_index (frame_index (with_frame_index 0 sa) mod 10)
      (with_frame_index 0 sa))) as (i & l & ->).
    exact Hm.
  - by destruct (set_lowTime_shape (with_subframe_index (frame_index s0 mod 10) s0))
      as (i & l & ->).
Qed.

Lemma run_active c st :
  is_active (run c st) =
  match c with Start | Resume => true | Stop => false | _ => is_active st end.
Proof.
  unfold is_active. destruct c; cbn [run].
  - apply modulator_active, set_time_steps.
  - apply modulator_active, add_time_steps.
  - destruct (interrupt_routine_cases st) as [-> | [-> | ->]]; try reflexivity.
    by rewrite end_of_bit_active.
  - by destruct (start_shape st) as (i & l & ->).
  - reflexivity.
  - reflexivity.
  - reflexivity.
  - reflexivity.
Qed.

(** X8: [is_active] reports the last of [start], [resume] and [stop]:
    after any sequence of calls it is true when the last of these three
    was [start] or [resume], false when it was [stop], and unchanged when
    there was none.  No timer interrupt, time update or duty call changes
    it. *)
Theorem is_active_tracks_calls (cs : list call) (st : wwvb) :
  is_active (run_all cs st) = activity cs (is_active st).
Proof.
  revert st. induction cs as [|c cs IH]; intros st; [reflexivity|].
  unfold run_all, activity in *. cbn [fold_left]. rewrite IH, run_active. reflexivity.
Qed.

(** ** The subframes follow the stored time *)

(** X9: in every state from [setup] on, a subframe whose stored field is
    not 0 is in step with it: the minute, hour, day-of-year and year bits
    are the weight ladder of the stored minute, hour, day of the year and
    year.  Only a field that still holds its initial 0 can have bits that
    were never encoded. *)
Theorem subframes_follow_stored_time (b : build) (cs : list call) :
  (mins_ (run_all cs (setup b initial)) <> 0 -> mins_synced (run_all cs (setup b initial))) /\
  (hour_ (run_all cs (setup b initial)) <> 0 -> hour_synced (run_all cs (setup b initial))) /\
  (doty_ (run_all cs (setup b initial)) <> 0 -> doty_synced (run_all cs (setup b initial))) /\
  (YY_ (run_all cs (setup b initial)) <> 0 -> year_synced (run_all cs (setup b initial))).
Proof.
  pose proof (sane_run_all cs _ (sane_setup b)) as (_ & _ & _ & _ & _ & _ & _ & Hd).
  pose proof (encoded_run_all cs _ (sane_setup b) (encoded_setup b)) as (Em & Eh & Ey).
  tauto.
Qed.

(** ** A bit that starts with the counter running *)

(** Ticks from any counter value, as long as the end of the bit is not
    reached: the counter counts, and the output goes to the high duty once
    the counter passes the threshold. *)
Lemma ticks_from st (k : nat) :
  0 <= isr_count st -> isr_count st + Z.of_nat k < WWVB_ENDOFBIT st ->
  WWVB_ENDOFBIT st < 65536 ->
  ticks k st =
    with_OCR1x (if (isr_count st <? WWVB_LOWTIME st) && (WWVB_LOWTIME st <=? isr_count st + Z.of_nat k)
                then PWM_HIGH st else OCR1x st)
      (with_isr_count (isr_count st + Z.of_nat k) st).
Proof.
  intros Hc Hk HE. induction k as [|k IH].
  - change (Z.of_nat 0) with 0. rewrite Z.add_0_r.
    destruct (Z.ltb_spec (isr_count st) (WWVB_LOWTIME st)),
      (Z.leb_spec (WWVB_LOWTIME st) (isr_count st)); try lia; by destruct st.
  - rewrite ticks_succ, IH by lia.
    unfold interrupt_routine. cbv zeta.
    assert (Ei : incr16 (isr_count st + Z.of_nat k) = isr_count st + Z.of_nat (S k))
      by (unfold incr16; rewrite Z.mod_small; lia).
    cbn [isr_count with_OCR1x with_isr_count WWVB_LOWTIME WWVB_ENDOFBIT PWM_HIGH].
    rewrite Ei.
    destruct (Z.leb_spec (WWVB_ENDOFBIT st) (isr_count st + Z.of_nat (S k))); [lia|].
    destruct (Z.eqb_spec (isr_count st + Z.of_nat (S k)) (WWVB_LOWTIME st)) as [El|Nl].
    + destruct (Z.ltb_spec (isr_count st) (WWVB_LOWTIME st)),
        (Z.leb_spec (WWVB_LOWTIME st) (isr_count st + Z.of_nat (S k))); try lia. reflexivity.
    + destruct (Z.ltb_spec (isr_count st) (WWVB_LOWTIME st)),
        (Z.leb_spec (WWVB_LOWTIME st) (isr_count st + Z.of_nat k)),
        (Z.leb_spec (WWVB_LOWTIME st) (isr_count st + Z.of_nat (S k))); try lia; reflexivity.
Qed.

Lemma start_modulator st :
  isr_count (start st) = isr_count st /\ frame_index (start st) = 0 /\
  WWVB_LOWTIME (start st) = WWVB_MARKER st /\ OCR1x (start st) = PWM_LOW st /\
  timing (start st) = timing st.
Proof.
  unfold start, resume. cbv zeta.
  match goal with |- context [set_lowTime ?s] =>
    pose proof (set_lowTime_marker s) as Hm;
    destruct (set_lowTime_shape s) as (i & l & E);
    generalize dependent (set_lowTime s) end.
  intros s' Hm ->. simpl in *. rewrite Hm by reflexivity. done.
Qed.

(** [start] with the counter at [c]: the counter goes on from [c], the output
    rises when it reaches the marker threshold, and the tick that brings it
    to the end-of-bit count ends the marker. *)
Lemma start_from_counter (st : wwvb) :
  0 < WWVB_MARKER st < WWVB_ENDOFBIT st -> WWVB_ENDOFBIT st < 65536 ->
  0 <= isr_count st < WWVB_ENDOFBIT st ->
  isr_count (start st) = isr_count st /\
  (forall k : nat, isr_count st + Z.of_nat k < WWVB_ENDOFBIT st ->
     isr_count (ticks k (start st)) = isr_count st + Z.of_nat k /\
     OCR1x (ticks k (start st)) =
       if (isr_count st <? WWVB_MARKER st) && (WWVB_MARKER st <=? isr_count st + Z.of_nat k)
       then PWM_HIGH st else PWM_LOW st) /\
  frame_index (ticks (Z.to_nat (WWVB_ENDOFBIT st - isr_count st)) (start st)) = 1 /\
  isr_count (ticks (Z.to_nat (WWVB_ENDOFBIT st - isr_count st)) (start st)) = 0 /\
  OCR1x (ticks (Z.to_nat (WWVB_ENDOFBIT st - isr_count st)) (start st)) = PWM_LOW st.
Proof.
  intros Hm HE Hc.
  destruct (start_modulator st) as (S1 & S2 & S3 & S4 & S5).
  assert (S6 : WWVB_ENDOFBIT (start st) = WWVB_ENDOFBIT st)
    by exact (f_equal (fun t => snd (fst (fst (fst t)))) S5).
  assert (S7 : PWM_HIGH (start st) = PWM_HIGH st) by exact (f_equal snd S5).
  assert (S8 : PWM_LOW (start st) = PWM_LOW st) by exact (f_equal (fun t => snd (fst t)) S5).
  generalize dependent (start st). intros s S1 S2 S3 S4 S5 S6 S7 S8.
  assert (W : forall k : nat, isr_count st + Z.of_nat k < WWVB_ENDOFBIT st ->
    ticks k s =
      with_OCR1x (if (isr_count st <? WWVB_MARKER st) && (WWVB_MARKER st <=? isr_count st + Z.of_nat k)
                  then PWM_HIGH st else PWM_LOW st)
        (with_isr_count (isr_count st + Z.of_nat k) s)).
  { intros k Hk. rewrite ticks_from by lia. by rewrite S1, S3, S4, S7. }
  split; [exact S1|]. split.
  { intros k Hk. by rewrite (W k Hk). }
  replace (Z.to_nat (WWVB_ENDOFBIT st - isr_count st))
    with (S (Z.to_nat (WWVB_ENDOFBIT st - isr_count st - 1))) by lia.
  rewrite ticks_succ, W by lia.
  rewrite Z2Nat.id by lia.
  replace (isr_count st + (WWVB_ENDOFBIT st - isr_count st - 1)) with (WWVB_ENDOFBIT st - 1) by lia.
  match goal with |- context [with_OCR1x (if ?c then ?x else ?y) _] =>
    generalize (if c then x else y) end.
  intros o.
  unfold interrupt_routine. cbv zeta.
  cbn [isr_count with_OCR1x with_isr_count WWVB_LOWTIME WWVB_ENDOFBIT PWM_HIGH].
  assert (Ei : incr16 (WWVB_ENDOFBIT st - 1) = WWVB_ENDOFBIT st)
    by (unfold incr16; rewrite Z.mod_small; lia).
  rewrite Ei, S3, S6.
  destruct (Z.eqb_spec (WWVB_ENDOFBIT st) (WWVB_MARKER st)); [lia|].
  destruct (Z.leb_spec (WWVB_ENDOFBIT st) (WWVB_ENDOFBIT st)); [|lia].
  set (s' := with_isr_count (WWVB_ENDOFBIT st) _).
  assert (Hi : 0 <= frame_index s' < 60) by (unfold s'; simpl; lia).
  destruct (end_of_bit_modulator s' Hi) as (E1 & E2 & _).
  rewrite end_of_bit_frame_index, E1, E2 by exact Hi.
  unfold s'. simpl. by rewrite S2, S8.
Qed.

(** ** The values the modulator can take *)

Lemma in_bit_ext st st' : modulator st' = modulator st -> in_bit st -> in_bit st'.
Proof.
  unfold modulator, in_bit. by intros [= -> _ -> -> -> -> -> -> -> -> _ _ ->].
Qed.

Lemma in_bit_setup b : in_bit (setup b initial).
Proof.
  unfold setup, fast_branch.
  destruct (attiny b), (F_CPU b =? 16000000), (F_CPU b =? 8000000);
    vm_compute; repeat split; auto; discriminate.
Qed.

Lemma in_bit_end_of_bit st :
  in_bit (with_isr_count 0 st) -> in_bit (end_of_bit st).
Proof.
  intros (_ & HE & HL & HM & Hp & _ & _ & Hi).
  cbn [isr_count with_isr_count WWVB_ENDOFBIT WWVB_LOW WWVB_MARKER pulse_width frame_index]
    in HE, HL, HM, Hp, Hi.
  destruct (end_of_bit_modulator st Hi) as (E1 & E2 & E3).
  pose proof (end_of_bit_frame_index st Hi) as E4.
  destruct (end_of_bit_keeps st) as (_ & E5).
  generalize dependent (end_of_bit st). intros s E1 E2 E3 E4 E5.
  unfold timing in E5. injection E5 as T1 T2 T3 T4 T5 T6 T7.
  unfold in_bit. rewrite E1, E2, E4, T1, T3, T4, T5, T6.
  split; [lia|]. split; [exact HE|]. split; [exact HL|]. split; [exact HM|].
  split; [exact Hp|]. split.
  - destruct E3 as [->|(b & ->)]; [by right|]. rewrite Hp. destruct b; [by right|by left].
  - split; [by left|]. apply Z.mod_pos_bound. lia.
Qed.

Lemma in_bit_run c st : in_bit st -> in_bit (run c st).
Proof.
  intros Hs. destruct c; cbn [run].
  - eapply in_bit_ext; [apply set_time_steps|exact Hs].
  - eapply in_bit_ext; [apply add_time_steps|exact Hs].
  - pose proof Hs as (Hc & HE & HL & HM & Hp & Ht & Ho & Hi).
    unfold interrupt_routine. cbv zeta.
    assert (Ei : incr16 (isr_count st) = isr_count st + 1)
      by (unfold incr16; rewrite Z.mod_small; lia).
    cbn [isr_count with_isr_count WWVB_LOWTIME WWVB_ENDOFBIT PWM_HIGH]. rewrite Ei.
    destruct (Z.eqb_spec (isr_count st + 1) (WWVB_LOWTIME st)) as [El|Nl].
    + unfold in_bit. simpl. repeat split; auto; lia.
    + destruct (Z.leb_spec (WWVB_ENDOFBIT st) (isr_count st + 1)).
      * apply in_bit_end_of_bit. unfold in_bit. simpl. repeat split; auto; lia.
      * unfold in_bit. simpl. repeat split; auto; lia.
  - pose proof Hs as (Hc & HE & HL & HM & Hp & Ht & Ho & Hi).
    destruct (start_modulator st) as (S1 & S2 & S3 & S4 & S5).
    generalize dependent (start st). intros s S1 S2 S3 S4 S5.
    unfold timing in S5. injection S5 as T1 T2 T3 T4 T5 T6 T7.
    unfold in_bit. rewrite S1, S2, S3, S4, T1, T3, T4, T5, T6, T7.
    repeat split; auto; lia.
  - exact Hs.
  - exact Hs.
  - destruct Hs as (Hc & HE & HL & HM & Hp & Ht & Ho & Hi).
    unfold in_bit, set_low. simpl. repeat split; auto; lia.
  - destruct Hs as (Hc & HE & HL & HM & Hp & Ht & Ho & Hi).
    unfold in_bit, set_high. simpl. repeat split; auto; lia.
Qed.

Lemma in_bit_run_all cs st : in_bit st -> in_bit (run_all cs st).
Proof.
  revert st. induction cs as [|c cs IH]; intros st Hs; simpl; [done|].
  by apply IH, in_bit_run.
Qed.

(** X10: in every state from [setup] on, on every build and after any
    calls, the tick counter is below the end-of-bit count (it never wraps
    its 16 bits), the duty register holds the low or the high duty value,
    the frame index is below 60, and the threshold in force is the LOW or
    the MARKER threshold: [WWVB_HIGH] is never in force, so a 1 bit is sent
    with the pulse of a marker. *)
Theorem modulator_stays_in_bit (b : build) (cs : list call) :
  0 <= isr_count (run_all cs (setup b initial)) < WWVB_ENDOFBIT (run_all cs (setup b initial)) /\
  WWVB_ENDOFBIT (run_all cs (setup b initial)) < 65536 /\
  (OCR1x (run_all cs (setup b initial)) = PWM_LOW (run_all cs (setup b initial)) \/
   OCR1x (run_all cs (setup b initial)) = PWM_HIGH (run_all cs (setup b initial))) /\
  0 <= frame_index (run_all cs (setup b initial)) < 60 /\
  (WWVB_LOWTIME (run_all cs (setup b initial)) = WWVB_LOW (run_all cs (setup b initial)) \/
   WWVB_LOWTIME (run_all cs (setup b initial)) = WWVB_MARKER (run_all cs (setup b initial))) /\
  WWVB_LOWTIME (run_all cs (setup b initial)) <> WWVB_HIGH (run_all cs (setup b initial)) /\
  timing (run_all cs (setup b initial)) = timing (setup b initial).
Proof.
  pose proof (in_bit_run_all cs _ (in_bit_setup b)) as (Hc & HE & HL & HM & Hp & Ht & Ho & Hi).
  destruct (run_all_keeps cs (setup b initial)) as (_ & T).
  assert (Hh : WWVB_LOW (setup b initial) <> WWVB_HIGH (setup b initial) /\
               WWVB_MARKER (setup b initial) <> WWVB_HIGH (setup b initial)).
  { unfold setup, fast_branch.
    by destruct (attiny b), (F_CPU b =? 16000000), (F_CPU b =? 8000000). }
  generalize dependent (run_all cs (setup b initial)). intros s Hc HE HL HM Hp Ht Ho Hi T.
  assert (T1 : WWVB_LOW s = WWVB_LOW (setup b initial))
    by exact (f_equal (fun t => fst (fst (fst (fst (fst (fst t)))))) T).
  assert (T2 : WWVB_HIGH s = WWVB_HIGH (setup b initial))
    by exact (f_equal (fun t => snd (fst (fst (fst (fst (fst t)))))) T).
  assert (T3 : WWVB_MARKER s = WWVB_MARKER (setup b initial))
    by exact (f_equal (fun t => snd (fst (fst (fst (fst t))))) T).
  repeat split; auto; lia.
Qed.

(** X11: [start] resets the frame index and the output and selects the
    marker, but not the tick counter.  In every state from [setup] on,
    [start] called with the counter at [c] leaves it at [c], so the first
    marker lasts only the [E - c] ticks that are left of the bit: the
    counter goes on from [c], the output rises when the counter reaches the
    marker threshold, which never happens when [c] is already past it, and
    the tick that brings the counter to the end-of-bit count ends the
    marker and moves to index 1. *)
Theorem start_keeps_tick_counter (b : build) (cs : list call) :
  isr_count (start (run_all cs (setup b initial))) = isr_count (run_all cs (setup b initial)) /\
  (forall k : nat,
     isr_count (run_all cs (setup b initial)) + Z.of_nat k
       < WWVB_ENDOFBIT (run_all cs (setup b initial)) ->
     isr_count (ticks k (start (run_all cs (setup b initial)))) =
       isr_count (run_all cs (setup b initial)) + Z.of_nat k /\
     OCR1x (ticks k (start (run_all cs (setup b initial)))) =
       if (isr_count (run_all cs (setup b initial)) <? WWVB_MARKER (run_all cs (setup b initial)))
          && (WWVB_MARKER (run_all cs (setup b initial))
                <=? isr_count (run_all cs (setup b initial)) + Z.of_nat k)
       then PWM_HIGH (run_all cs (setup b initial)) else PWM_LOW (run_all cs (setup b initial))) /\
  frame_index (ticks (Z.to_nat (WWVB_ENDOFBIT (run_all cs (setup b initial))
                                  - isr_count (run_all cs (setup b initial))))
                 (start (run_all cs (setup b initial)))) = 1 /\
  isr_count (ticks (Z.to_nat (WWVB_ENDOFBIT (run_all cs (setup b initial))
                                - isr_count (run_all cs (setup b initial))))
               (start (run_all cs (setup b initial)))) = 0.
Proof.
  pose proof (in_bit_run_all cs _ (in_bit_setup b)) as (Hc & HE & _ & HM & _).
  destruct (start_from_counter _ HM HE Hc) as (H1 & H2 & H3 & H4 & _).
  done.
Qed.

(** At counter 50000 of the 60606 of the bit, past the marker threshold
    48485: the restarted marker ends after 10606 ticks and the output never
    rises. *)
Example restart_past_the_threshold :
  isr_count (start (ticks (Z.to_nat 50000) (start (setup ATtiny85 initial)))) = 50000 /\
  OCR1x (ticks (Z.to_nat 10605) (start (ticks (Z.to_nat 50000) (start (setup ATtiny85 initial)))))
    = 6 /\
  frame_index
    (ticks (Z.to_nat 10606) (start (ticks (Z.to_nat 50000) (start (setup ATtiny85 initial))))) = 1.
Proof. by vm_compute. Qed.

(** ** One frame of ticks *)

Lemma ticks_add a b st : ticks (a + b) st = ticks b (ticks a st).
Proof. unfold ticks. rewrite Nat.add_comm. apply Nat.iter_add. Qed.

(** One bit-second of ticks from a bit start. *)
Lemma one_bit st :
  bit_start st ->
  bit_start (ticks (Z.to_nat (WWVB_ENDOFBIT st)) st) /\
  timing (ticks (Z.to_nat (WWVB_ENDOFBIT st)) st) = timing st /\
  frame_index (ticks (Z.to_nat (WWVB_ENDOFBIT st)) st) = (frame_index st + 1) mod 60 /\
  clock (ticks (Z.to_nat (WWVB_ENDOFBIT st)) st) =
    (if frame_index st =? 59 then clock (add_time 1 0 st) else clock st).
Proof.
  intros Hb. destruct (bit_start_next st Hb) as (N1 & _ & _ & N4).
  pose proof Hb as (_ & _ & _ & Hi & _).
  split; [exact N1|]. split; [|split; [exact N4|]].
  - rewrite (ticks_end st Hb).
    match goal with |- timing (end_of_bit ?s) = _ =>
      destruct (end_of_bit_keeps s) as (_ & ->) end.
    reflexivity.
  - rewrite (ticks_end st Hb).
    set (s := with_isr_count (WWVB_ENDOFBIT st) (with_OCR1x (PWM_HIGH st) st)).
    assert (Ec : clock s = clock st) by reflexivity.
    assert (Ef : frame_index s = frame_index st) by reflexivity.
    clearbody s.
    destruct (Z.eqb_spec (frame_index st) 59) as [E|N].
    + destruct (end_of_bit_wrap s) as (_ & _ & _ & ->); [lia|]. by apply add_time_clock.
    + destruct (end_of_bit_next s) as (_ & ->); [lia|]. exact Ec.
Qed.

Lemma timing_endofbit st st' : timing st' = timing st -> WWVB_ENDOFBIT st' = WWVB_ENDOFBIT st.
Proof. intros H. exact (f_equal (fun t => snd (fst (fst (fst t)))) H). Qed.

(** [n] bit-seconds that stay within the frame. *)
Lemma bits_within (n : nat) st :
  bit_start st -> frame_index st + Z.of_nat n <= 59 ->
  bit_start (ticks (n * Z.to_nat (WWVB_ENDOFBIT st)) st) /\
  timing (ticks (n * Z.to_nat (WWVB_ENDOFBIT st)) st) = timing st /\
  frame_index (ticks (n * Z.to_nat (WWVB_ENDOFBIT st)) st) = frame_index st + Z.of_nat n /\
  clock (ticks (n * Z.to_nat (WWVB_ENDOFBIT st)) st) = clock st.
Proof.
  revert st. induction n as [|n IH]; intros st Hb Hn.
  - change (ticks (0 * _) st) with st. by rewrite Z.add_0_r.
  - pose proof Hb as (_ & _ & _ & Hi & _).
    destruct (one_bit st Hb) as (B1 & B2 & B3 & B4).
    change (S n * Z.to_nat (WWVB_ENDOFBIT st))%nat
      with (Z.to_nat (WWVB_ENDOFBIT st) + n * Z.to_nat (WWVB_ENDOFBIT st))%nat.
    rewrite ticks_add.
    rewrite Z.mod_small in B3 by lia.
    destruct (Z.eqb_spec (frame_index st) 59) as [E|_]; [lia|].
    pose proof (timing_endofbit _ _ B2) as B5.
    generalize dependent (ticks (Z.to_nat (WWVB_ENDOFBIT st)) st). intros s1 B1 B2 B3 B4 B5.
    rewrite <- B5.
    destruct (IH s1 B1) as (I1 & I2 & I3 & I4); [lia|].
    split; [exact I1|]. split; [by rewrite I2|]. split; [lia|]. by rewrite I4.
Qed.

(** X12: sixty bit-seconds of timer interrupts are one minute.  From the
    start of any bit, after 60 times the end-of-bit count of ticks the
    sequencer is at the start of a bit with the same frame index, and the
    stored time and the subframes are those one call of [add_time(1, 0)]
    gives: the rollover happened exactly once. *)
Theorem one_frame_one_minute (st : wwvb) :
  bit_start st ->
  bit_start (ticks (60 * Z.to_nat (WWVB_ENDOFBIT st)) st) /\
  frame_index (ticks (60 * Z.to_nat (WWVB_ENDOFBIT st)) st) = frame_index st /\
  clock (ticks (60 * Z.to_nat (WWVB_ENDOFBIT st)) st) = clock (add_time 1 0 st).
Proof.
  intros Hb. pose proof Hb as (_ & _ & _ & Hi & _).
  set (E := Z.to_nat (WWVB_ENDOFBIT st)).
  set (i := Z.to_nat (frame_index st)).
  assert (En : (60 * E = (59 - i) * E + (E + i * E))%nat) by nia.
  rewrite En, !ticks_add.
  destruct (bits_within (59 - i) st Hb) as (A1 & A2 & A3 & A4); [lia|].
  fold E in A1, A2, A3, A4.
  pose proof (timing_endofbit _ _ A2) as A5.
  generalize dependent (ticks ((59 - i) * E) st). intros s1 A1 A2 A3 A4 A5.
  destruct (one_bit s1 A1) as (B1 & B2 & B3 & B4).
  rewrite A5 in B1, B2, B3, B4. fold E in B1, B2, B3, B4.
  assert (F59 : frame_index s1 = 59) by lia.
  rewrite F59 in B3, B4. change ((59 + 1) mod 60) with 0 in B3. simpl in B4.
  rewrite (add_time_clock 1 0 s1 st A4) in B4.
  pose proof (timing_endofbit _ _ B2) as B5. rewrite A5 in B5.
  generalize dependent (ticks E s1). intros s2 B1 B2 B3 B4 B5.
  destruct (bits_within i s2 B1) as (C1 & C2 & C3 & C4); [lia|].
  rewrite B5 in C1, C2, C3, C4. fold E in C1, C2, C3, C4.
  assert (G : clock (ticks (i * E) s2) = clock (add_time 1 0 st)) by (by rewrite C4).
  split; [exact C1|]. split; [lia|]. exact G.
Qed.

Lemma one_frame_one_minute_witness :
  bit_start (start (setup ATtiny85 initial)) /\
  frame_index (ticks (60 * Z.to_nat (WWVB_ENDOFBIT (start (setup ATtiny85 initial))))
    (start (setup ATtiny85 initial))) = frame_index (start (setup ATtiny85 initial)).
Proof.
  assert (H : bit_start (start (setup ATtiny85 initial))) by decide_closed.
  split; [exact H|].
  exact (proj1 (proj2 (one_frame_one_minute _ H))).
Defined.
